(** * Bond_Fabric: the three chaincodes over a key-value ledger

    A shallow embedding of the Go chaincodes of the repository

      - [BondToken]        (issuance, transfer, balances),
      - [Compliance]       (KYC records, AML checks, the compliance gate),
      - [CorporateAction]  (coupon payments, redemptions),

    together with the properties of the specification that concern them.

    Every contract method is a transaction over the world state of its
    chaincode: a finite map from string keys to stored JSON documents.  The
    methods are written in a state-and-error monad whose steps follow the
    Go statements one by one, so that a failing call shows exactly the
    writes that were issued before the failure.

    Conventions of the embedding:
      - [int64] is [Z] with the wrap-around of [+] and [-] written out;
        [float64] is a primitive float; [int] (a risk score) is [Z], no
        arithmetic being done on it;
      - a Go string is a [string] of bytes.  [json.Marshal] followed by
        [json.Unmarshal] gives back a string that is valid UTF-8
        ([validUTF8]) and replaces every other byte by U+FFFD: the
        documents are modelled on valid UTF-8 strings, and a property of
        what is read back of the strings a caller gave states [validUTF8]
        of them;
      - a stored document is kept as the struct it is the JSON of, and
        [json.Unmarshal] into a struct of the other kind of the same
        chaincode fills in the fields whose JSON names the two share;
      - a Go map is an [option (gmap string string)], [None] being nil;
      - the readings of the wall clock taken during one invocation are
        identified: [now] of the context. *)

From Stdlib Require Import ZArith String Ascii List Bool Lia PrimFloat DecimalString.
From stdpp Require Import base option gmap strings.

Local Open Scope Z_scope.

(** ** Machine integers

    Go's [int64]: a [Z] in the range below; [+] and [-] wrap around
    silently. *)

Definition int64_min : Z := - 2 ^ 63.
Definition int64_max : Z := 2 ^ 63 - 1.

Definition in_int64 (z : Z) : Prop := int64_min <= z <= int64_max.

Definition wrap64 (z : Z) : Z := (z + 2 ^ 63) mod 2 ^ 64 - 2 ^ 63.

Definition add64 (a b : Z) : Z := wrap64 (a + b).
Definition sub64 (a b : Z) : Z := wrap64 (a - b).

(** ** Floating point

    Go's [float64] is IEEE 754 binary64, as are Rocq's primitive floats.
    [encoding/json] refuses to marshal NaN and the infinities. *)

Definition json_float_ok (f : float) : bool := PrimFloat.is_finite f.

(** ** Time

    A [time.Time] as the civil date it shows and the nanoseconds elapsed in
    that day.  Every time that reaches [json.Marshal] in these contracts is
    the zero time, a wall-clock reading, the result of [time.Parse] or a
    time read back from a stored document, all of which have a four-digit
    year: [Time.MarshalJSON] succeeds on them, and marshalling a time is
    taken to be total. *)

Record Time := mkTime { year : Z; month : Z; day : Z; nanos : Z }.

(** The zero value of [time.Time]: January 1, year 1, 00:00:00 UTC. *)
Definition zeroTime : Time := mkTime 1 1 1 0.

Definition isLeap (y : Z) : bool :=
  (y mod 4 =? 0) && (negb (y mod 100 =? 0) || (y mod 400 =? 0)).

Definition daysIn (m y : Z) : Z :=
  if m =? 2 then (if isLeap y then 29 else 28)
  else if (m =? 4) || (m =? 6) || (m =? 9) || (m =? 11) then 30
  else 31.

Definition isDigit (c : ascii) : bool :=
  let n := Z.of_N (N_of_ascii c) in (48 <=? n) && (n <=? 57).

Definition digitVal (c : ascii) : Z := Z.of_N (N_of_ascii c) - 48.

Definition isDash (c : ascii) : bool := (N_of_ascii c =? 45)%N.

(** [time.Parse("2006-01-02", s)]: four digits, a dash, two digits, a dash,
    two digits and nothing after them; the month must lie in 1..12 and the
    day in the month.  [None] stands for the parse error. *)
Definition parseDate (s : string) : option Time :=
  match s with
  | String y1 (String y2 (String y3 (String y4 (String s1
      (String m1 (String m2 (String s2 (String d1 (String d2 EmptyString))))))))) =>
      if isDigit y1 && isDigit y2 && isDigit y3 && isDigit y4 && isDash s1
         && isDigit m1 && isDigit m2 && isDash s2 && isDigit d1 && isDigit d2
      then
        let y := 1000 * digitVal y1 + 100 * digitVal y2 + 10 * digitVal y3 + digitVal y4 in
        let m := 10 * digitVal m1 + digitVal m2 in
        let d := 10 * digitVal d1 + digitVal d2 in
        if (m <=? 0) || (12 <? m) then None
        else if (d <? 1) || (daysIn m y <? d) then None
        else Some (mkTime y m d 0)
      else None
  | _ => None
  end.

Definition itoa (z : Z) : string :=
  match z with
  | Z0 => "0"
  | Zpos p => NilZero.string_of_uint (Pos.to_uint p)
  | Zneg p => "-" +:+ NilZero.string_of_uint (Pos.to_uint p)
  end.

Fixpoint zeros (n : nat) : string :=
  match n with
  | O => ""
  | S n' => "0" +:+ zeros n'
  end.

(** Go's [appendInt]: decimal, left-padded with zeros to [width] digits,
    the sign first. *)
Definition appendInt (z : Z) (width : nat) : string :=
  let digits := itoa (Z.abs z) in
  let padded := zeros (width - String.length digits) +:+ digits in
  if z <? 0 then "-" +:+ padded else padded.

(** [t.Format("20060102")]. *)
Definition formatYMD (t : Time) : string :=
  appendInt (year t) 4 +:+ appendInt (month t) 2 +:+ appendInt (day t) 2.

(** [t.AddDate(0, 6, 0)]: six months later, a day past the end of the
    target month carrying over into the next one. *)
Definition addSixMonths (t : Time) : Time :=
  let m0 := month t + 6 in
  let y1 := if 12 <? m0 then year t + 1 else year t in
  let m1 := if 12 <? m0 then m0 - 12 else m0 in
  if daysIn m1 y1 <? day t then
    let m2 := if m1 =? 12 then 1 else m1 + 1 in
    let y2 := if m1 =? 12 then y1 + 1 else y1 in
    mkTime y2 m2 (day t - daysIn m1 y1) (nanos t)
  else mkTime y1 m1 (day t) (nanos t).

(** ** Errors

    One constructor per [fmt.Errorf] site of the three contracts, carrying
    the values the message is formatted with; a wrapping message carries its
    cause. *)

Inductive error : Type :=
  (* BondToken *)
  | BondAlreadyExists (bondID : string)         (* "bond %s already exists" *)
  | InvalidMaturityDate (s : string)            (* "invalid maturity date format: %v" *)
  | FailedToMarshalBond                         (* "failed to marshal bond: %v" *)
  | BondDoesNotExist (bondID : string)          (* "bond %s does not exist" *)
  | QuantityMustBePositive                      (* "quantity must be positive" *)
  | HolderDoesNotExist (holderKey : string)     (* "holder %s does not exist" *)
  | FailedToGetSenderHolder (cause : error)     (* "failed to get sender holder: %v" *)
  | InsufficientBalance (balance quantity : Z)  (* "insufficient balance: %d < %d" *)
  | FailedToGetBond (cause : error)             (* "failed to get bond: %v" *)
  (* Compliance *)
  | KYCAlreadyExists (address : string)         (* "KYC for address %s already exists" *)
  | KYCDoesNotExist (address : string)          (* "KYC for address %s does not exist" *)
  | FailedToGetKYC (cause : error)              (* "failed to get KYC: %v" *)
  | AMLCheckDoesNotExist (checkKey : string)    (* "AML check %s does not exist" *)
  | NilMapAssignment                            (* panic: assignment to entry in nil map *)
  (* CorporateAction *)
  | InvalidPaymentDate (s : string)             (* "invalid payment date format: %v" *)
  | InvalidRedemptionDate (s : string)          (* "invalid redemption date format: %v" *)
  | FailedToMarshalCoupon                       (* "failed to marshal coupon payment: %v" *)
  | FailedToMarshalRedemption                   (* "failed to marshal redemption: %v" *)
  | FailedToMarshalEvent                        (* "failed to marshal event: %v" *)
  | CouponDoesNotExist (couponID : string)      (* "coupon payment %s does not exist" *)
  | FailedToGetCoupon (cause : error)           (* "failed to get coupon payment: %v" *)
  | CouponNotPending (couponID : string)        (* "coupon payment %s is not pending" *)
  | RedemptionDoesNotExist (redemptionID : string) (* "redemption %s does not exist" *)
  | FailedToGetRedemption (cause : error)       (* "failed to get redemption: %v" *)
  | RedemptionNotPending (redemptionID : string). (* "redemption %s is not pending" *)

(** The error kinds of the specification's taxonomy. *)
Inductive ErrorKind : Type :=
  | AlreadyExists | NotFound | InvalidArgument | InsufficientBalanceKind
  | InvalidState | SerializationError | Panic.

Fixpoint kindOf (e : error) : ErrorKind :=
  match e with
  | BondAlreadyExists _ | KYCAlreadyExists _ => AlreadyExists
  | BondDoesNotExist _ | HolderDoesNotExist _ | KYCDoesNotExist _
  | AMLCheckDoesNotExist _ | CouponDoesNotExist _ | RedemptionDoesNotExist _ => NotFound
  | InvalidMaturityDate _ | InvalidPaymentDate _ | InvalidRedemptionDate _
  | QuantityMustBePositive => InvalidArgument
  | InsufficientBalance _ _ => InsufficientBalanceKind
  | CouponNotPending _ | RedemptionNotPending _ => InvalidState
  | FailedToMarshalBond | FailedToMarshalCoupon | FailedToMarshalRedemption
  | FailedToMarshalEvent => SerializationError
  | NilMapAssignment => Panic
  | FailedToGetSenderHolder c | FailedToGetBond c | FailedToGetKYC c
  | FailedToGetCoupon c | FailedToGetRedemption c => kindOf c
  end.

(** ** The transaction monad

    Modelled from the spec: the ledger substrate client (section 6), which is
    not part of the repository.  [get] returns the stored document or
    absence, [put] replaces the document under a key, conflicts being raised
    at commit time and not inline, [transactionID] is stable during the
    invocation and [emitEvent] records an event.  The [err != nil] branches
    that follow a stub call in the Go code therefore have no counterpart
    here. *)

Record Ctx := mkCtx {
  txID : string;     (* ctx.GetStub().GetTxID() *)
  now : Time         (* time.Now() *)
}.

Inductive result (A : Type) : Type :=
  | Ok (a : A)
  | Err (e : error).
Arguments Ok {A} a.
Arguments Err {A} e.

Section Transactions.
Context {V Ev : Type}.

Record Ledger := mkLedger {
  world : gmap string V;
  events : list (string * Ev)
}.

Definition Tx (A : Type) : Type := Ctx -> Ledger -> result A * Ledger.

Definition ret {A} (a : A) : Tx A := fun _ l => (Ok a, l).

Definition fail {A} (e : error) : Tx A := fun _ l => (Err e, l).

Definition bind {A B} (m : Tx A) (k : A -> Tx B) : Tx B :=
  fun c l =>
    match m c l with
    | (Ok a, l') => k a c l'
    | (Err e, l') => (Err e, l')
    end.

(** [if err != nil { return fmt.Errorf("...: %v", err) }] *)
Definition wrapErr {A} (w : error -> error) (m : Tx A) : Tx A :=
  fun c l =>
    match m c l with
    | (Ok a, l') => (Ok a, l')
    | (Err e, l') => (Err (w e), l')
    end.

(** [if err != nil { <handler> }], the call continuing with the handler's
    value. *)
Definition orElse {A} (m : Tx A) (h : error -> Tx A) : Tx A :=
  fun c l =>
    match m c l with
    | (Ok a, l') => (Ok a, l')
    | (Err e, l') => h e c l'
    end.

(** [x, err := f(...)]: the outcome of a call, for the caller to inspect. *)
Definition attempt {A} (m : Tx A) : Tx (result A) :=
  fun c l =>
    match m c l with
    | (r, l') => (Ok r, l')
    end.

Definition GetState (key : string) : Tx (option V) :=
  fun _ l => (Ok (world l !! key), l).

Definition PutState (key : string) (value : V) : Tx unit :=
  fun _ l => (Ok tt, mkLedger (<[key := value]> (world l)) (events l)).

Definition SetEvent (name : string) (payload : Ev) : Tx unit :=
  fun _ l => (Ok tt, mkLedger (world l) (events l ++ [(name, payload)])).

Definition GetTxID : Tx string := fun c l => (Ok (txID c), l).

Definition timeNow : Tx Time := fun c l => (Ok (now c), l).

(** A ledger with nothing stored and nothing emitted. *)
Definition emptyLedger : Ledger := mkLedger ∅ [].

End Transactions.

Arguments Ledger : clear implicits.
Arguments Tx : clear implicits.

Notation "'let*' x ':=' m 'in' k" := (bind m (fun x => k))
  (at level 10, x name, m at level 100, k at level 200).
Notation "m ';;' k" := (bind m (fun _ => k))
  (at level 100, k at level 200, right associativity).

(** [fmt.Sprintf("%s_%s", a, b)] *)
Definition underscoreKey (a b : string) : string := a +:+ "_" +:+ b.

(** ** UTF-8

    [utf8.ValidString]: the string is a sequence of well-formed UTF-8
    encodings (no overlong form, no surrogate, nothing above U+10FFFF).
    These are the strings [encoding/json] writes and reads back unchanged;
    in any other it writes U+FFFD for each offending byte. *)

Definition byteOf (b : ascii) : Z := Z.of_N (N_of_ascii b).

Definition byteIn (lo hi : Z) (b : ascii) : bool :=
  (lo <=? byteOf b) && (byteOf b <=? hi).

Fixpoint validUTF8 (s : string) : bool :=
  match s with
  | EmptyString => true
  | String b0 r0 =>
      if byteOf b0 <? 128 then validUTF8 r0
      else
        match r0 with
        | EmptyString => false
        | String b1 r1 =>
            if byteIn 194 223 b0 then byteIn 128 191 b1 && validUTF8 r1
            else
              match r1 with
              | EmptyString => false
              | String b2 r2 =>
                  if byteIn 224 239 b0 then
                    byteIn (if byteOf b0 =? 224 then 160 else 128)
                           (if byteOf b0 =? 237 then 159 else 191) b1
                    && byteIn 128 191 b2 && validUTF8 r2
                  else
                    match r2 with
                    | EmptyString => false
                    | String b3 r3 =>
                        byteIn 240 244 b0
                        && byteIn (if byteOf b0 =? 240 then 144 else 128)
                                  (if byteOf b0 =? 244 then 143 else 191) b1
                        && byteIn 128 191 b2 && byteIn 128 191 b3 && validUTF8 r3
                    end
              end
        end
  end.

(** ** The BondToken contract *)

Module BondToken.

Record Bond := mkBond {
  Bond_ID : string;
  Bond_IssuerID : string;
  Bond_IssuerName : string;
  Bond_FaceValue : float;
  Bond_CouponRate : float;
  Bond_MaturityDate : Time;
  Bond_IssueDate : Time;
  Bond_TotalSupply : Z;
  Bond_AvailableSupply : Z;
  Bond_Status : string;
  Bond_Currency : string;
  Bond_ISIN : string;
  Bond_Rating : string;
  Bond_Collateral : string
}.

(** [Metadata] is a Go map: [None] is the nil map. *)
Record TokenHolder := mkTokenHolder {
  Holder_Address : string;
  Holder_BondID : string;
  Holder_Quantity : Z;
  Holder_LastUpdated : Time;
  Holder_Metadata : option (gmap string string)
}.

Record TransferEvent := mkTransferEvent {
  Event_From : string;
  Event_To : string;
  Event_BondID : string;
  Event_Quantity : Z;
  Event_Timestamp : Time;
  Event_TxID : string
}.

(** The documents this chaincode stores: the JSON of a [Bond] (under the
    bond identifier) or of a [TokenHolder] (under address_bondID). *)
Inductive Value : Type :=
  | VBond (b : Bond)
  | VHolder (h : TokenHolder).

Abbreviation Ledger := (Ledger Value TransferEvent).
Abbreviation Tx := (Tx Value TransferEvent).

(** [json.Marshal(bond)] fails on a float that JSON cannot carry.  The
    strings of the struct are kept as they are, as [json.Marshal] keeps
    those that are valid UTF-8 ([validUTF8]); what is read back of a string
    that is not, is outside the model. *)
Definition marshalBond (b : Bond) : option Value :=
  if json_float_ok (Bond_FaceValue b) && json_float_ok (Bond_CouponRate b)
  then Some (VBond b) else None.

Definition marshalHolder (h : TokenHolder) : Value := VHolder h.

(** [json.Unmarshal] into a [Bond].  The two structs share no JSON field
    name, so the document of a holder leaves every field at its zero
    value. *)
Definition unmarshalBond (v : Value) : Bond :=
  match v with
  | VBond b => b
  | VHolder _ => mkBond "" "" "" 0%float 0%float zeroTime zeroTime 0 0 "" "" "" "" ""
  end.

Definition unmarshalHolder (v : Value) : TokenHolder :=
  match v with
  | VHolder h => h
  | VBond _ => mkTokenHolder "" "" 0 zeroTime None
  end.

Definition BondExists (bondID : string) : Tx bool :=
  let* bondJSON := GetState bondID in
  ret (match bondJSON with Some _ => true | None => false end).

Definition GetBond (bondID : string) : Tx Bond :=
  let* bondJSON := GetState bondID in
  match bondJSON with
  | None => fail (BondDoesNotExist bondID)
  | Some v => ret (unmarshalBond v)
  end.

Definition GetTokenHolder (holderKey : string) : Tx TokenHolder :=
  let* holderJSON := GetState holderKey in
  match holderJSON with
  | None => fail (HolderDoesNotExist holderKey)
  | Some v => ret (unmarshalHolder v)
  end.

Definition IssueBond (bondID issuerID issuerName currency isin rating collateral : string)
    (faceValue couponRate : float) (totalSupply : Z) (maturityDateStr : string) : Tx unit :=
  let* exists_ := BondExists bondID in
  if exists_ then fail (BondAlreadyExists bondID) else
  match parseDate maturityDateStr with
  | None => fail (InvalidMaturityDate maturityDateStr)
  | Some maturityDate =>
      let* issueDate := timeNow in
      let bond := mkBond bondID issuerID issuerName faceValue couponRate
                    maturityDate issueDate totalSupply totalSupply "ACTIVE"
                    currency isin rating collateral in
      match marshalBond bond with
      | None => fail FailedToMarshalBond
      | Some bondJSON =>
          PutState bondID bondJSON ;;
          let* timestamp := timeNow in
          let* tx := GetTxID in
          SetEvent "BondIssued"
            (mkTransferEvent "SYSTEM" issuerID bondID totalSupply timestamp tx)
      end
  end.

Definition Transfer (from to bondID : string) (quantity : Z) : Tx unit :=
  let* exists_ := BondExists bondID in
  if negb exists_ then fail (BondDoesNotExist bondID) else
  if quantity <=? 0 then fail QuantityMustBePositive else
  let senderKey := underscoreKey from bondID in
  let* senderHolder := wrapErr FailedToGetSenderHolder (GetTokenHolder senderKey) in
  if Holder_Quantity senderHolder <? quantity
  then fail (InsufficientBalance (Holder_Quantity senderHolder) quantity) else
  let recipientKey := underscoreKey to bondID in
  let* recipientHolder :=
    orElse (GetTokenHolder recipientKey)
           (fun _ => let* t := timeNow in
                     ret (mkTokenHolder to bondID 0 t (Some ∅))) in
  let* t1 := timeNow in
  let senderHolder :=
    mkTokenHolder (Holder_Address senderHolder) (Holder_BondID senderHolder)
      (sub64 (Holder_Quantity senderHolder) quantity) t1
      (Holder_Metadata senderHolder) in
  let* t2 := timeNow in
  let recipientHolder :=
    mkTokenHolder (Holder_Address recipientHolder) (Holder_BondID recipientHolder)
      (add64 (Holder_Quantity recipientHolder) quantity) t2
      (Holder_Metadata recipientHolder) in
  let senderJSON := marshalHolder senderHolder in
  let recipientJSON := marshalHolder recipientHolder in
  PutState senderKey senderJSON ;;
  PutState recipientKey recipientJSON ;;
  let* timestamp := timeNow in
  let* tx := GetTxID in
  SetEvent "TokensTransferred"
    (mkTransferEvent from to bondID quantity timestamp tx).

Definition GetBalance (address bondID : string) : Tx Z :=
  let holderKey := underscoreKey address bondID in
  orElse (let* holder := GetTokenHolder holderKey in
          ret (Holder_Quantity holder))
         (fun _ => ret 0).

Definition UpdateBondStatus (bondID newStatus : string) : Tx unit :=
  let* bond := wrapErr FailedToGetBond (GetBond bondID) in
  let bond := mkBond (Bond_ID bond) (Bond_IssuerID bond) (Bond_IssuerName bond)
                (Bond_FaceValue bond) (Bond_CouponRate bond) (Bond_MaturityDate bond)
                (Bond_IssueDate bond) (Bond_TotalSupply bond)
                (Bond_AvailableSupply bond) newStatus (Bond_Currency bond)
                (Bond_ISIN bond) (Bond_Rating bond) (Bond_Collateral bond) in
  match marshalBond bond with
  | None => fail FailedToMarshalBond
  | Some bondJSON => PutState bondID bondJSON
  end.

End BondToken.

(** ** The Compliance contract *)

Module Compliance.

Record KYCRecord := mkKYCRecord {
  KYC_Address : string;
  KYC_FullName : string;
  KYC_DateOfBirth : string;
  KYC_Nationality : string;
  KYC_IDType : string;
  KYC_IDNumber : string;
  KYC_Status : string;
  KYC_RiskLevel : string;
  KYC_ApprovedBy : string;
  KYC_ApprovedAt : Time;
  KYC_CreatedAt : Time;
  KYC_UpdatedAt : Time;
  KYC_Metadata : option (gmap string string)
}.

Record AMLCheck := mkAMLCheck {
  AML_Address : string;
  AML_CheckType : string;
  AML_Status : string;
  AML_RiskScore : Z;
  AML_CheckDate : Time;
  AML_ExpiryDate : Time;
  AML_Details : string;
  AML_CheckedBy : string
}.

Record ComplianceEvent := mkComplianceEvent {
  Event_Type : string;
  Event_Address : string;
  Event_Details : string;
  Event_Timestamp : Time;
  Event_TxID : string
}.

(** The documents this chaincode stores: the JSON of a [KYCRecord] (under
    the address) or of an [AMLCheck] (under address_checkType). *)
Inductive Value : Type :=
  | VKYC (k : KYCRecord)
  | VAML (a : AMLCheck).

Abbreviation Ledger := (Ledger Value ComplianceEvent).
Abbreviation Tx := (Tx Value ComplianceEvent).

(** [json.Marshal] of a record and of a check.  The strings are kept as
    they are, as [json.Marshal] keeps those that are valid UTF-8
    ([validUTF8]); what is read back of a string that is not, is outside
    the model. *)
Definition marshalKYC (k : KYCRecord) : Value := VKYC k.
Definition marshalAML (a : AMLCheck) : Value := VAML a.

(** [json.Unmarshal] into a [KYCRecord].  The two structs share the JSON
    field names "address" and "status" and no other: from the document of
    an AML check these two are filled in and the rest keeps its zero
    value. *)
Definition unmarshalKYC (v : Value) : KYCRecord :=
  match v with
  | VKYC k => k
  | VAML a => mkKYCRecord (AML_Address a) "" "" "" "" "" (AML_Status a) "" ""
                zeroTime zeroTime zeroTime None
  end.

Definition unmarshalAML (v : Value) : AMLCheck :=
  match v with
  | VAML a => a
  | VKYC k => mkAMLCheck (KYC_Address k) "" (KYC_Status k) 0 zeroTime zeroTime "" ""
  end.

Definition KYCExists (address : string) : Tx bool :=
  let* kycJSON := GetState address in
  ret (match kycJSON with Some _ => true | None => false end).

Definition GetKYC (address : string) : Tx KYCRecord :=
  let* kycJSON := GetState address in
  match kycJSON with
  | None => fail (KYCDoesNotExist address)
  | Some v => ret (unmarshalKYC v)
  end.

Definition GetAMLCheck (checkKey : string) : Tx AMLCheck :=
  let* checkJSON := GetState checkKey in
  match checkJSON with
  | None => fail (AMLCheckDoesNotExist checkKey)
  | Some v => ret (unmarshalAML v)
  end.

Definition CreateKYC (address fullName dateOfBirth nationality idType idNumber : string)
    : Tx unit :=
  let* exists_ := KYCExists address in
  if exists_ then fail (KYCAlreadyExists address) else
  let* createdAt := timeNow in
  let* updatedAt := timeNow in
  let kyc := mkKYCRecord address fullName dateOfBirth nationality idType idNumber
               "PENDING" "MEDIUM" "" zeroTime createdAt updatedAt (Some ∅) in
  let kycJSON := marshalKYC kyc in
  PutState address kycJSON ;;
  let* timestamp := timeNow in
  let* tx := GetTxID in
  SetEvent "KYCEvent"
    (mkComplianceEvent "KYC_CREATED" address ("KYC created for " +:+ fullName)
       timestamp tx).

Definition ApproveKYC (address approvedBy riskLevel : string) : Tx unit :=
  let* kyc := wrapErr FailedToGetKYC (GetKYC address) in
  let* approvedAt := timeNow in
  let* updatedAt := timeNow in
  let kyc := mkKYCRecord (KYC_Address kyc) (KYC_FullName kyc) (KYC_DateOfBirth kyc)
               (KYC_Nationality kyc) (KYC_IDType kyc) (KYC_IDNumber kyc)
               "APPROVED" riskLevel approvedBy approvedAt (KYC_CreatedAt kyc)
               updatedAt (KYC_Metadata kyc) in
  let kycJSON := marshalKYC kyc in
  PutState address kycJSON ;;
  let* timestamp := timeNow in
  let* tx := GetTxID in
  SetEvent "KYCEvent"
    (mkComplianceEvent "KYC_APPROVED" address ("KYC approved by " +:+ approvedBy)
       timestamp tx).

Definition RejectKYC (address rejectedBy reason : string) : Tx unit :=
  let* kyc := wrapErr FailedToGetKYC (GetKYC address) in
  let* updatedAt := timeNow in
  match KYC_Metadata kyc with
  | None => fail NilMapAssignment
  | Some metadata =>
      let metadata := <["rejected_by" := rejectedBy]>
                        (<["rejection_reason" := reason]> metadata) in
      let kyc := mkKYCRecord (KYC_Address kyc) (KYC_FullName kyc) (KYC_DateOfBirth kyc)
                   (KYC_Nationality kyc) (KYC_IDType kyc) (KYC_IDNumber kyc)
                   "REJECTED" (KYC_RiskLevel kyc) (KYC_ApprovedBy kyc)
                   (KYC_ApprovedAt kyc) (KYC_CreatedAt kyc) updatedAt
                   (Some metadata) in
      let kycJSON := marshalKYC kyc in
      PutState address kycJSON ;;
      let* timestamp := timeNow in
      let* tx := GetTxID in
      SetEvent "KYCEvent"
        (mkComplianceEvent "KYC_REJECTED" address
           ("KYC rejected by " +:+ rejectedBy +:+ ": " +:+ reason) timestamp tx)
  end.

Definition CreateAMLCheck (address checkType : string) (riskScore : Z) (details : string)
    : Tx unit :=
  let checkKey := underscoreKey address checkType in
  let* checkDate := timeNow in
  let* t := timeNow in
  let amlCheck := mkAMLCheck address checkType "PENDING" riskScore checkDate
                    (addSixMonths t) details "SYSTEM" in
  let checkJSON := marshalAML amlCheck in
  PutState checkKey checkJSON ;;
  let* timestamp := timeNow in
  let* tx := GetTxID in
  SetEvent "AMLEvent"
    (mkComplianceEvent "AML_CHECK_CREATED" address
       ("AML check created for " +:+ address +:+ ": " +:+ checkType) timestamp tx).

Definition UpdateAMLCheck (address checkType status : string) (riskScore : Z)
    (details : string) : Tx unit :=
  let checkKey := underscoreKey address checkType in
  let* checkJSON := GetState checkKey in
  match checkJSON with
  | None => fail (AMLCheckDoesNotExist checkKey)
  | Some v =>
      let amlCheck := unmarshalAML v in
      let* checkDate := timeNow in
      let amlCheck := mkAMLCheck (AML_Address amlCheck) (AML_CheckType amlCheck)
                        status riskScore checkDate (AML_ExpiryDate amlCheck)
                        details (AML_CheckedBy amlCheck) in
      let updatedCheckJSON := marshalAML amlCheck in
      PutState checkKey updatedCheckJSON ;;
      let* timestamp := timeNow in
      let* tx := GetTxID in
      SetEvent "AMLEvent"
        (mkComplianceEvent "AML_CHECK_UPDATED" address
           ("AML check updated for " +:+ address +:+ ": " +:+ checkType
              +:+ " - " +:+ status) timestamp tx)
  end.

Definition CheckCompliance (address : string) : Tx (bool * string) :=
  let* kyc := attempt (GetKYC address) in
  match kyc with
  | Err _ => ret (false, "KYC record not found")
  | Ok kyc =>
      if negb (String.eqb (KYC_Status kyc) "APPROVED")
      then ret (false, "KYC status: " +:+ KYC_Status kyc) else
      let sanctionsKey := address +:+ "_SANCTIONS" in
      let pepKey := address +:+ "_PEP" in
      let* sanctionsCheck := attempt (GetAMLCheck sanctionsKey) in
      if match sanctionsCheck with
         | Ok chk => String.eqb (AML_Status chk) "FAILED"
         | Err _ => false
         end
      then ret (false, "Sanctions check failed") else
      let* pepCheck := attempt (GetAMLCheck pepKey) in
      if match pepCheck with
         | Ok chk => String.eqb (AML_Status chk) "FAILED"
         | Err _ => false
         end
      then ret (false, "PEP check failed") else
      ret (true, "Compliant")
  end.

End Compliance.

(** ** The CorporateAction contract *)

Module CorporateAction.

Record CouponPayment := mkCouponPayment {
  Coupon_ID : string;
  Coupon_BondID : string;
  Coupon_PaymentDate : Time;
  Coupon_Amount : float;
  Coupon_Status : string;
  Coupon_PaidAt : Time;
  Coupon_TxID : string;
  Coupon_Metadata : option (gmap string string)
}.

Record Redemption := mkRedemption {
  Redemption_ID : string;
  Redemption_BondID : string;
  Redemption_RedemptionDate : Time;
  Redemption_Amount : float;
  Redemption_Status : string;
  Redemption_CompletedAt : Time;
  Redemption_TxID : string;
  Redemption_Metadata : option (gmap string string)
}.

Record CorporateActionEvent := mkCorporateActionEvent {
  Event_Type : string;
  Event_BondID : string;
  Event_Details : string;
  Event_Amount : float;
  Event_Timestamp : Time;
  Event_TxID : string
}.

(** The documents this chaincode stores: the JSON of a [CouponPayment] or
    of a [Redemption], each under its identifier. *)
Inductive Value : Type :=
  | VCoupon (c : CouponPayment)
  | VRedemption (r : Redemption).

Abbreviation Ledger := (Ledger Value CorporateActionEvent).
Abbreviation Tx := (Tx Value CorporateActionEvent).

(** [json.Marshal] fails on an amount that JSON cannot carry.  The strings
    are kept as they are, as [json.Marshal] keeps those that are valid
    UTF-8 ([validUTF8]); what is read back of a string that is not, is
    outside the model. *)
Definition marshalCoupon (c : CouponPayment) : option Value :=
  if json_float_ok (Coupon_Amount c) then Some (VCoupon c) else None.

Definition marshalRedemption (r : Redemption) : option Value :=
  if json_float_ok (Redemption_Amount r) then Some (VRedemption r) else None.

Definition marshalEvent (e : CorporateActionEvent) : option CorporateActionEvent :=
  if json_float_ok (Event_Amount e) then Some e else None.

(** [json.Unmarshal] into a [CouponPayment].  The two structs share the
    JSON field names "id", "bondId", "amount", "status", "txId" and
    "metadata"; the dates ("paymentDate" and "paidAt" against
    "redemptionDate" and "completedAt") keep their zero value when the
    document is of the other kind. *)
Definition unmarshalCoupon (v : Value) : CouponPayment :=
  match v with
  | VCoupon c => c
  | VRedemption r =>
      mkCouponPayment (Redemption_ID r) (Redemption_BondID r) zeroTime
        (Redemption_Amount r) (Redemption_Status r) zeroTime (Redemption_TxID r)
        (Redemption_Metadata r)
  end.

Definition unmarshalRedemption (v : Value) : Redemption :=
  match v with
  | VRedemption r => r
  | VCoupon c =>
      mkRedemption (Coupon_ID c) (Coupon_BondID c) zeroTime
        (Coupon_Amount c) (Coupon_Status c) zeroTime (Coupon_TxID c)
        (Coupon_Metadata c)
  end.

Definition GetCouponPayment (couponID : string) : Tx CouponPayment :=
  let* couponJSON := GetState couponID in
  match couponJSON with
  | None => fail (CouponDoesNotExist couponID)
  | Some v => ret (unmarshalCoupon v)
  end.

Definition GetRedemption (redemptionID : string) : Tx Redemption :=
  let* redemptionJSON := GetState redemptionID in
  match redemptionJSON with
  | None => fail (RedemptionDoesNotExist redemptionID)
  | Some v => ret (unmarshalRedemption v)
  end.

Definition CreateCouponPayment (bondID paymentDateStr : string) (amount : float)
    : Tx unit :=
  let* t := timeNow in
  let couponID := "COUPON_" +:+ bondID +:+ "_" +:+ formatYMD t in
  match parseDate paymentDateStr with
  | None => fail (InvalidPaymentDate paymentDateStr)
  | Some paymentDate =>
      let couponPayment := mkCouponPayment couponID bondID paymentDate amount
                             "PENDING" zeroTime "" (Some ∅) in
      match marshalCoupon couponPayment with
      | None => fail FailedToMarshalCoupon
      | Some couponJSON =>
          PutState couponID couponJSON ;;
          let* timestamp := timeNow in
          let* tx := GetTxID in
          match marshalEvent
                  (mkCorporateActionEvent "COUPON_PAYMENT_CREATED" bondID
                     ("Coupon payment created for bond " +:+ bondID) amount
                     timestamp tx) with
          | None => fail FailedToMarshalEvent
          | Some eventJSON => SetEvent "CorporateActionEvent" eventJSON
          end
      end
  end.

Definition ProcessCouponPayment (couponID : string) : Tx unit :=
  let* couponPayment := wrapErr FailedToGetCoupon (GetCouponPayment couponID) in
  if negb (String.eqb (Coupon_Status couponPayment) "PENDING")
  then fail (CouponNotPending couponID) else
  let* paidAt := timeNow in
  let* tx := GetTxID in
  let couponPayment :=
    mkCouponPayment (Coupon_ID couponPayment) (Coupon_BondID couponPayment)
      (Coupon_PaymentDate couponPayment) (Coupon_Amount couponPayment)
      "PAID" paidAt tx (Coupon_Metadata couponPayment) in
  match marshalCoupon couponPayment with
  | None => fail FailedToMarshalCoupon
  | Some couponJSON =>
      PutState couponID couponJSON ;;
      let* timestamp := timeNow in
      let* tx := GetTxID in
      match marshalEvent
              (mkCorporateActionEvent "COUPON_PAYMENT_PROCESSED"
                 (Coupon_BondID couponPayment)
                 ("Coupon payment " +:+ couponID +:+ " processed")
                 (Coupon_Amount couponPayment) timestamp tx) with
      | None => fail FailedToMarshalEvent
      | Some eventJSON => SetEvent "CorporateActionEvent" eventJSON
      end
  end.

Definition CreateRedemption (bondID redemptionDateStr : string) (amount : float)
    : Tx unit :=
  let* t := timeNow in
  let redemptionID := "REDEMPTION_" +:+ bondID +:+ "_" +:+ formatYMD t in
  match parseDate redemptionDateStr with
  | None => fail (InvalidRedemptionDate redemptionDateStr)
  | Some redemptionDate =>
      let redemption := mkRedemption redemptionID bondID redemptionDate amount
                          "PENDING" zeroTime "" (Some ∅) in
      match marshalRedemption redemption with
      | None => fail FailedToMarshalRedemption
      | Some redemptionJSON =>
          PutState redemptionID redemptionJSON ;;
          let* timestamp := timeNow in
          let* tx := GetTxID in
          match marshalEvent
                  (mkCorporateActionEvent "REDEMPTION_CREATED" bondID
                     ("Redemption created for bond " +:+ bondID) amount
                     timestamp tx) with
          | None => fail FailedToMarshalEvent
          | Some eventJSON => SetEvent "CorporateActionEvent" eventJSON
          end
      end
  end.

Definition ProcessRedemption (redemptionID : string) : Tx unit :=
  let* redemption := wrapErr FailedToGetRedemption (GetRedemption redemptionID) in
  if negb (String.eqb (Redemption_Status redemption) "PENDING")
  then fail (RedemptionNotPending redemptionID) else
  let* completedAt := timeNow in
  let* tx := GetTxID in
  let redemption :=
    mkRedemption (Redemption_ID redemption) (Redemption_BondID redemption)
      (Redemption_RedemptionDate redemption) (Redemption_Amount redemption)
      "COMPLETED" completedAt tx (Redemption_Metadata redemption) in
  match marshalRedemption redemption with
  | None => fail FailedToMarshalRedemption
  | Some redemptionJSON =>
      PutState redemptionID redemptionJSON ;;
      let* timestamp := timeNow in
      let* tx := GetTxID in
      match marshalEvent
              (mkCorporateActionEvent "REDEMPTION_PROCESSED"
                 (Redemption_BondID redemption)
                 ("Redemption " +:+ redemptionID +:+ " processed")
                 (Redemption_Amount redemption) timestamp tx) with
      | None => fail FailedToMarshalEvent
      | Some eventJSON => SetEvent "CorporateActionEvent" eventJSON
      end
  end.

Definition CalculateCouponAmount (bondID : string) (faceValue couponRate : float)
    : Tx float :=
  let couponAmount := ((faceValue * couponRate) / 100)%float in
  ret couponAmount.

End CorporateAction.

(** Unfolding the monad's operations in a goal. *)
Ltac tx_unfold :=
  cbv beta iota delta
    [bind ret fail wrapErr orElse attempt GetState PutState SetEvent GetTxID timeNow].

(** ** Notions used by the statements *)

Module BondTokenSpec.
Import BondToken.

(** The balance a ledger records for an address: the quantity of the
    holder document, 0 when there is none (what [GetBalance] answers). *)
Definition balanceOf (w : gmap string Value) (address bondID : string) : Z :=
  match w !! underscoreKey address bondID with
  | Some v => Holder_Quantity (unmarshalHolder v)
  | None => 0
  end.

Definition holderQuantityAt (w : gmap string Value) (key : string) : option Z :=
  (fun v => Holder_Quantity (unmarshalHolder v)) <$> w !! key.

(** The total of the quantities of the stored [TokenHolder] documents of
    one bond. *)
Definition holdersTotal (w : gmap string Value) (bondID : string) : Z :=
  map_fold (fun _ v acc =>
              match v with
              | VHolder h => if String.eqb (Holder_BondID h) bondID
                             then acc + Holder_Quantity h else acc
              | VBond _ => acc
              end) 0 w.

(** Every stored quantity is an [int64]. *)
Definition quantitiesInt64 (w : gmap string Value) : Prop :=
  forall k v, w !! k = Some v -> in_int64 (Holder_Quantity (unmarshalHolder v)).

(** No stored quantity is negative. *)
Definition nonNegative (w : gmap string Value) : Prop :=
  forall k v, w !! k = Some v -> 0 <= Holder_Quantity (unmarshalHolder v).

(** The specification's reading of a self-transfer, in the integers: the
    call succeeds and the stored quantity grows by the quantity sent. *)
Definition selfTransferAddsExactly : Prop :=
  forall (c : Ctx) (l : Ledger) (a bondID : string) (quantity : Z) (v : Value),
    is_Some (world l !! bondID) ->
    world l !! underscoreKey a bondID = Some v ->
    in_int64 (Holder_Quantity (unmarshalHolder v)) ->
    0 < quantity <= Holder_Quantity (unmarshalHolder v) ->
    exists l',
      Transfer a a bondID quantity c l = (Ok tt, l') /\
      holderQuantityAt (world l') (underscoreKey a bondID)
        = Some (Holder_Quantity (unmarshalHolder v) + quantity).

(** The specification's reading of an overdraw: with a missing sender
    document counting as balance 0, the call fails with an error of kind
    InsufficientBalance and the ledger is as before. *)
Definition overdrawIsInsufficientBalance : Prop :=
  forall (c : Ctx) (l : Ledger) (from to bondID : string) (quantity : Z),
    is_Some (world l !! bondID) ->
    0 < quantity ->
    balanceOf (world l) from bondID < quantity ->
    exists e,
      Transfer from to bondID quantity c l = (Err e, l) /\
      kindOf e = InsufficientBalanceKind.

(** The specification's reading of "no negative balances": from a ledger
    of non-negative [int64] quantities, whatever a [Transfer] call does,
    the ledger it leaves has no negative quantity. *)
Definition transferKeepsNonNegative : Prop :=
  forall (c : Ctx) (l : Ledger) (from to bondID : string) (quantity : Z),
    in_int64 quantity ->
    quantitiesInt64 (world l) ->
    nonNegative (world l) ->
    nonNegative (world (snd (Transfer from to bondID quantity c l))).

(** The ledger a successful transfer leaves. *)
Definition transferred (c : Ctx) (l : Ledger) (from to bondID : string)
    (quantity : Z) (sender : TokenHolder) : Ledger :=
  let recipient :=
    match world l !! underscoreKey to bondID with
    | Some v => unmarshalHolder v
    | None => mkTokenHolder to bondID 0 (now c) (Some ∅)
    end in
  mkLedger
    (<[underscoreKey to bondID :=
         VHolder (mkTokenHolder (Holder_Address recipient) (Holder_BondID recipient)
                    (add64 (Holder_Quantity recipient) quantity) (now c)
                    (Holder_Metadata recipient))]>
       (<[underscoreKey from bondID :=
            VHolder (mkTokenHolder (Holder_Address sender) (Holder_BondID sender)
                       (sub64 (Holder_Quantity sender) quantity) (now c)
                       (Holder_Metadata sender))]> (world l)))
    (events l ++ [("TokensTransferred",
                   mkTransferEvent from to bondID quantity (now c) (txID c))]).

(** The specification's "no negative balances": both of its sentences. *)
Definition noNegativeBalances : Prop :=
  transferKeepsNonNegative /\ overdrawIsInsufficientBalance.

(** Sample values. *)
Definition ctx0 : Ctx := mkCtx "tx1" (mkTime 2024 6 1 0).

Definition bond1 : Bond :=
  mkBond "BOND_001" "issuer" "Issuer Ltd" 1000%float 5%float
    (mkTime 2030 1 1 0) (mkTime 2024 6 1 0) 1000 1000 "ACTIVE"
    "USD" "ISIN001" "AAA" "NONE".

Definition holderOf (address : string) (q : Z) : TokenHolder :=
  mkTokenHolder address "BOND_001" q (mkTime 2024 6 1 0) (Some ∅).

(** The ledger after [IssueBond] of BOND_001 with a total supply of 1000
    on the empty ledger. *)
Definition issued : Ledger :=
  snd (IssueBond "BOND_001" "issuer" "Issuer Ltd" "USD" "ISIN001" "AAA" "NONE"
         1000%float 5%float 1000 "2030-01-01" ctx0 emptyLedger).

(** A ledger holding BOND_001 and the given holder documents. *)
Definition funded (hs : list (string * Z)) : Ledger :=
  mkLedger
    (foldr (fun '(a, q) w => <[underscoreKey a "BOND_001" := VHolder (holderOf a q)]> w)
           {[ "BOND_001" := VBond bond1 ]} hs)
    [].

(** The invocations that may write to the ledger. *)
Inductive Call : Type :=
  | CallIssueBond (bondID issuerID issuerName currency isin rating collateral : string)
      (faceValue couponRate : float) (totalSupply : Z) (maturityDateStr : string)
  | CallTransfer (from to bondID : string) (quantity : Z)
  | CallUpdateBondStatus (bondID newStatus : string).

Definition invoke (call : Call) : Tx unit :=
  match call with
  | CallIssueBond bondID issuerID issuerName currency isin rating collateral
      faceValue couponRate totalSupply maturityDateStr =>
      IssueBond bondID issuerID issuerName currency isin rating collateral
        faceValue couponRate totalSupply maturityDateStr
  | CallTransfer from to bondID quantity => Transfer from to bondID quantity
  | CallUpdateBondStatus bondID newStatus => UpdateBondStatus bondID newStatus
  end.

(** The ledgers the contract brings about from the empty one; only a
    successful invocation commits its writes. *)
Inductive reachable : Ledger -> Prop :=
  | reachable_empty : reachable emptyLedger
  | reachable_invoke (l l' : Ledger) (c : Ctx) (call : Call) :
      reachable l -> invoke call c l = (Ok tt, l') -> reachable l'.

(** Nothing but bond documents is stored. *)
Definition onlyBonds (w : gmap string Value) : Prop :=
  forall k v, w !! k = Some v -> exists b, v = VBond b.

(** What a document adds to the total of a bond's holder quantities. *)
Definition share (bondID : string) (v : Value) : Z :=
  match v with
  | VHolder h => if String.eqb (Holder_BondID h) bondID then Holder_Quantity h else 0
  | VBond _ => 0
  end.

Definition shareAt (w : gmap string Value) (bondID key : string) : Z :=
  match w !! key with
  | Some v => share bondID v
  | None => 0
  end.

(** The document under the key, if any, is a holder document of the bond. *)
Definition holderOfBondAt (w : gmap string Value) (bondID key : string) : Prop :=
  forall v, w !! key = Some v -> exists h, v = VHolder h /\ Holder_BondID h = bondID.

Definition aliceAtMax : Ledger := funded [("alice", int64_max)].
Definition bobAtMax : Ledger := funded [("alice", 1); ("bob", int64_max)].
Definition aliceAndBob : Ledger := funded [("alice", 1000); ("bob", 5)].

End BondTokenSpec.

Module ComplianceSpec.
Import Compliance.

(** The KYC record of an address and the AML check of an address and a
    check type, as the contract reads them. *)
Definition kycOf (w : gmap string Value) (address : string) : option KYCRecord :=
  unmarshalKYC <$> w !! address.

Definition amlOf (w : gmap string Value) (address checkType : string) : option AMLCheck :=
  unmarshalAML <$> w !! underscoreKey address checkType.

Definition kycStatus (w : gmap string Value) (address : string) : option string :=
  KYC_Status <$> kycOf w address.

(** The AML check of that type exists and has status FAILED. *)
Definition amlFailed (w : gmap string Value) (address checkType : string) : Prop :=
  exists chk, amlOf w address checkType = Some chk /\ AML_Status chk = "FAILED".

Definition amlFailedb (w : gmap string Value) (address checkType : string) : bool :=
  match amlOf w address checkType with
  | Some chk => String.eqb (AML_Status chk) "FAILED"
  | None => false
  end.

(** The compliance gate in the words of the specification. *)
Definition complianceGate (w : gmap string Value) (address : string) : bool * string :=
  match kycOf w address with
  | None => (false, "KYC record not found")
  | Some kyc =>
      if String.eqb (KYC_Status kyc) "APPROVED" then
        if amlFailedb w address "SANCTIONS" then (false, "Sanctions check failed")
        else if amlFailedb w address "PEP" then (false, "PEP check failed")
        else (true, "Compliant")
      else (false, "KYC status: " +:+ KYC_Status kyc)
  end.

(** The specification's state machine: [ApproveKYC] and [RejectKYC] change
    the status of a record only when it is PENDING. *)
Definition kycLeavesOnlyPending : Prop :=
  forall (c : Ctx) (l : Ledger) (address who arg : string) (s s' : string),
    kycStatus (world l) address = Some s ->
    (kycStatus (world (snd (ApproveKYC address who arg c l))) address = Some s' \/
     kycStatus (world (snd (RejectKYC address who arg c l))) address = Some s') ->
    s <> s' ->
    s = "PENDING".

Definition ctx0 : Ctx := mkCtx "tx1" (mkTime 2024 6 1 0).

(** alice after [CreateKYC], and then after [RejectKYC]. *)
Definition pendingAlice : Ledger :=
  snd (CreateKYC "alice" "Alice Johnson" "1990-01-01" "US" "PASSPORT" "US123456"
         ctx0 emptyLedger).

Definition rejectedAlice : Ledger :=
  snd (RejectKYC "alice" "admin" "Incomplete documentation" ctx0 pendingAlice).

Definition approvedAlice : Ledger :=
  snd (ApproveKYC "alice" "admin" "LOW" ctx0 pendingAlice).

(** alice approved, with a sanctions check that failed. *)
Definition sanctionedAlice : Ledger :=
  snd (UpdateAMLCheck "alice" "SANCTIONS" "FAILED" 90 "listed" ctx0
         (snd (CreateAMLCheck "alice" "SANCTIONS" 10 "screening" ctx0 approvedAlice))).

End ComplianceSpec.

Module CorporateActionSpec.
Import CorporateAction.

(** The record [ProcessCouponPayment] writes back, and its event. *)
Definition paid (c : Ctx) (cp : CouponPayment) : CouponPayment :=
  mkCouponPayment (Coupon_ID cp) (Coupon_BondID cp) (Coupon_PaymentDate cp)
    (Coupon_Amount cp) "PAID" (now c) (txID c) (Coupon_Metadata cp).

Definition couponProcessed (c : Ctx) (couponID : string) (cp : CouponPayment)
    : string * CorporateActionEvent :=
  ("CorporateActionEvent",
   mkCorporateActionEvent "COUPON_PAYMENT_PROCESSED" (Coupon_BondID cp)
     ("Coupon payment " +:+ couponID +:+ " processed") (Coupon_Amount cp)
     (now c) (txID c)).

(** The record [ProcessRedemption] writes back, and its event. *)
Definition completed (c : Ctx) (r : Redemption) : Redemption :=
  mkRedemption (Redemption_ID r) (Redemption_BondID r) (Redemption_RedemptionDate r)
    (Redemption_Amount r) "COMPLETED" (now c) (txID c) (Redemption_Metadata r).

Definition redemptionProcessed (c : Ctx) (redemptionID : string) (r : Redemption)
    : string * CorporateActionEvent :=
  ("CorporateActionEvent",
   mkCorporateActionEvent "REDEMPTION_PROCESSED" (Redemption_BondID r)
     ("Redemption " +:+ redemptionID +:+ " processed") (Redemption_Amount r)
     (now c) (txID c)).

(** Every stored amount is a number that JSON can carry, as the amount of
    a stored document is. *)
Definition amountsFinite (w : gmap string Value) : Prop :=
  forall k v, w !! k = Some v -> json_float_ok (Coupon_Amount (unmarshalCoupon v)) = true.

Definition ctx0 : Ctx := mkCtx "tx1" (mkTime 2024 6 1 0).
Definition ctx1 : Ctx := mkCtx "tx2" (mkTime 2024 6 1 3600000000000).
Definition ctx2 : Ctx := mkCtx "tx3" (mkTime 2024 6 1 7200000000000).

(** A coupon of BOND_001 created on 2024-06-01, and then paid. *)
Definition couponCreated : Ledger :=
  snd (CreateCouponPayment "BOND_001" "2024-06-01" 50%float ctx0 emptyLedger).

Definition coupon1ID : string := "COUPON_BOND_001_20240601".

Definition coupon1 : CouponPayment :=
  mkCouponPayment coupon1ID "BOND_001" (mkTime 2024 6 1 0) 50%float "PENDING"
    zeroTime "" (Some ∅).

Definition couponPaid : Ledger :=
  snd (ProcessCouponPayment "COUPON_BOND_001_20240601" ctx1 couponCreated).

(** A redemption of BOND_001 created on 2024-06-01, and then completed. *)
Definition redemptionCreated : Ledger :=
  snd (CreateRedemption "BOND_001" "2029-01-01" 1000%float ctx0 emptyLedger).

Definition redemptionCompleted : Ledger :=
  snd (ProcessRedemption "REDEMPTION_BOND_001_20240601" ctx1 redemptionCreated).

End CorporateActionSpec.

(** ** Range scans and the listings built on them

    Modelled from the spec: the range scan of the ledger substrate client
    (section 6), which is not part of the repository.  It yields the stored
    documents whose key lies between startKey (included) and endKey
    (excluded) in the byte order of the keys, smallest key first; an empty
    startKey or endKey leaves that side of the range open. *)

Fixpoint insertByKey {V : Type} (e : string * V) (es : list (string * V))
    : list (string * V) :=
  match es with
  | [] => [e]
  | e' :: rest =>
      if String.leb (fst e) (fst e') then e :: e' :: rest
      else e' :: insertByKey e rest
  end.

Definition sortByKey {V : Type} (es : list (string * V)) : list (string * V) :=
  foldr insertByKey [] es.

Definition inRange (startKey endKey key : string) : bool :=
  (String.eqb startKey "" || String.leb startKey key)
  && (String.eqb endKey "" || String.ltb key endKey).

Definition scanned {V : Type} (w : gmap string V) (startKey endKey : string)
    : list (string * V) :=
  List.filter (fun e => inRange startKey endKey (fst e)) (sortByKey (map_to_list w)).

Definition GetStateByRange {V Ev : Type} (startKey endKey : string)
    : Tx V Ev (list (string * V)) :=
  fun _ l => (Ok (scanned (world l) startKey endKey), l).

(** [s[i:]] and [s[:n]] for indices within the string. *)
Definition sliceFrom (i : nat) (s : string) : string :=
  String.substring i (String.length s - i) s.

Definition sliceTo (n : nat) (s : string) : string := String.substring 0 n s.

(** The helper [contains] that the Compliance and the CorporateAction files
    both define, with the same body. *)
Definition contains (s substr : string) : bool :=
  (String.length substr <=? String.length s)%nat
  && (String.eqb s substr
      || ((String.length substr <? String.length s)%nat
          && String.eqb (sliceTo (String.length substr) s) substr)).

Module BondTokenQueries.
Import BondToken.

(** The loop of [GetAllBonds] over the results of the scan. *)
Fixpoint collectBonds (results : list (string * Value)) : list Bond :=
  match results with
  | [] => []
  | (key, value) :: rest =>
      if (String.length key <? 20)%nat then
        let bond := unmarshalBond value in
        if negb (String.eqb (Bond_ID bond) "") then bond :: collectBonds rest
        else collectBonds rest
      else collectBonds rest
  end.

Definition GetAllBonds : Tx (list Bond) :=
  let* results := GetStateByRange "" "" in
  ret (collectBonds results).

(** The loop of [GetBondHolders].  [None] is the run-time panic of
    [key[len(key)-len(bondID)-1:]] when the bound is negative. *)
Fixpoint collectHolders (bondID : string) (results : list (string * Value))
    : option (list TokenHolder) :=
  match results with
  | [] => Some []
  | (key, value) :: rest =>
      if (20 <? String.length key)%nat then
        if (String.length key <? String.length bondID + 1)%nat then None
        else if String.eqb
                  (sliceFrom (String.length key - String.length bondID - 1) key)
                  ("_" +:+ bondID)
        then
          let holder := unmarshalHolder value in
          if String.eqb (Holder_BondID holder) bondID
          then cons holder <$> collectHolders bondID rest
          else collectHolders bondID rest
        else collectHolders bondID rest
      else collectHolders bondID rest
  end.

Definition GetBondHolders (bondID : string) : Tx (option (list TokenHolder)) :=
  let* results := GetStateByRange "" "" in
  ret (collectHolders bondID results).

(** Every document is a bond stored under its own identifier. *)
Definition bondsUnderTheirID (w : gmap string Value) : Prop :=
  forall k v, w !! k = Some v -> exists b, v = VBond b /\ Bond_ID b = k.

(** The bond with its status replaced, as [UpdateBondStatus] writes it. *)
Definition withStatus (newStatus : string) (bond : Bond) : Bond :=
  mkBond (Bond_ID bond) (Bond_IssuerID bond) (Bond_IssuerName bond)
    (Bond_FaceValue bond) (Bond_CouponRate bond) (Bond_MaturityDate bond)
    (Bond_IssueDate bond) (Bond_TotalSupply bond) (Bond_AvailableSupply bond)
    newStatus (Bond_Currency bond) (Bond_ISIN bond) (Bond_Rating bond)
    (Bond_Collateral bond).

Definition longBondID : string := "BOND_2030_SERIES_A_0001".

(** BOND_001 and then a bond with an identifier of 23 characters, issued
    on the empty ledger. *)
Definition twoBonds : Ledger :=
  snd (IssueBond longBondID "issuer" "Issuer Ltd" "USD" "ISIN002" "AA" "NONE"
         500%float 4%float 2000 "2030-12-31" BondTokenSpec.ctx0 BondTokenSpec.issued).

(** The strings an invocation carries, and the ledgers brought about from
    the empty one by invocations whose strings are all valid UTF-8: on
    these the stored documents are the structs that were marshalled. *)
Definition callStrings (call : BondTokenSpec.Call) : list string :=
  match call with
  | BondTokenSpec.CallIssueBond bondID issuerID issuerName currency isin rating collateral
      _ _ _ maturityDateStr =>
      [bondID; issuerID; issuerName; currency; isin; rating; collateral; maturityDateStr]
  | BondTokenSpec.CallTransfer from to bondID _ => [from; to; bondID]
  | BondTokenSpec.CallUpdateBondStatus bondID newStatus => [bondID; newStatus]
  end.

Definition validCall (call : BondTokenSpec.Call) : bool :=
  forallb validUTF8 (callStrings call).

Inductive reachableUTF8 : Ledger -> Prop :=
  | reachableUTF8_empty : reachableUTF8 emptyLedger
  | reachableUTF8_invoke (l l' : Ledger) (c : Ctx) (call : BondTokenSpec.Call) :
      reachableUTF8 l ->
      validCall call = true ->
      BondTokenSpec.invoke call c l = (Ok tt, l') ->
      reachableUTF8 l'.

(** A holder document stored under a key of 27 characters. *)
Definition longKeyLedger : Ledger :=
  mkLedger
    {[ "alice.investor.example_B001" :=
         VHolder (mkTokenHolder "alice.investor.example" "B001" 10 zeroTime (Some ∅)) ]}
    [].

End BondTokenQueries.

Module ComplianceQueries.
Import Compliance.

(** The loop of [GetAllKYC]. *)
Fixpoint collectKYC (results : list (string * Value)) : list KYCRecord :=
  match results with
  | [] => []
  | (key, value) :: rest =>
      if negb (contains key "_") then
        let kyc := unmarshalKYC value in
        if negb (String.eqb (KYC_Address kyc) "") then kyc :: collectKYC rest
        else collectKYC rest
      else collectKYC rest
  end.

Definition GetAllKYC : Tx (list KYCRecord) :=
  let* results := GetStateByRange "" "" in
  ret (collectKYC results).

(** The loop of [GetAllAMLChecks]. *)
Fixpoint collectAML (address : string) (results : list (string * Value))
    : list AMLCheck :=
  match results with
  | [] => []
  | (_, value) :: rest =>
      let amlCheck := unmarshalAML value in
      if String.eqb (AML_Address amlCheck) address
      then amlCheck :: collectAML address rest
      else collectAML address rest
  end.

(** [fmt.Sprintf("%s_%c", address, 0)] ends with the character of code 0. *)
Definition GetAllAMLChecks (address : string) : Tx (list AMLCheck) :=
  let startKey := address +:+ "_" in
  let endKey := address +:+ "_" +:+ String Ascii.zero "" in
  let* results := GetStateByRange startKey endKey in
  ret (collectAML address results).

End ComplianceQueries.

Module CorporateActionQueries.
Import CorporateAction.

(** The loop of [GetCouponPaymentsByBond]. *)
Fixpoint collectCouponsByBond (bondID : string) (results : list (string * Value))
    : list CouponPayment :=
  match results with
  | [] => []
  | (key, value) :: rest =>
      if (8 <? String.length key)%nat && String.eqb (sliceTo 8 key) "COUPON_"
         && contains key bondID
      then
        let couponPayment := unmarshalCoupon value in
        if String.eqb (Coupon_BondID couponPayment) bondID
        then couponPayment :: collectCouponsByBond bondID rest
        else collectCouponsByBond bondID rest
      else collectCouponsByBond bondID rest
  end.

Definition GetCouponPaymentsByBond (bondID : string) : Tx (list CouponPayment) :=
  let* results := GetStateByRange "" "" in
  ret (collectCouponsByBond bondID results).

(** The loop of [GetRedemptionsByBond]. *)
Fixpoint collectRedemptionsByBond (bondID : string) (results : list (string * Value))
    : list Redemption :=
  match results with
  | [] => []
  | (key, value) :: rest =>
      if (11 <? String.length key)%nat && String.eqb (sliceTo 11 key) "REDEMPTION_"
         && contains key bondID
      then
        let redemption := unmarshalRedemption value in
        if String.eqb (Redemption_BondID redemption) bondID
        then redemption :: collectRedemptionsByBond bondID rest
        else collectRedemptionsByBond bondID rest
      else collectRedemptionsByBond bondID rest
  end.

Definition GetRedemptionsByBond (bondID : string) : Tx (list Redemption) :=
  let* results := GetStateByRange "" "" in
  ret (collectRedemptionsByBond bondID results).

(** The loop of [GetPendingCouponPayments]. *)
Fixpoint collectPendingCoupons (results : list (string * Value)) : list CouponPayment :=
  match results with
  | [] => []
  | (key, value) :: rest =>
      if (8 <? String.length key)%nat && String.eqb (sliceTo 8 key) "COUPON_"
      then
        let couponPayment := unmarshalCoupon value in
        if String.eqb (Coupon_Status couponPayment) "PENDING"
        then couponPayment :: collectPendingCoupons rest
        else collectPendingCoupons rest
      else collectPendingCoupons rest
  end.

Definition GetPendingCouponPayments : Tx (list CouponPayment) :=
  let* results := GetStateByRange "" "" in
  ret (collectPendingCoupons results).

(** The loop of [GetPendingRedemptions]. *)
Fixpoint collectPendingRedemptions (results : list (string * Value)) : list Redemption :=
  match results with
  | [] => []
  | (key, value) :: rest =>
      if (11 <? String.length key)%nat && String.eqb (sliceTo 11 key) "REDEMPTION_"
      then
        let redemption := unmarshalRedemption value in
        if String.eqb (Redemption_Status redemption) "PENDING"
        then redemption :: collectPendingRedemptions rest
        else collectPendingRedemptions rest
      else collectPendingRedemptions rest
  end.

Definition GetPendingRedemptions : Tx (list Redemption) :=
  let* results := GetStateByRange "" "" in
  ret (collectPendingRedemptions results).

(** The identifiers the two Create operations make up. *)
Definition couponIDOf (c : Ctx) (bondID : string) : string :=
  "COUPON_" +:+ bondID +:+ "_" +:+ formatYMD (now c).

Definition redemptionIDOf (c : Ctx) (bondID : string) : string :=
  "REDEMPTION_" +:+ bondID +:+ "_" +:+ formatYMD (now c).

End CorporateActionQueries.

(** * Properties *)

Lemma wrap64_id (z : Z) : in_int64 z -> wrap64 z = z.
Proof.
  unfold in_int64, int64_min, int64_max, wrap64. intros H.
  rewrite Z.mod_small by lia. lia.
Qed.

Lemma wrap64_in_int64 (z : Z) : in_int64 (wrap64 z).
Proof.
  unfold in_int64, int64_min, int64_max, wrap64.
  pose proof (Z.mod_pos_bound (z + 2 ^ 63) (2 ^ 64) ltac:(lia)). lia.
Qed.

Lemma underscoreKey_length (a b : string) :
  String.length (underscoreKey a b) = (String.length a + 1 + String.length b)%nat.
Proof.
  unfold underscoreKey. induction a as [|ch a IH]; simpl; [reflexivity | ].
  simpl in IH. rewrite IH. reflexivity.
Qed.

(** A holder key is never the key of its bond. *)
Lemma underscoreKey_neq (a b : string) : underscoreKey a b <> b.
Proof.
  intros H. apply (f_equal String.length) in H.
  rewrite underscoreKey_length in H. lia.
Qed.

Module BondTokenFacts.
Import BondToken BondTokenSpec.

Lemma BondExists_run (c : Ctx) (l : Ledger) (bondID : string) :
  BondExists bondID c l
    = (Ok (match world l !! bondID with Some _ => true | None => false end), l).
Proof. reflexivity. Qed.

Lemma GetBalance_run (c : Ctx) (l : Ledger) (address bondID : string) :
  GetBalance address bondID c l = (Ok (balanceOf (world l) address bondID), l).
Proof.
  unfold GetBalance, GetTokenHolder, balanceOf. tx_unfold.
  destruct (world l !! underscoreKey address bondID); reflexivity.
Qed.

(** Overdrawing a recorded balance: InsufficientBalance, nothing written. *)
Lemma Transfer_insufficient (c : Ctx) (l : Ledger) (from to bondID : string)
    (quantity : Z) (v : Value) :
  is_Some (world l !! bondID) ->
  0 < quantity ->
  world l !! underscoreKey from bondID = Some v ->
  Holder_Quantity (unmarshalHolder v) < quantity ->
  Transfer from to bondID quantity c l
    = (Err (InsufficientBalance (Holder_Quantity (unmarshalHolder v)) quantity), l).
Proof.
  intros [b Hb] Hq Hs Hlt.
  unfold Transfer, BondExists, GetTokenHolder. tx_unfold.
  rewrite Hb. cbn [negb].
  destruct (quantity <=? 0) eqn:E; [lia | ].
  rewrite Hs.
  destruct (Holder_Quantity (unmarshalHolder v) <? quantity) eqn:E2; [reflexivity | lia].
Qed.

(** No sender document: the lookup error is returned, nothing written. *)
Lemma Transfer_sender_missing (c : Ctx) (l : Ledger) (from to bondID : string)
    (quantity : Z) :
  is_Some (world l !! bondID) ->
  0 < quantity ->
  world l !! underscoreKey from bondID = None ->
  Transfer from to bondID quantity c l
    = (Err (FailedToGetSenderHolder (HolderDoesNotExist (underscoreKey from bondID))), l).
Proof.
  intros [b Hb] Hq Hs.
  unfold Transfer, BondExists, GetTokenHolder. tx_unfold.
  rewrite Hb. cbn [negb].
  destruct (quantity <=? 0) eqn:E; [lia | ].
  rewrite Hs. reflexivity.
Qed.

Lemma Transfer_success (c : Ctx) (l : Ledger) (from to bondID : string)
    (quantity : Z) (v : Value) :
  is_Some (world l !! bondID) ->
  0 < quantity ->
  world l !! underscoreKey from bondID = Some v ->
  quantity <= Holder_Quantity (unmarshalHolder v) ->
  Transfer from to bondID quantity c l
    = (Ok tt, transferred c l from to bondID quantity (unmarshalHolder v)).
Proof.
  intros [b Hb] Hq Hs Hle.
  unfold Transfer, BondExists, GetTokenHolder, transferred, marshalHolder. tx_unfold.
  rewrite Hb. cbn [negb].
  destruct (quantity <=? 0) eqn:E; [lia | ].
  rewrite Hs.
  destruct (Holder_Quantity (unmarshalHolder v) <? quantity) eqn:E2; [lia | ].
  destruct (world l !! underscoreKey to bondID); reflexivity.
Qed.

(** Every outcome of [Transfer]: one of four failures that write nothing,
    or the success above. *)
Lemma Transfer_cases (c : Ctx) (l : Ledger) (from to bondID : string) (quantity : Z) :
  (exists e, Transfer from to bondID quantity c l = (Err e, l)) \/
  (exists v,
      world l !! underscoreKey from bondID = Some v /\
      0 < quantity <= Holder_Quantity (unmarshalHolder v) /\
      Transfer from to bondID quantity c l
        = (Ok tt, transferred c l from to bondID quantity (unmarshalHolder v))).
Proof.
  destruct (world l !! bondID) as [b|] eqn:Hb.
  - destruct (Z_lt_le_dec 0 quantity) as [Hq|Hq].
    + destruct (world l !! underscoreKey from bondID) as [v|] eqn:Hs.
      * destruct (Z_lt_le_dec (Holder_Quantity (unmarshalHolder v)) quantity) as [Hlt|Hle].
        -- left. eexists. apply Transfer_insufficient; eauto.
        -- right. exists v. split; [reflexivity | split; [lia | ]].
           apply Transfer_success; eauto.
      * left. eexists. apply Transfer_sender_missing; eauto.
    + left. exists QuantityMustBePositive.
      unfold Transfer, BondExists. tx_unfold. rewrite Hb. cbn [negb].
      destruct (quantity <=? 0) eqn:E; [reflexivity | lia].
  - left. exists (BondDoesNotExist bondID).
    unfold Transfer, BondExists. tx_unfold. rewrite Hb. reflexivity.
Qed.

(** What [IssueBond] does when it succeeds: one document written, under
    the bond identifier, and one event. *)
Lemma IssueBond_success (c : Ctx) (l : Ledger)
    (bondID issuerID issuerName currency isin rating collateral : string)
    (faceValue couponRate : float) (totalSupply : Z) (maturityDateStr : string)
    (maturityDate : Time) :
  world l !! bondID = None ->
  parseDate maturityDateStr = Some maturityDate ->
  json_float_ok faceValue = true ->
  json_float_ok couponRate = true ->
  IssueBond bondID issuerID issuerName currency isin rating collateral
      faceValue couponRate totalSupply maturityDateStr c l
    = (Ok tt,
       mkLedger
         (<[bondID := VBond (mkBond bondID issuerID issuerName faceValue couponRate
                               maturityDate (now c) totalSupply totalSupply "ACTIVE"
                               currency isin rating collateral)]> (world l))
         (events l ++ [("BondIssued",
                        mkTransferEvent "SYSTEM" issuerID bondID totalSupply
                          (now c) (txID c))])).
Proof.
  intros Hb Hd Hf Hr.
  unfold IssueBond, BondExists, marshalBond. tx_unfold.
  rewrite Hb, Hd. cbn [Bond_FaceValue Bond_CouponRate].
  rewrite Hf, Hr. reflexivity.
Qed.

(** The creation guard of [IssueBond]. *)
Lemma IssueBond_existing (c : Ctx) (l : Ledger)
    (bondID issuerID issuerName currency isin rating collateral : string)
    (faceValue couponRate : float) (totalSupply : Z) (maturityDateStr : string) :
  is_Some (world l !! bondID) ->
  IssueBond bondID issuerID issuerName currency isin rating collateral
      faceValue couponRate totalSupply maturityDateStr c l
    = (Err (BondAlreadyExists bondID), l).
Proof.
  intros [v Hv]. unfold IssueBond, BondExists. tx_unfold. rewrite Hv. reflexivity.
Qed.

(** Whatever [IssueBond] does, it writes under no key but the bond's. *)
Lemma IssueBond_other_keys (c : Ctx) (l : Ledger)
    (bondID issuerID issuerName currency isin rating collateral : string)
    (faceValue couponRate : float) (totalSupply : Z) (maturityDateStr key : string) :
  key <> bondID ->
  world (snd (IssueBond bondID issuerID issuerName currency isin rating collateral
                faceValue couponRate totalSupply maturityDateStr c l)) !! key
    = world l !! key.
Proof.
  intros Hk.
  unfold IssueBond, BondExists, marshalBond. tx_unfold.
  destruct (world l !! bondID); [reflexivity | ].
  destruct (parseDate maturityDateStr); [ | reflexivity].
  cbn [Bond_FaceValue Bond_CouponRate].
  destruct (json_float_ok faceValue && json_float_ok couponRate); [ | reflexivity].
  cbn [snd world]. apply lookup_insert_ne. congruence.
Qed.

(** An overdraw against a missing sender document is answered with a
    NotFound error. *)
Lemma overdraw_of_missing_sender :
  is_Some (world issued !! "BOND_001") /\
  balanceOf (world issued) "alice" "BOND_001" < 5 /\
  Transfer "alice" "bob" "BOND_001" 5 ctx0 issued
    = (Err (FailedToGetSenderHolder (HolderDoesNotExist "alice_BOND_001")), issued).
Proof.
  split; [eexists; vm_compute; reflexivity | ].
  split; [vm_compute; reflexivity | ].
  apply (Transfer_sender_missing ctx0 issued "alice" "bob" "BOND_001" 5).
  - eexists; vm_compute; reflexivity.
  - lia.
  - vm_compute; reflexivity.
Qed.

Lemma not_overdrawIsInsufficientBalance : ~ overdrawIsInsufficientBalance.
Proof.
  intros H.
  destruct overdraw_of_missing_sender as (Hb & Hlt & Hrun).
  destruct (H ctx0 issued "alice" "bob" "BOND_001" 5 Hb ltac:(lia) Hlt) as (e & He & Hk).
  rewrite Hrun in He. injection He as <-. discriminate Hk.
Qed.

(** Right cancellation for keys: the address of a holder key is determined
    by the key and the bond. *)
Lemma append_length (a b : string) :
  String.length (a +:+ b) = (String.length a + String.length b)%nat.
Proof.
  induction a as [|ch a IH]; [reflexivity | ].
  change (S (String.length (a +:+ b)) = S (String.length a + String.length b)).
  rewrite IH. reflexivity.
Qed.

Lemma append_inj_l (a a' b : string) : a +:+ b = a' +:+ b -> a = a'.
Proof.
  revert a'. induction a as [|ch a IH]; intros [|ch' a'] H.
  - reflexivity.
  - apply (f_equal String.length) in H.
    change (String.length b = S (String.length (a' +:+ b))) in H.
    rewrite append_length in H. lia.
  - apply (f_equal String.length) in H.
    change (S (String.length (a +:+ b)) = String.length b) in H.
    rewrite append_length in H. lia.
  - change (String ch (a +:+ b) = String ch' (a' +:+ b)) in H.
    injection H as -> H. f_equal. apply IH. exact H.
Qed.

Lemma underscoreKey_inj (a a' b : string) :
  underscoreKey a b = underscoreKey a' b -> a = a'.
Proof. unfold underscoreKey. apply append_inj_l. Qed.

(** *** What the contract can reach *)

Lemma onlyBonds_insert (w : gmap string Value) (k : string) (b : Bond) :
  onlyBonds w -> onlyBonds (<[k := VBond b]> w).
Proof.
  intros Hw k' v H. apply lookup_insert_Some in H.
  destruct H as [[_ <-] | [_ H]]; [eexists; reflexivity | exact (Hw _ _ H)].
Qed.

(** On a ledger of bond documents every [Transfer] fails and writes nothing:
    a sender's document, if there is one, shows quantity 0. *)
Lemma Transfer_fails_onlyBonds (c : Ctx) (l : Ledger) (from to bondID : string)
    (quantity : Z) :
  onlyBonds (world l) ->
  exists e, Transfer from to bondID quantity c l = (Err e, l).
Proof.
  intros Hw.
  destruct (Transfer_cases c l from to bondID quantity)
    as [He | (v & Hs & [Hq Hle] & _)]; [exact He | ].
  destruct (Hw _ _ Hs) as [b ->]. cbn in Hle. lia.
Qed.

Lemma invoke_onlyBonds (c : Ctx) (l l' : Ledger) (call : Call) :
  onlyBonds (world l) ->
  invoke call c l = (Ok tt, l') ->
  onlyBonds (world l').
Proof.
  intros Hw H. destruct call; cbn [invoke] in H.
  - revert H. unfold IssueBond, BondExists, marshalBond. tx_unfold.
    destruct (world l !! bondID); [discriminate | ].
    destruct (parseDate maturityDateStr); [ | discriminate].
    cbn [Bond_FaceValue Bond_CouponRate].
    destruct (json_float_ok faceValue && json_float_ok couponRate); [ | discriminate].
    intros H. injection H as <-. cbn [world]. apply onlyBonds_insert. exact Hw.
  - destruct (Transfer_fails_onlyBonds c l from to bondID quantity Hw) as [e He].
    rewrite He in H. discriminate H.
  - revert H. unfold UpdateBondStatus, GetBond, marshalBond. tx_unfold.
    destruct (world l !! bondID); [ | discriminate].
    cbn [Bond_FaceValue Bond_CouponRate].
    destruct (json_float_ok _ && json_float_ok _); [ | discriminate].
    intros H. injection H as <-. cbn [world]. apply onlyBonds_insert. exact Hw.
Qed.

Lemma reachable_onlyBonds (l : Ledger) : reachable l -> onlyBonds (world l).
Proof.
  induction 1 as [ | l l' c call _ IH Hrun].
  - intros k v H. cbn in H. rewrite lookup_empty in H. discriminate.
  - exact (invoke_onlyBonds c l l' call IH Hrun).
Qed.

(** From the empty ledger the contract never reaches a ledger on which a
    [Transfer] succeeds. *)
Lemma no_transfer_ever_succeeds (l : Ledger) (c : Ctx) (from to bondID : string)
    (quantity : Z) :
  reachable l ->
  exists e, Transfer from to bondID quantity c l = (Err e, l).
Proof. intros H. apply Transfer_fails_onlyBonds, reachable_onlyBonds, H. Qed.

(** *** The total of a bond's holder quantities *)

Lemma holdersTotal_step (bondID : string) (v : Value) (acc : Z) :
  match v with
  | VHolder h => if String.eqb (Holder_BondID h) bondID
                 then acc + Holder_Quantity h else acc
  | VBond _ => acc
  end = acc + share bondID v.
Proof.
  destruct v as [b | h]; cbn [share]; [lia | ].
  destruct (String.eqb (Holder_BondID h) bondID); lia.
Qed.

Lemma holdersTotal_empty (bondID : string) : holdersTotal ∅ bondID = 0.
Proof. unfold holdersTotal. apply map_fold_empty. Qed.

Lemma holdersTotal_insert_fresh (w : gmap string Value) (bondID key : string) (v : Value) :
  w !! key = None ->
  holdersTotal (<[key := v]> w) bondID = holdersTotal w bondID + share bondID v.
Proof.
  intros Hk. unfold holdersTotal.
  rewrite map_fold_insert_L.
  - apply holdersTotal_step.
  - intros j1 j2 z1 z2 y _ _ _. rewrite !holdersTotal_step. lia.
  - exact Hk.
Qed.

Lemma holdersTotal_delete (w : gmap string Value) (bondID key : string) :
  holdersTotal w bondID = holdersTotal (delete key w) bondID + shareAt w bondID key.
Proof.
  unfold shareAt. destruct (w !! key) as [v|] eqn:Hk.
  - unfold holdersTotal.
    rewrite (map_fold_delete_L _ _ key v w).
    + apply holdersTotal_step.
    + intros j1 j2 z1 z2 y _ _ _. rewrite !holdersTotal_step. lia.
    + exact Hk.
  - rewrite delete_id by exact Hk. lia.
Qed.

(** Writing a document moves the total by the difference of the shares. *)
Lemma holdersTotal_insert (w : gmap string Value) (bondID key : string) (v : Value) :
  holdersTotal (<[key := v]> w) bondID
    = holdersTotal w bondID - shareAt w bondID key + share bondID v.
Proof.
  rewrite (holdersTotal_delete w bondID key).
  rewrite <- (insert_delete_eq w key v).
  rewrite holdersTotal_insert_fresh by apply lookup_delete_eq. lia.
Qed.

Lemma shareAt_insert_ne (w : gmap string Value) (bondID key key' : string) (v : Value) :
  key <> key' ->
  shareAt (<[key := v]> w) bondID key' = shareAt w bondID key'.
Proof. intros H. unfold shareAt. rewrite lookup_insert_ne by exact H. reflexivity. Qed.

Lemma holdersTotal_onlyBonds (w : gmap string Value) (bondID : string) :
  onlyBonds w -> holdersTotal w bondID = 0.
Proof.
  unfold holdersTotal.
  apply (map_fold_weak_ind (fun r m => onlyBonds m -> r = 0)).
  - reflexivity.
  - intros k v m r Hk IH Hw.
    destruct (Hw k v (lookup_insert_eq m k v)) as [b ->].
    apply IH. intros k' v' H'. apply (Hw k' v').
    rewrite lookup_insert_ne; [exact H' | congruence].
Qed.

(** On every ledger the contract reaches from the empty one, the holder
    quantities of every bond add up to 0. *)
Lemma reachable_holdersTotal (l : Ledger) (bondID : string) :
  reachable l -> holdersTotal (world l) bondID = 0.
Proof. intros H. apply holdersTotal_onlyBonds, reachable_onlyBonds, H. Qed.

(** What does hold of a transfer: between two different addresses whose
    documents are holder documents of the bond, and short of an overflow of
    the recipient's quantity, the total of the bond is kept. *)
Lemma Transfer_conserves (c : Ctx) (l l' : Ledger) (from to bondID : string)
    (quantity : Z) :
  from <> to ->
  quantitiesInt64 (world l) ->
  nonNegative (world l) ->
  holderOfBondAt (world l) bondID (underscoreKey from bondID) ->
  holderOfBondAt (world l) bondID (underscoreKey to bondID) ->
  balanceOf (world l) to bondID + quantity <= int64_max ->
  Transfer from to bondID quantity c l = (Ok tt, l') ->
  holdersTotal (world l') bondID = holdersTotal (world l) bondID.
Proof.
  intros Hne Hty Hnn Hfrom Hto Hmax Hrun.
  destruct (Transfer_cases c l from to bondID quantity)
    as [[e He] | (v & Hs & [Hq Hle] & Hok)]; [rewrite He in Hrun; discriminate | ].
  rewrite Hok in Hrun. injection Hrun as <-.
  assert (Hkeys : underscoreKey from bondID <> underscoreKey to bondID)
    by (intros H; apply Hne, (underscoreKey_inj _ _ _ H)).
  destruct (Hfrom _ Hs) as (sh & -> & Hsb).
  pose proof (Hty _ _ Hs) as Hsty. cbn [unmarshalHolder] in *.
  unfold transferred. cbn [world].
  rewrite !holdersTotal_insert.
  rewrite (shareAt_insert_ne _ _ _ _ _ Hkeys).
  unfold shareAt. rewrite Hs. cbn [share Holder_BondID Holder_Quantity].
  unfold balanceOf in Hmax.
  destruct (world l !! underscoreKey to bondID) as [rv|] eqn:Hr.
  - destruct (Hto _ Hr) as (rh & -> & Hrb).
    pose proof (Hnn _ _ Hr) as Hrnn. cbn [unmarshalHolder] in *.
    cbn [share Holder_BondID Holder_Quantity].
    rewrite Hsb, Hrb, String.eqb_refl.
    unfold add64, sub64. rewrite !wrap64_id; unfold in_int64, int64_min in *; lia.
  - cbn [share Holder_BondID Holder_Quantity] in *.
    rewrite Hsb, String.eqb_refl.
    unfold add64, sub64. rewrite !wrap64_id; unfold in_int64, int64_min in *; lia.
Qed.

(** *** Balance conservation *)

(** C1 (the code departs from the claim).  The claim: after [IssueBond],
    and before and after every valid [Transfer], the holder quantities of
    a bond add up to its total supply.  On the code: issuing BOND_001 with
    a total supply of 1000 on the empty ledger succeeds and leaves no
    holder document, so the quantities add up to 0; and on a ledger where
    alice holds the whole supply of 1000, the valid call
    Transfer(alice, alice, BOND_001, 300) succeeds and leaves her with
    1300 while the total supply is still 1000.  (See also
    [reachable_holdersTotal] and [no_transfer_ever_succeeds] for every
    ledger reached from the empty one, and [Transfer_conserves] for what
    does hold.) *)
Theorem balance_conservation_broken :
  (IssueBond "BOND_001" "issuer" "Issuer Ltd" "USD" "ISIN001" "AAA" "NONE"
       1000%float 5%float 1000 "2030-01-01" ctx0 emptyLedger = (Ok tt, issued) /\
   Bond_TotalSupply <$> (unmarshalBond <$> world issued !! "BOND_001") = Some 1000 /\
   holdersTotal (world issued) "BOND_001" = 0) /\
  (let l := funded [("alice", 1000)] in
   let l' := snd (Transfer "alice" "alice" "BOND_001" 300 ctx0 l) in
   Bond_TotalSupply <$> (unmarshalBond <$> world l !! "BOND_001") = Some 1000 /\
   holdersTotal (world l) "BOND_001" = 1000 /\
   fst (Transfer "alice" "alice" "BOND_001" 300 ctx0 l) = Ok tt /\
   Bond_TotalSupply <$> (unmarshalBond <$> world l' !! "BOND_001") = Some 1000 /\
   holdersTotal (world l') "BOND_001" = 1300).
Proof.
  split.
  - repeat split; vm_compute; reflexivity.
  - cbv zeta. repeat split; vm_compute; reflexivity.
Qed.

(** *** Issuance *)

(** C2 (the code departs from the claim).  The claim: [IssueBond] creates
    the bond with availableSupply = totalSupply and status ACTIVE, and a
    holder document crediting the issuer with totalSupply.  On the code
    the bond is created as claimed, but no call of [IssueBond] changes
    the document under any other key, a holder key included: the issuer's
    balance is what it was before, 0 on the empty ledger, although the
    BondIssued event announces the transfer of the supply to the issuer;
    and the issuer's first transfer to an investor fails, its holder
    document being missing. *)
Theorem IssueBond_does_not_credit_issuer :
  (IssueBond "BOND_001" "issuer" "Issuer Ltd" "USD" "ISIN001" "AAA" "NONE"
       1000%float 5%float 1000 "2030-01-01" ctx0 emptyLedger = (Ok tt, issued) /\
   world issued !! "BOND_001" = Some (VBond bond1) /\
   Bond_AvailableSupply bond1 = 1000 /\
   Bond_TotalSupply bond1 = 1000 /\
   Bond_Status bond1 = "ACTIVE" /\
   events issued
     = [("BondIssued",
         mkTransferEvent "SYSTEM" "issuer" "BOND_001" 1000 (now ctx0) (txID ctx0))] /\
   world issued !! underscoreKey "issuer" "BOND_001" = None /\
   GetBalance "issuer" "BOND_001" ctx0 issued = (Ok 0, issued) /\
   Transfer "issuer" "investor" "BOND_001" 300 ctx0 issued
     = (Err (FailedToGetSenderHolder (HolderDoesNotExist "issuer_BOND_001")), issued)) /\
  (forall (c : Ctx) (l : Ledger)
      (bondID issuerID issuerName currency isin rating collateral : string)
      (faceValue couponRate : float) (totalSupply : Z) (maturityDateStr : string),
      balanceOf
        (world (snd (IssueBond bondID issuerID issuerName currency isin rating
                       collateral faceValue couponRate totalSupply maturityDateStr
                       c l)))
        issuerID bondID
      = balanceOf (world l) issuerID bondID).
Proof.
  split.
  - repeat split; vm_compute; reflexivity.
  - intros. unfold balanceOf.
    rewrite IssueBond_other_keys by apply underscoreKey_neq. reflexivity.
Qed.

(** *** Self-transfer *)

(** With alice at 2^63 - 1, Transfer(alice, alice, BOND_001, 1) succeeds
    and leaves her at -2^63, not at 2^63. *)
Lemma selfTransferAddsExactly_fails :
  balanceOf (world aliceAtMax) "alice" "BOND_001" = int64_max /\
  fst (Transfer "alice" "alice" "BOND_001" 1 ctx0 aliceAtMax) = Ok tt /\
  holderQuantityAt (world (snd (Transfer "alice" "alice" "BOND_001" 1 ctx0 aliceAtMax)))
    (underscoreKey "alice" "BOND_001") = Some int64_min /\
  ~ selfTransferAddsExactly.
Proof.
  split; [vm_compute; reflexivity | ].
  split; [vm_compute; reflexivity | ].
  split; [vm_compute; reflexivity | ].
  intros H.
  destruct (H ctx0 aliceAtMax "alice" "BOND_001" 1
              (VHolder (holderOf "alice" int64_max))) as (l' & Hrun & Hq).
  - eexists; vm_compute; reflexivity.
  - vm_compute; reflexivity.
  - vm_compute. split; discriminate.
  - vm_compute. split; [reflexivity | discriminate].
  - vm_compute in Hrun. injection Hrun as <-.
    vm_compute in Hq. discriminate Hq.
Qed.

(** C3 (as amended).  A [Transfer] with from = to, an existing bond and a
    recorded quantity of at least the positive quantity sent succeeds, and
    the quantity stored afterwards is the old one plus the quantity sent
    in [int64] arithmetic: exactly their sum when it does not exceed
    2^63 - 1, and the sum wrapped around otherwise.  The recipient's write
    under the same key replaces the sender's debited one. *)
Theorem self_transfer_mints (c : Ctx) (l : Ledger) (a bondID : string)
    (quantity : Z) (v : Value) :
  is_Some (world l !! bondID) ->
  world l !! underscoreKey a bondID = Some v ->
  0 < quantity <= Holder_Quantity (unmarshalHolder v) ->
  exists l',
    Transfer a a bondID quantity c l = (Ok tt, l') /\
    holderQuantityAt (world l') (underscoreKey a bondID)
      = Some (add64 (Holder_Quantity (unmarshalHolder v)) quantity) /\
    (Holder_Quantity (unmarshalHolder v) + quantity <= int64_max ->
     holderQuantityAt (world l') (underscoreKey a bondID)
       = Some (Holder_Quantity (unmarshalHolder v) + quantity)).
Proof.
  intros Hb Hs [Hq Hle].
  eexists. split; [apply Transfer_success; eauto | ].
  unfold transferred, holderQuantityAt. cbn [world].
  rewrite Hs, lookup_insert_eq. cbn [fmap option_fmap option_map unmarshalHolder Holder_Quantity].
  split; [reflexivity | ].
  intros Hmax. unfold add64. rewrite wrap64_id; [reflexivity | ].
  unfold in_int64, int64_min in *. lia.
Qed.

Lemma self_transfer_mints_witness :
  is_Some (world (funded [("alice", 1000)]) !! "BOND_001") /\
  world (funded [("alice", 1000)]) !! underscoreKey "alice" "BOND_001"
    = Some (VHolder (holderOf "alice" 1000)) /\
  0 < 300 <= Holder_Quantity (unmarshalHolder (VHolder (holderOf "alice" 1000))) /\
  exists l',
    Transfer "alice" "alice" "BOND_001" 300 ctx0 (funded [("alice", 1000)]) = (Ok tt, l') /\
    holderQuantityAt (world l') (underscoreKey "alice" "BOND_001")
      = Some (add64 (Holder_Quantity (unmarshalHolder (VHolder (holderOf "alice" 1000)))) 300) /\
    (Holder_Quantity (unmarshalHolder (VHolder (holderOf "alice" 1000))) + 300 <= int64_max ->
     holderQuantityAt (world l') (underscoreKey "alice" "BOND_001")
       = Some (Holder_Quantity (unmarshalHolder (VHolder (holderOf "alice" 1000))) + 300)).
Proof.
  assert (H1 : is_Some (world (funded [("alice", 1000)]) !! "BOND_001"))
    by (eexists; vm_compute; reflexivity).
  assert (H2 : world (funded [("alice", 1000)]) !! underscoreKey "alice" "BOND_001"
               = Some (VHolder (holderOf "alice" 1000)))
    by (vm_compute; reflexivity).
  assert (H3 : 0 < 300 <= Holder_Quantity (unmarshalHolder (VHolder (holderOf "alice" 1000))))
    by (simpl; lia).
  split; [exact H1 | ]. split; [exact H2 | ]. split; [exact H3 | ].
  exact (self_transfer_mints ctx0 (funded [("alice", 1000)]) "alice" "BOND_001" 300
           (VHolder (holderOf "alice" 1000)) H1 H2 H3).
Defined.

(** *** Overdraw *)

(** On the ledger that holds BOND_001 and no holder document, alice's
    balance is 0 and Transfer(alice, bob, BOND_001, 5) fails with the
    NotFound error of the sender's lookup. *)
Lemma overdraw_not_always_InsufficientBalance :
  balanceOf (world issued) "alice" "BOND_001" = 0 /\
  Transfer "alice" "bob" "BOND_001" 5 ctx0 issued
    = (Err (FailedToGetSenderHolder (HolderDoesNotExist "alice_BOND_001")), issued) /\
  kindOf (FailedToGetSenderHolder (HolderDoesNotExist "alice_BOND_001")) = NotFound /\
  ~ overdrawIsInsufficientBalance.
Proof.
  split; [vm_compute; reflexivity | ].
  split; [exact (proj2 (proj2 overdraw_of_missing_sender)) | ].
  split; [reflexivity | exact not_overdrawIsInsufficientBalance].
Qed.

(** C4 (as amended).  A [Transfer] on an existing bond with a positive
    quantity that exceeds the sender's recorded balance, a missing sender
    document counting as balance 0, fails and writes nothing: the ledger
    is exactly as before the call.  The error is InsufficientBalance when
    a document lies under the sender's key (one that is not a holder
    record reads as quantity 0), and the NotFound error of the sender's
    lookup ("failed to get sender holder: holder ... does not exist") when
    none does. *)
Theorem overdraw_fails_without_writes (c : Ctx) (l : Ledger) (from to bondID : string)
    (quantity : Z) :
  is_Some (world l !! bondID) ->
  0 < quantity ->
  balanceOf (world l) from bondID < quantity ->
  match world l !! underscoreKey from bondID with
  | Some v =>
      Transfer from to bondID quantity c l
        = (Err (InsufficientBalance (Holder_Quantity (unmarshalHolder v)) quantity), l)
  | None =>
      Transfer from to bondID quantity c l
        = (Err (FailedToGetSenderHolder (HolderDoesNotExist (underscoreKey from bondID))), l)
  end.
Proof.
  intros Hb Hq Hlt. unfold balanceOf in Hlt.
  destruct (world l !! underscoreKey from bondID) as [v|] eqn:Hs.
  - apply Transfer_insufficient; assumption.
  - apply Transfer_sender_missing; assumption.
Qed.

Lemma overdraw_fails_without_writes_witness :
  is_Some (world (funded [("alice", 100)]) !! "BOND_001") /\
  0 < 101 /\
  balanceOf (world (funded [("alice", 100)])) "alice" "BOND_001" < 101 /\
  Transfer "alice" "bob" "BOND_001" 101 ctx0 (funded [("alice", 100)])
    = (Err (InsufficientBalance 100 101), funded [("alice", 100)]).
Proof.
  assert (H1 : is_Some (world (funded [("alice", 100)]) !! "BOND_001"))
    by (eexists; vm_compute; reflexivity).
  assert (H2 : 0 < 101) by lia.
  assert (H3 : balanceOf (world (funded [("alice", 100)])) "alice" "BOND_001" < 101)
    by (vm_compute; reflexivity).
  split; [exact H1 | ]. split; [exact H2 | ]. split; [exact H3 | ].
  exact (overdraw_fails_without_writes ctx0 (funded [("alice", 100)])
           "alice" "bob" "BOND_001" 101 H1 H2 H3).
Defined.

(** *** No negative balances *)

Lemma transferKeepsNonNegative_fails : ~ transferKeepsNonNegative.
Proof.
  intros H.
  pose (l := bobAtMax).
  assert (Hneg : nonNegative (world (snd (Transfer "alice" "bob" "BOND_001" 1 ctx0 l)))).
  { apply H.
    - vm_compute. split; discriminate.
    - apply (bool_decide_unpack (map_Forall _ _)). vm_compute. exact I.
    - apply (bool_decide_unpack (map_Forall _ _)). vm_compute. exact I. }
  specialize (Hneg "bob_BOND_001"
                (VHolder (mkTokenHolder "bob" "BOND_001" int64_min (now ctx0) (Some ∅)))).
  assert (Hl : world (snd (Transfer "alice" "bob" "BOND_001" 1 ctx0 l)) !! "bob_BOND_001"
               = Some (VHolder (mkTokenHolder "bob" "BOND_001" int64_min (now ctx0) (Some ∅))))
    by (vm_compute; reflexivity).
  specialize (Hneg Hl). vm_compute in Hneg. apply Hneg. reflexivity.
Qed.

(** With alice at 1 and bob at 2^63 - 1, Transfer(alice, bob, BOND_001, 1)
    succeeds and leaves bob at -2^63; and the overdraw of a sender without
    a document is not answered with InsufficientBalance. *)
Lemma noNegativeBalances_fails :
  nonNegative (world bobAtMax) /\
  fst (Transfer "alice" "bob" "BOND_001" 1 ctx0 bobAtMax) = Ok tt /\
  holderQuantityAt (world (snd (Transfer "alice" "bob" "BOND_001" 1 ctx0 bobAtMax)))
    (underscoreKey "bob" "BOND_001") = Some int64_min /\
  ~ transferKeepsNonNegative /\
  ~ overdrawIsInsufficientBalance /\
  ~ noNegativeBalances.
Proof.
  split; [apply (bool_decide_unpack (map_Forall _ _)); vm_compute; exact I | ].
  split; [vm_compute; reflexivity | ].
  split; [vm_compute; reflexivity | ].
  split; [exact transferKeepsNonNegative_fails | ].
  split; [exact not_overdrawIsInsufficientBalance | ].
  intros [H _]. exact (transferKeepsNonNegative_fails H).
Qed.

(** C9 (as amended).  From a ledger in which every holder quantity is a
    non-negative [int64], a [Transfer] call leaves no holder with a
    quantity below 0, provided the recipient's recorded balance plus the
    quantity sent does not exceed 2^63 - 1; and an attempted overdraw
    leaves the ledger, all balances included, exactly as it was, returning
    InsufficientBalance when a document lies under the sender's key (one
    that is not a holder record reads as quantity 0) and the NotFound
    error of the sender's lookup when none does. *)
Theorem no_negative_balances (c : Ctx) (l : Ledger) (from to bondID : string)
    (quantity : Z) :
  quantitiesInt64 (world l) ->
  nonNegative (world l) ->
  (balanceOf (world l) to bondID + quantity <= int64_max ->
   nonNegative (world (snd (Transfer from to bondID quantity c l)))) /\
  (is_Some (world l !! bondID) ->
   0 < quantity ->
   balanceOf (world l) from bondID < quantity ->
   match world l !! underscoreKey from bondID with
   | Some v =>
       Transfer from to bondID quantity c l
         = (Err (InsufficientBalance (Holder_Quantity (unmarshalHolder v)) quantity), l)
   | None =>
       Transfer from to bondID quantity c l
         = (Err (FailedToGetSenderHolder (HolderDoesNotExist (underscoreKey from bondID))), l)
   end).
Proof.
  intros Hty Hnn. split.
  - intros Hmax.
    destruct (Transfer_cases c l from to bondID quantity)
      as [[e He] | (v & Hs & [Hq Hle] & Hrun)].
    + rewrite He. exact Hnn.
    + rewrite Hrun. unfold transferred. cbn [snd world].
      pose proof (Hty _ _ Hs) as Hsty. pose proof (Hnn _ _ Hs) as Hsnn.
      intros k w Hk.
      apply lookup_insert_Some in Hk. destruct Hk as [[_ <-] | [_ Hk]].
      * cbn [unmarshalHolder Holder_Quantity].
        unfold balanceOf in Hmax.
        destruct (world l !! underscoreKey to bondID) as [r|] eqn:Hr.
        -- pose proof (Hnn _ _ Hr) as Hrnn.
           unfold add64. rewrite wrap64_id; [lia | ].
           unfold in_int64, int64_min in *. lia.
        -- cbn [Holder_Quantity]. unfold add64. rewrite wrap64_id; [lia | ].
           unfold in_int64, int64_min in *. lia.
      * apply lookup_insert_Some in Hk. destruct Hk as [[_ <-] | [_ Hk]].
        -- cbn [unmarshalHolder Holder_Quantity].
           unfold sub64. rewrite wrap64_id; [lia | ].
           unfold in_int64, int64_min in *. lia.
        -- exact (Hnn _ _ Hk).
  - intros Hb Hq Hlt. unfold balanceOf in Hlt.
    destruct (world l !! underscoreKey from bondID) as [v|] eqn:Hs.
    + apply Transfer_insufficient; assumption.
    + apply Transfer_sender_missing; assumption.
Qed.

Lemma no_negative_balances_witness :
  quantitiesInt64 (world aliceAndBob) /\
  nonNegative (world aliceAndBob) /\
  balanceOf (world aliceAndBob) "bob" "BOND_001" + 300 <= int64_max /\
  nonNegative (world (snd (Transfer "alice" "bob" "BOND_001" 300 ctx0 aliceAndBob))).
Proof.
  assert (H1 : quantitiesInt64 (world aliceAndBob))
    by (apply (bool_decide_unpack (map_Forall _ _)); vm_compute; exact I).
  assert (H2 : nonNegative (world aliceAndBob))
    by (apply (bool_decide_unpack (map_Forall _ _)); vm_compute; exact I).
  assert (H3 : balanceOf (world aliceAndBob) "bob" "BOND_001" + 300 <= int64_max)
    by (vm_compute; discriminate).
  split; [exact H1 | ]. split; [exact H2 | ]. split; [exact H3 | ].
  exact (proj1 (no_negative_balances ctx0 aliceAndBob
                  "alice" "bob" "BOND_001" 300 H1 H2) H3).
Defined.

End BondTokenFacts.

Module ComplianceFacts.
Import Compliance ComplianceSpec.

(** [CheckCompliance] computes the gate and returns the ledger it was
    given. *)
Lemma CheckCompliance_run (c : Ctx) (l : Ledger) (address : string) :
  CheckCompliance address c l = (Ok (complianceGate (world l) address), l).
Proof.
  unfold CheckCompliance, GetKYC, GetAMLCheck, complianceGate, amlFailedb, amlOf,
    kycOf, underscoreKey.
  tx_unfold.
  change (address +:+ "_" +:+ "SANCTIONS") with (address +:+ "_SANCTIONS").
  change (address +:+ "_" +:+ "PEP") with (address +:+ "_PEP").
  destruct (world l !! address) as [v|]; cbn [fmap option_fmap option_map]; [ | reflexivity].
  destruct (String.eqb (KYC_Status (unmarshalKYC v)) "APPROVED"); cbn [negb]; [ | reflexivity].
  destruct (world l !! (address +:+ "_SANCTIONS")) as [sv|]; cbn [fmap option_fmap option_map].
  - destruct (String.eqb (AML_Status (unmarshalAML sv)) "FAILED"); [reflexivity | ].
    destruct (world l !! (address +:+ "_PEP")) as [pv|]; cbn [fmap option_fmap option_map];
      [destruct (String.eqb (AML_Status (unmarshalAML pv)) "FAILED") | ]; reflexivity.
  - destruct (world l !! (address +:+ "_PEP")) as [pv|]; cbn [fmap option_fmap option_map];
      [destruct (String.eqb (AML_Status (unmarshalAML pv)) "FAILED") | ]; reflexivity.
Qed.

Lemma amlFailedb_true (w : gmap string Value) (address checkType : string) :
  amlFailedb w address checkType = true <-> amlFailed w address checkType.
Proof.
  unfold amlFailedb, amlFailed. split.
  - destruct (amlOf w address checkType) as [chk|]; [ | discriminate].
    intros H. exists chk. split; [reflexivity | ]. apply String.eqb_eq. exact H.
  - intros (chk & -> & H). apply String.eqb_eq. exact H.
Qed.

Lemma amlFailedb_false (w : gmap string Value) (address checkType : string) :
  ~ amlFailed w address checkType -> amlFailedb w address checkType = false.
Proof.
  intros H. destruct (amlFailedb w address checkType) eqn:E; [ | reflexivity].
  exfalso. apply H. apply amlFailedb_true. exact E.
Qed.

(** *** The compliance gate *)

(** [CheckCompliance] in terms of the documents under its three keys.  It
    only reads: the ledger it returns is the one it was given.  With
    [kycOf] the document under the address read as a KYC record, whatever
    its kind, and [amlOf] the document under address_checkType read as an
    AML check, its answer is (false, "KYC record not found") when nothing
    lies under the address; (false, "KYC status: <status>") when the
    status of the record is not APPROVED; (false, "Sanctions check
    failed") when the record is APPROVED and the SANCTIONS check exists
    with status FAILED; (false, "PEP check failed") when, that not being
    so, the PEP check exists with status FAILED; and (true, "Compliant")
    otherwise.  The answer depends on the documents under the address and
    under its SANCTIONS and PEP keys and on nothing else in the ledger. *)
Theorem CheckCompliance_gate (c : Ctx) (l : Ledger) (address : string) :
  snd (CheckCompliance address c l) = l /\
  (kycOf (world l) address = None ->
   fst (CheckCompliance address c l) = Ok (false, "KYC record not found")) /\
  (forall kyc,
      kycOf (world l) address = Some kyc ->
      KYC_Status kyc <> "APPROVED" ->
      fst (CheckCompliance address c l) = Ok (false, "KYC status: " +:+ KYC_Status kyc)) /\
  (forall kyc,
      kycOf (world l) address = Some kyc ->
      KYC_Status kyc = "APPROVED" ->
      amlFailed (world l) address "SANCTIONS" ->
      fst (CheckCompliance address c l) = Ok (false, "Sanctions check failed")) /\
  (forall kyc,
      kycOf (world l) address = Some kyc ->
      KYC_Status kyc = "APPROVED" ->
      ~ amlFailed (world l) address "SANCTIONS" ->
      amlFailed (world l) address "PEP" ->
      fst (CheckCompliance address c l) = Ok (false, "PEP check failed")) /\
  (forall kyc,
      kycOf (world l) address = Some kyc ->
      KYC_Status kyc = "APPROVED" ->
      ~ amlFailed (world l) address "SANCTIONS" ->
      ~ amlFailed (world l) address "PEP" ->
      fst (CheckCompliance address c l) = Ok (true, "Compliant")) /\
  (forall (c' : Ctx) (l' : Ledger),
      world l' !! address = world l !! address ->
      world l' !! underscoreKey address "SANCTIONS"
        = world l !! underscoreKey address "SANCTIONS" ->
      world l' !! underscoreKey address "PEP" = world l !! underscoreKey address "PEP" ->
      fst (CheckCompliance address c' l') = fst (CheckCompliance address c l)).
Proof.
  rewrite CheckCompliance_run. cbn [fst snd].
  split; [reflexivity | ].
  split; [intros H; unfold complianceGate; rewrite H; reflexivity | ].
  split.
  { intros kyc H Hs. unfold complianceGate. rewrite H.
    destruct (String.eqb (KYC_Status kyc) "APPROVED") eqn:E; [ | reflexivity].
    apply String.eqb_eq in E. contradiction. }
  split.
  { intros kyc H Hs Hf. unfold complianceGate. rewrite H.
    apply String.eqb_eq in Hs. rewrite Hs.
    apply amlFailedb_true in Hf. rewrite Hf. reflexivity. }
  split.
  { intros kyc H Hs Hnf Hf. unfold complianceGate. rewrite H.
    apply String.eqb_eq in Hs. rewrite Hs.
    rewrite (amlFailedb_false _ _ _ Hnf).
    apply amlFailedb_true in Hf. rewrite Hf. reflexivity. }
  split.
  { intros kyc H Hs Hnf Hnp. unfold complianceGate. rewrite H.
    apply String.eqb_eq in Hs. rewrite Hs.
    rewrite (amlFailedb_false _ _ _ Hnf), (amlFailedb_false _ _ _ Hnp). reflexivity. }
  intros c' l' Ha Hsk Hpk. rewrite CheckCompliance_run. cbn [fst].
  unfold complianceGate, amlFailedb, amlOf, kycOf. rewrite Ha, Hsk, Hpk. reflexivity.
Qed.

Lemma CheckCompliance_gate_witness :
  kycOf (world sanctionedAlice) "alice"
    = Some (mkKYCRecord "alice" "Alice Johnson" "1990-01-01" "US" "PASSPORT" "US123456"
              "APPROVED" "LOW" "admin" (now ctx0) (now ctx0) (now ctx0) (Some ∅)) /\
  amlFailed (world sanctionedAlice) "alice" "SANCTIONS" /\
  fst (CheckCompliance "alice" ctx0 sanctionedAlice) = Ok (false, "Sanctions check failed").
Proof.
  assert (H1 : kycOf (world sanctionedAlice) "alice"
               = Some (mkKYCRecord "alice" "Alice Johnson" "1990-01-01" "US" "PASSPORT"
                         "US123456" "APPROVED" "LOW" "admin" (now ctx0) (now ctx0)
                         (now ctx0) (Some ∅)))
    by (vm_compute; reflexivity).
  assert (H2 : amlFailed (world sanctionedAlice) "alice" "SANCTIONS")
    by (eexists; split; vm_compute; reflexivity).
  split; [exact H1 | ]. split; [exact H2 | ].
  exact (proj1 (proj2 (proj2 (proj2
           (CheckCompliance_gate ctx0 sanctionedAlice "alice")))) _ H1 eq_refl H2).
Defined.

(** C5 (the code departs from the claim).  The claim: [CheckCompliance]
    answers (false, "KYC record not found") when no KYC record exists for
    the address, and consults no AML check but the SANCTIONS and the PEP
    check of the address.  The code never asks of what kind the document
    under a key is, and the key address_checkType of an AML check is also
    the key of the address spelled address_checkType.

    On the empty ledger [CreateAMLCheck] of (alice, SANCTIONS) is called,
    and then [UpdateAMLCheck] of it with status APPROVED: the ledger holds
    that one AML check and no KYC record was ever created.  For the
    address alice_SANCTIONS [CheckCompliance] answers
    (false, "KYC status: PENDING") after the first call and
    (true, "Compliant") after the second, where the claim has
    (false, "KYC record not found").  In general [CheckCompliance] of
    address_checkType answers (false, "KYC status: PENDING") right after
    every [CreateAMLCheck], whatever the ledger held.

    Likewise the address bob_x, with an APPROVED KYC record and no check
    of its own, is compliant until a check of type x_SANCTIONS of the
    address bob is set to FAILED: [CheckCompliance] of bob_x then answers
    (false, "Sanctions check failed"). *)
Theorem CheckCompliance_takes_a_check_for_a_KYC_record :
  (let l1 := snd (CreateAMLCheck "alice" "SANCTIONS" 10 "screening" ctx0 emptyLedger) in
   let l2 := snd (UpdateAMLCheck "alice" "SANCTIONS" "APPROVED" 0 "no match" ctx0 l1) in
   fst (CreateAMLCheck "alice" "SANCTIONS" 10 "screening" ctx0 emptyLedger) = Ok tt /\
   fst (UpdateAMLCheck "alice" "SANCTIONS" "APPROVED" 0 "no match" ctx0 l1) = Ok tt /\
   map_to_list (world l2)
     = [("alice_SANCTIONS",
         VAML (mkAMLCheck "alice" "SANCTIONS" "APPROVED" 0 (now ctx0)
                 (mkTime 2024 12 1 0) "no match" "SYSTEM"))] /\
   CheckCompliance "alice_SANCTIONS" ctx0 l1 = (Ok (false, "KYC status: PENDING"), l1) /\
   CheckCompliance "alice_SANCTIONS" ctx0 l2 = (Ok (true, "Compliant"), l2)) /\
  (let l1 := snd (CreateKYC "bob_x" "Bob X" "1985-05-05" "FR" "PASSPORT" "FR123456"
                    ctx0 emptyLedger) in
   let l2 := snd (ApproveKYC "bob_x" "admin" "LOW" ctx0 l1) in
   let l3 := snd (CreateAMLCheck "bob" "x_SANCTIONS" 90 "listed" ctx0 l2) in
   let l4 := snd (UpdateAMLCheck "bob" "x_SANCTIONS" "FAILED" 90 "listed" ctx0 l3) in
   fst (UpdateAMLCheck "bob" "x_SANCTIONS" "FAILED" 90 "listed" ctx0 l3) = Ok tt /\
   CheckCompliance "bob_x" ctx0 l2 = (Ok (true, "Compliant"), l2) /\
   world l4 !! "bob_x_SANCTIONS"
     = Some (VAML (mkAMLCheck "bob" "x_SANCTIONS" "FAILED" 90 (now ctx0)
                     (mkTime 2024 12 1 0) "listed" "SYSTEM")) /\
   CheckCompliance "bob_x" ctx0 l4 = (Ok (false, "Sanctions check failed"), l4)) /\
  (forall (c c' : Ctx) (l : Ledger) (address checkType : string) (riskScore : Z)
          (details : string),
      let l' := snd (CreateAMLCheck address checkType riskScore details c l) in
      fst (CreateAMLCheck address checkType riskScore details c l) = Ok tt /\
      CheckCompliance (underscoreKey address checkType) c' l'
        = (Ok (false, "KYC status: PENDING"), l')).
Proof.
  split; [cbv zeta; repeat split; vm_compute; reflexivity | ].
  split; [cbv zeta; repeat split; vm_compute; reflexivity | ].
  intros c c' l address checkType riskScore details l'. subst l'.
  unfold CreateAMLCheck, marshalAML. tx_unfold. cbn [fst snd].
  split; [reflexivity | ].
  rewrite CheckCompliance_run. cbn [world].
  unfold complianceGate, kycOf. rewrite lookup_insert_eq. reflexivity.
Qed.

(** *** The KYC state machine *)

Lemma ApproveKYC_success (c : Ctx) (l : Ledger) (address approvedBy riskLevel : string)
    (v : Value) :
  world l !! address = Some v ->
  ApproveKYC address approvedBy riskLevel c l
    = (Ok tt,
       mkLedger
         (<[address :=
              VKYC (mkKYCRecord (KYC_Address (unmarshalKYC v)) (KYC_FullName (unmarshalKYC v))
                      (KYC_DateOfBirth (unmarshalKYC v)) (KYC_Nationality (unmarshalKYC v))
                      (KYC_IDType (unmarshalKYC v)) (KYC_IDNumber (unmarshalKYC v))
                      "APPROVED" riskLevel approvedBy (now c)
                      (KYC_CreatedAt (unmarshalKYC v)) (now c)
                      (KYC_Metadata (unmarshalKYC v)))]> (world l))
         (events l ++ [("KYCEvent",
                        mkComplianceEvent "KYC_APPROVED" address
                          ("KYC approved by " +:+ approvedBy) (now c) (txID c))])).
Proof.
  intros Hv. unfold ApproveKYC, GetKYC, marshalKYC. tx_unfold. rewrite Hv. reflexivity.
Qed.

Lemma RejectKYC_success (c : Ctx) (l : Ledger) (address rejectedBy reason : string)
    (v : Value) (metadata : gmap string string) :
  world l !! address = Some v ->
  KYC_Metadata (unmarshalKYC v) = Some metadata ->
  RejectKYC address rejectedBy reason c l
    = (Ok tt,
       mkLedger
         (<[address :=
              VKYC (mkKYCRecord (KYC_Address (unmarshalKYC v)) (KYC_FullName (unmarshalKYC v))
                      (KYC_DateOfBirth (unmarshalKYC v)) (KYC_Nationality (unmarshalKYC v))
                      (KYC_IDType (unmarshalKYC v)) (KYC_IDNumber (unmarshalKYC v))
                      "REJECTED" (KYC_RiskLevel (unmarshalKYC v))
                      (KYC_ApprovedBy (unmarshalKYC v)) (KYC_ApprovedAt (unmarshalKYC v))
                      (KYC_CreatedAt (unmarshalKYC v)) (now c)
                      (Some (<["rejected_by" := rejectedBy]>
                               (<["rejection_reason" := reason]> metadata))))]> (world l))
         (events l ++ [("KYCEvent",
                        mkComplianceEvent "KYC_REJECTED" address
                          ("KYC rejected by " +:+ rejectedBy +:+ ": " +:+ reason)
                          (now c) (txID c))])).
Proof.
  intros Hv Hm. unfold RejectKYC, GetKYC, marshalKYC. tx_unfold. rewrite Hv, Hm. reflexivity.
Qed.

Lemma RejectKYC_nil_metadata (c : Ctx) (l : Ledger) (address rejectedBy reason : string)
    (v : Value) :
  world l !! address = Some v ->
  KYC_Metadata (unmarshalKYC v) = None ->
  RejectKYC address rejectedBy reason c l = (Err NilMapAssignment, l).
Proof.
  intros Hv Hm. unfold RejectKYC, GetKYC. tx_unfold. rewrite Hv, Hm. reflexivity.
Qed.

(** The creation guard of [CreateKYC]. *)
Lemma CreateKYC_existing (c : Ctx) (l : Ledger)
    (address fullName dateOfBirth nationality idType idNumber : string) :
  is_Some (world l !! address) ->
  CreateKYC address fullName dateOfBirth nationality idType idNumber c l
    = (Err (KYCAlreadyExists address), l).
Proof.
  intros [v Hv]. unfold CreateKYC, KYCExists. tx_unfold. rewrite Hv. reflexivity.
Qed.

Lemma kycLeavesOnlyPending_fails :
  kycStatus (world rejectedAlice) "alice" = Some "REJECTED" /\
  ApproveKYC "alice" "admin" "LOW" ctx0 rejectedAlice
    = (Ok tt, snd (ApproveKYC "alice" "admin" "LOW" ctx0 rejectedAlice)) /\
  kycStatus (world (snd (ApproveKYC "alice" "admin" "LOW" ctx0 rejectedAlice))) "alice"
    = Some "APPROVED" /\
  ~ kycLeavesOnlyPending.
Proof.
  assert (H1 : kycStatus (world rejectedAlice) "alice" = Some "REJECTED")
    by (vm_compute; reflexivity).
  assert (H2 : kycStatus (world (snd (ApproveKYC "alice" "admin" "LOW" ctx0 rejectedAlice)))
                 "alice" = Some "APPROVED")
    by (vm_compute; reflexivity).
  split; [exact H1 | ]. split; [vm_compute; reflexivity | ]. split; [exact H2 | ].
  intros H.
  specialize (H ctx0 rejectedAlice "alice" "admin" "LOW" "REJECTED" "APPROVED" H1
                (or_introl H2)).
  discriminate H. discriminate.
Qed.

(** C8 (as amended).  For every address with a KYC record, whatever the
    status of the record, [ApproveKYC] succeeds and leaves it APPROVED,
    and [RejectKYC] succeeds and leaves it REJECTED when the record has a
    metadata map (as every record made by [CreateKYC] has) and otherwise
    fails without writing.  So the statuses these two operations lead to
    are APPROVED and REJECTED only, never PENDING, but neither APPROVED
    nor REJECTED is terminal: each is left for the other. *)
Theorem KYC_status_transitions (c : Ctx) (l : Ledger) (address : string) (v : Value) :
  world l !! address = Some v ->
  (forall approvedBy riskLevel,
      exists l',
        ApproveKYC address approvedBy riskLevel c l = (Ok tt, l') /\
        kycStatus (world l') address = Some "APPROVED") /\
  (forall rejectedBy reason,
      KYC_Metadata (unmarshalKYC v) <> None ->
      exists l',
        RejectKYC address rejectedBy reason c l = (Ok tt, l') /\
        kycStatus (world l') address = Some "REJECTED") /\
  (forall rejectedBy reason,
      KYC_Metadata (unmarshalKYC v) = None ->
      RejectKYC address rejectedBy reason c l = (Err NilMapAssignment, l)).
Proof.
  intros Hv. split; [ | split].
  - intros approvedBy riskLevel. eexists. split; [apply ApproveKYC_success; exact Hv | ].
    unfold kycStatus, kycOf. cbn [world]. rewrite lookup_insert_eq. reflexivity.
  - intros rejectedBy reason Hm.
    destruct (KYC_Metadata (unmarshalKYC v)) as [metadata|] eqn:E; [ | contradiction].
    eexists. split; [eapply RejectKYC_success; eauto | ].
    unfold kycStatus, kycOf. cbn [world]. rewrite lookup_insert_eq. reflexivity.
  - intros rejectedBy reason Hm. apply (RejectKYC_nil_metadata _ _ _ _ _ v); assumption.
Qed.

Lemma KYC_status_transitions_witness :
  world rejectedAlice !! "alice"
    = Some (VKYC (mkKYCRecord "alice" "Alice Johnson" "1990-01-01" "US" "PASSPORT"
                    "US123456" "REJECTED" "MEDIUM" "" zeroTime (now ctx0) (now ctx0)
                    (Some (<["rejected_by" := "admin"]>
                             (<["rejection_reason" := "Incomplete documentation"]> ∅))))) /\
  exists l',
    ApproveKYC "alice" "admin" "LOW" ctx0 rejectedAlice = (Ok tt, l') /\
    kycStatus (world l') "alice" = Some "APPROVED".
Proof.
  assert (H1 : world rejectedAlice !! "alice"
    = Some (VKYC (mkKYCRecord "alice" "Alice Johnson" "1990-01-01" "US" "PASSPORT"
                    "US123456" "REJECTED" "MEDIUM" "" zeroTime (now ctx0) (now ctx0)
                    (Some (<["rejected_by" := "admin"]>
                             (<["rejection_reason" := "Incomplete documentation"]> ∅))))))
    by (vm_compute; reflexivity).
  split; [exact H1 | ].
  exact (proj1 (KYC_status_transitions ctx0 rejectedAlice "alice" _ H1) "admin" "LOW").
Defined.

End ComplianceFacts.

Module CorporateActionFacts.
Import CorporateAction CorporateActionSpec.

Lemma ProcessCouponPayment_missing (c : Ctx) (l : Ledger) (couponID : string) :
  world l !! couponID = None ->
  ProcessCouponPayment couponID c l
    = (Err (FailedToGetCoupon (CouponDoesNotExist couponID)), l).
Proof.
  intros Hv. unfold ProcessCouponPayment, GetCouponPayment. tx_unfold.
  rewrite Hv. reflexivity.
Qed.

Lemma ProcessCouponPayment_not_pending (c : Ctx) (l : Ledger) (couponID : string)
    (v : Value) :
  world l !! couponID = Some v ->
  Coupon_Status (unmarshalCoupon v) <> "PENDING" ->
  ProcessCouponPayment couponID c l = (Err (CouponNotPending couponID), l).
Proof.
  intros Hv Hs. unfold ProcessCouponPayment, GetCouponPayment. tx_unfold.
  rewrite Hv.
  destruct (String.eqb (Coupon_Status (unmarshalCoupon v)) "PENDING") eqn:E;
    [apply String.eqb_eq in E; contradiction | reflexivity].
Qed.

Lemma ProcessCouponPayment_success (c : Ctx) (l : Ledger) (couponID : string)
    (v : Value) :
  world l !! couponID = Some v ->
  Coupon_Status (unmarshalCoupon v) = "PENDING" ->
  json_float_ok (Coupon_Amount (unmarshalCoupon v)) = true ->
  ProcessCouponPayment couponID c l
    = (Ok tt,
       mkLedger (<[couponID := VCoupon (paid c (unmarshalCoupon v))]> (world l))
                (events l ++ [couponProcessed c couponID (unmarshalCoupon v)])).
Proof.
  intros Hv Hs Hf.
  unfold ProcessCouponPayment, GetCouponPayment, marshalCoupon, marshalEvent,
    paid, couponProcessed.
  tx_unfold. rewrite Hv.
  apply String.eqb_eq in Hs. rewrite Hs. cbn [negb Coupon_Amount Event_Amount].
  rewrite Hf. reflexivity.
Qed.

Lemma ProcessRedemption_missing (c : Ctx) (l : Ledger) (redemptionID : string) :
  world l !! redemptionID = None ->
  ProcessRedemption redemptionID c l
    = (Err (FailedToGetRedemption (RedemptionDoesNotExist redemptionID)), l).
Proof.
  intros Hv. unfold ProcessRedemption, GetRedemption. tx_unfold.
  rewrite Hv. reflexivity.
Qed.

Lemma ProcessRedemption_not_pending (c : Ctx) (l : Ledger) (redemptionID : string)
    (v : Value) :
  world l !! redemptionID = Some v ->
  Redemption_Status (unmarshalRedemption v) <> "PENDING" ->
  ProcessRedemption redemptionID c l = (Err (RedemptionNotPending redemptionID), l).
Proof.
  intros Hv Hs. unfold ProcessRedemption, GetRedemption. tx_unfold.
  rewrite Hv.
  destruct (String.eqb (Redemption_Status (unmarshalRedemption v)) "PENDING") eqn:E;
    [apply String.eqb_eq in E; contradiction | reflexivity].
Qed.

Lemma ProcessRedemption_success (c : Ctx) (l : Ledger) (redemptionID : string)
    (v : Value) :
  world l !! redemptionID = Some v ->
  Redemption_Status (unmarshalRedemption v) = "PENDING" ->
  json_float_ok (Redemption_Amount (unmarshalRedemption v)) = true ->
  ProcessRedemption redemptionID c l
    = (Ok tt,
       mkLedger (<[redemptionID := VRedemption (completed c (unmarshalRedemption v))]> (world l))
                (events l ++ [redemptionProcessed c redemptionID (unmarshalRedemption v)])).
Proof.
  intros Hv Hs Hf.
  unfold ProcessRedemption, GetRedemption, marshalRedemption, marshalEvent,
    completed, redemptionProcessed.
  tx_unfold. rewrite Hv.
  apply String.eqb_eq in Hs. rewrite Hs. cbn [negb Redemption_Amount Event_Amount].
  rewrite Hf. reflexivity.
Qed.

(** *** One-shot processing *)

(** Processing in terms of the document under the identifier, read as a
    coupon payment or as a redemption whatever its kind.
    [ProcessCouponPayment] fails with a NotFound error when nothing is
    stored under the identifier, and with the InvalidState error "... is
    not pending" when the status of the record is not PENDING, writing
    nothing in either case.  Otherwise (the stored amount being a JSON
    number) it succeeds: the record is written back with status PAID, the
    time of the call and the identifier of the transaction, and an event
    is emitted; on the ledger it leaves, every further
    [ProcessCouponPayment] of the same identifier fails with the
    InvalidState error.  The same holds of [ProcessRedemption], with
    COMPLETED for PAID. *)
Theorem one_shot_processing (c : Ctx) (l : Ledger) (id : string) :
  ((world l !! id = None ->
    ProcessCouponPayment id c l = (Err (FailedToGetCoupon (CouponDoesNotExist id)), l)) /\
   (forall v,
       world l !! id = Some v ->
       Coupon_Status (unmarshalCoupon v) <> "PENDING" ->
       ProcessCouponPayment id c l = (Err (CouponNotPending id), l)) /\
   (forall v,
       world l !! id = Some v ->
       Coupon_Status (unmarshalCoupon v) = "PENDING" ->
       json_float_ok (Coupon_Amount (unmarshalCoupon v)) = true ->
       let l' := mkLedger (<[id := VCoupon (paid c (unmarshalCoupon v))]> (world l))
                          (events l ++ [couponProcessed c id (unmarshalCoupon v)]) in
       ProcessCouponPayment id c l = (Ok tt, l') /\
       Coupon_Status (paid c (unmarshalCoupon v)) = "PAID" /\
       Coupon_PaidAt (paid c (unmarshalCoupon v)) = now c /\
       Coupon_TxID (paid c (unmarshalCoupon v)) = txID c /\
       forall c', ProcessCouponPayment id c' l' = (Err (CouponNotPending id), l')) /\
   kindOf (FailedToGetCoupon (CouponDoesNotExist id)) = NotFound /\
   kindOf (CouponNotPending id) = InvalidState) /\
  ((world l !! id = None ->
    ProcessRedemption id c l
      = (Err (FailedToGetRedemption (RedemptionDoesNotExist id)), l)) /\
   (forall v,
       world l !! id = Some v ->
       Redemption_Status (unmarshalRedemption v) <> "PENDING" ->
       ProcessRedemption id c l = (Err (RedemptionNotPending id), l)) /\
   (forall v,
       world l !! id = Some v ->
       Redemption_Status (unmarshalRedemption v) = "PENDING" ->
       json_float_ok (Redemption_Amount (unmarshalRedemption v)) = true ->
       let l' := mkLedger (<[id := VRedemption (completed c (unmarshalRedemption v))]> (world l))
                          (events l ++ [redemptionProcessed c id (unmarshalRedemption v)]) in
       ProcessRedemption id c l = (Ok tt, l') /\
       Redemption_Status (completed c (unmarshalRedemption v)) = "COMPLETED" /\
       Redemption_CompletedAt (completed c (unmarshalRedemption v)) = now c /\
       Redemption_TxID (completed c (unmarshalRedemption v)) = txID c /\
       forall c', ProcessRedemption id c' l' = (Err (RedemptionNotPending id), l')) /\
   kindOf (FailedToGetRedemption (RedemptionDoesNotExist id)) = NotFound /\
   kindOf (RedemptionNotPending id) = InvalidState).
Proof.
  split.
  - split; [apply ProcessCouponPayment_missing | ].
    split; [apply ProcessCouponPayment_not_pending | ].
    split; [ | split; reflexivity].
    intros v Hv Hs Hf l'.
    split; [apply ProcessCouponPayment_success; assumption | ].
    do 3 (split; [reflexivity | ]).
    intros c'.
    apply (ProcessCouponPayment_not_pending c' l' id (VCoupon (paid c (unmarshalCoupon v)))).
    + subst l'. cbn [world]. apply lookup_insert_eq.
    + cbn. discriminate.
  - split; [apply ProcessRedemption_missing | ].
    split; [apply ProcessRedemption_not_pending | ].
    split; [ | split; reflexivity].
    intros v Hv Hs Hf l'.
    split; [apply ProcessRedemption_success; assumption | ].
    do 3 (split; [reflexivity | ]).
    intros c'.
    apply (ProcessRedemption_not_pending c' l' id
             (VRedemption (completed c (unmarshalRedemption v)))).
    + subst l'. cbn [world]. apply lookup_insert_eq.
    + cbn. discriminate.
Qed.

Lemma one_shot_processing_witness :
  world couponCreated !! coupon1ID = Some (VCoupon coupon1) /\
  Coupon_Status (unmarshalCoupon (VCoupon coupon1)) = "PENDING" /\
  json_float_ok (Coupon_Amount (unmarshalCoupon (VCoupon coupon1))) = true /\
  ProcessCouponPayment coupon1ID ctx1 couponCreated
    = (Ok tt,
       mkLedger (<[coupon1ID := VCoupon (paid ctx1 coupon1)]> (world couponCreated))
                (events couponCreated ++ [couponProcessed ctx1 coupon1ID coupon1])) /\
  ProcessCouponPayment coupon1ID ctx2
      (mkLedger (<[coupon1ID := VCoupon (paid ctx1 coupon1)]> (world couponCreated))
                (events couponCreated ++ [couponProcessed ctx1 coupon1ID coupon1]))
    = (Err (CouponNotPending coupon1ID),
       mkLedger (<[coupon1ID := VCoupon (paid ctx1 coupon1)]> (world couponCreated))
                (events couponCreated ++ [couponProcessed ctx1 coupon1ID coupon1])).
Proof.
  assert (H1 : world couponCreated !! coupon1ID = Some (VCoupon coupon1))
    by (vm_compute; reflexivity).
  assert (H2 : Coupon_Status (unmarshalCoupon (VCoupon coupon1)) = "PENDING")
    by reflexivity.
  assert (H3 : json_float_ok (Coupon_Amount (unmarshalCoupon (VCoupon coupon1))) = true)
    by (vm_compute; reflexivity).
  split; [exact H1 | ]. split; [exact H2 | ]. split; [exact H3 | ].
  pose proof (proj1 (proj2 (proj2 (proj1 (one_shot_processing ctx1 couponCreated coupon1ID))))
                (VCoupon coupon1) H1 H2 H3) as H.
  cbv zeta in H. destruct H as (Hrun & _ & _ & _ & Hagain).
  split; [exact Hrun | exact (Hagain ctx2)].
Defined.

(** C6 (the code departs from the claim).  The claim: processing is
    one-shot, a second [ProcessCouponPayment] on the same identifier
    always fails, and [ProcessCouponPayment] fails NotFound when no coupon
    payment exists under the identifier; the same for
    [ProcessRedemption].

    On the code, a coupon of BOND_001 is created on 2024-06-01 and
    processed: its status is PAID and a second [ProcessCouponPayment]
    fails with "... is not pending".  A [CreateCouponPayment] for the bond
    on the same day then puts a PENDING record under the same identifier
    (the defect of C7), and [ProcessCouponPayment] of the identifier
    succeeds a second time.  The same with a redemption.

    And neither function asks of what kind the document under the
    identifier is.  With a redemption alone on the ledger, and no coupon
    payment, [ProcessCouponPayment] of the redemption's identifier
    succeeds: the redemption is replaced by a coupon payment with status
    PAID and the zero payment date, and [ProcessRedemption] of it fails
    from then on with "... is not pending".  With a coupon payment alone,
    [ProcessRedemption] of its identifier succeeds and leaves a COMPLETED
    redemption in its place. *)
Theorem processing_is_not_one_shot :
  (let id := "COUPON_BOND_001_20240601" in
   let l1 := snd (CreateCouponPayment "BOND_001" "2024-06-01" 50%float ctx0 emptyLedger) in
   let l2 := snd (ProcessCouponPayment id ctx1 l1) in
   let l3 := snd (CreateCouponPayment "BOND_001" "2024-12-01" 60%float ctx2 l2) in
   let l4 := snd (ProcessCouponPayment id ctx2 l3) in
   fst (ProcessCouponPayment id ctx1 l1) = Ok tt /\
   world l2 !! id
     = Some (VCoupon (mkCouponPayment id "BOND_001" (mkTime 2024 6 1 0) 50%float
                        "PAID" (now ctx1) "tx2" (Some ∅))) /\
   ProcessCouponPayment id ctx2 l2 = (Err (CouponNotPending id), l2) /\
   fst (CreateCouponPayment "BOND_001" "2024-12-01" 60%float ctx2 l2) = Ok tt /\
   fst (ProcessCouponPayment id ctx2 l3) = Ok tt /\
   world l4 !! id
     = Some (VCoupon (mkCouponPayment id "BOND_001" (mkTime 2024 12 1 0) 60%float
                        "PAID" (now ctx2) "tx3" (Some ∅)))) /\
  (let id := "REDEMPTION_BOND_001_20240601" in
   let l1 := snd (CreateRedemption "BOND_001" "2029-01-01" 1000%float ctx0 emptyLedger) in
   let l2 := snd (ProcessRedemption id ctx1 l1) in
   let l3 := snd (CreateRedemption "BOND_001" "2029-06-01" 2000%float ctx2 l2) in
   let l4 := snd (ProcessRedemption id ctx2 l3) in
   fst (ProcessRedemption id ctx1 l1) = Ok tt /\
   world l2 !! id
     = Some (VRedemption (mkRedemption id "BOND_001" (mkTime 2029 1 1 0) 1000%float
                            "COMPLETED" (now ctx1) "tx2" (Some ∅))) /\
   ProcessRedemption id ctx2 l2 = (Err (RedemptionNotPending id), l2) /\
   fst (CreateRedemption "BOND_001" "2029-06-01" 2000%float ctx2 l2) = Ok tt /\
   fst (ProcessRedemption id ctx2 l3) = Ok tt /\
   world l4 !! id
     = Some (VRedemption (mkRedemption id "BOND_001" (mkTime 2029 6 1 0) 2000%float
                            "COMPLETED" (now ctx2) "tx3" (Some ∅)))) /\
  (let id := "REDEMPTION_BOND_001_20240601" in
   let l1 := snd (CreateRedemption "BOND_001" "2029-01-01" 1000%float ctx0 emptyLedger) in
   let l2 := snd (ProcessCouponPayment id ctx1 l1) in
   map_to_list (world l1)
     = [(id, VRedemption (mkRedemption id "BOND_001" (mkTime 2029 1 1 0) 1000%float
                            "PENDING" zeroTime "" (Some ∅)))] /\
   fst (ProcessCouponPayment id ctx1 l1) = Ok tt /\
   map_to_list (world l2)
     = [(id, VCoupon (mkCouponPayment id "BOND_001" zeroTime 1000%float
                        "PAID" (now ctx1) "tx2" (Some ∅)))] /\
   ProcessRedemption id ctx2 l2 = (Err (RedemptionNotPending id), l2)) /\
  (let id := "COUPON_BOND_001_20240601" in
   let l1 := snd (CreateCouponPayment "BOND_001" "2024-06-01" 50%float ctx0 emptyLedger) in
   let l2 := snd (ProcessRedemption id ctx1 l1) in
   map_to_list (world l1)
     = [(id, VCoupon (mkCouponPayment id "BOND_001" (mkTime 2024 6 1 0) 50%float
                        "PENDING" zeroTime "" (Some ∅)))] /\
   fst (ProcessRedemption id ctx1 l1) = Ok tt /\
   map_to_list (world l2)
     = [(id, VRedemption (mkRedemption id "BOND_001" zeroTime 50%float
                            "COMPLETED" (now ctx1) "tx2" (Some ∅)))] /\
   ProcessCouponPayment id ctx2 l2 = (Err (CouponNotPending id), l2)).
Proof.
  split; [cbv zeta; repeat split; vm_compute; reflexivity | ].
  split; [cbv zeta; repeat split; vm_compute; reflexivity | ].
  split; cbv zeta; repeat split; vm_compute; reflexivity.
Qed.

(** The stored amounts stay JSON numbers under the four operations. *)
Lemma amountsFinite_insert (w : gmap string Value) (k : string) (v : Value) :
  amountsFinite w ->
  json_float_ok (Coupon_Amount (unmarshalCoupon v)) = true ->
  amountsFinite (<[k := v]> w).
Proof.
  intros Hw Hv k' v' H. apply lookup_insert_Some in H.
  destruct H as [[_ <-] | [_ H]]; [exact Hv | exact (Hw _ _ H)].
Qed.

Lemma amountsFinite_empty : amountsFinite (world (emptyLedger : Ledger)).
Proof. intros k v H. cbn in H. rewrite lookup_empty in H. discriminate. Qed.

Lemma CreateCouponPayment_amountsFinite (c : Ctx) (l : Ledger)
    (bondID paymentDateStr : string) (amount : float) :
  amountsFinite (world l) ->
  amountsFinite (world (snd (CreateCouponPayment bondID paymentDateStr amount c l))).
Proof.
  intros Hw. unfold CreateCouponPayment, marshalCoupon, marshalEvent. tx_unfold.
  destruct (parseDate paymentDateStr); [ | exact Hw].
  cbn [Coupon_Amount Event_Amount].
  destruct (json_float_ok amount) eqn:E; [ | exact Hw].
  cbn [snd world]. apply amountsFinite_insert; [exact Hw | exact E].
Qed.

Lemma CreateRedemption_amountsFinite (c : Ctx) (l : Ledger)
    (bondID redemptionDateStr : string) (amount : float) :
  amountsFinite (world l) ->
  amountsFinite (world (snd (CreateRedemption bondID redemptionDateStr amount c l))).
Proof.
  intros Hw. unfold CreateRedemption, marshalRedemption, marshalEvent. tx_unfold.
  destruct (parseDate redemptionDateStr); [ | exact Hw].
  cbn [Redemption_Amount Event_Amount].
  destruct (json_float_ok amount) eqn:E; [ | exact Hw].
  cbn [snd world]. apply amountsFinite_insert; [exact Hw | exact E].
Qed.

Lemma ProcessCouponPayment_amountsFinite (c : Ctx) (l : Ledger) (couponID : string) :
  amountsFinite (world l) ->
  amountsFinite (world (snd (ProcessCouponPayment couponID c l))).
Proof.
  intros Hw. unfold ProcessCouponPayment, GetCouponPayment, marshalCoupon, marshalEvent.
  tx_unfold.
  destruct (world l !! couponID) as [v|] eqn:Hv; [ | exact Hw].
  destruct (negb _); [exact Hw | ].
  cbn [Coupon_Amount Event_Amount]. rewrite (Hw _ _ Hv).
  cbn [snd world]. apply amountsFinite_insert; [exact Hw | exact (Hw _ _ Hv)].
Qed.

Lemma ProcessRedemption_amountsFinite (c : Ctx) (l : Ledger) (redemptionID : string) :
  amountsFinite (world l) ->
  amountsFinite (world (snd (ProcessRedemption redemptionID c l))).
Proof.
  intros Hw. unfold ProcessRedemption, GetRedemption, marshalRedemption, marshalEvent.
  tx_unfold.
  destruct (world l !! redemptionID) as [v|] eqn:Hv; [ | exact Hw].
  destruct (negb _); [exact Hw | ].
  assert (Hf : json_float_ok (Redemption_Amount (unmarshalRedemption v)) = true).
  { pose proof (Hw _ _ Hv) as H. destruct v; exact H. }
  cbn [Redemption_Amount Event_Amount]. rewrite Hf.
  cbn [snd world]. apply amountsFinite_insert; [exact Hw | exact Hf].
Qed.

(** *** The coupon amount *)

(** C10.  [CalculateCouponAmount] returns faceValue * couponRate / 100,
    computed in [float64], whatever the ledger holds; it never fails and
    it leaves the ledger as it is.  On (1000.0, 5.0) the result is 50.0
    and on (5000.0, 3.5) it is 175.0. *)
Theorem CalculateCouponAmount_pure :
  (forall (c : Ctx) (l : Ledger) (bondID : string) (faceValue couponRate : float),
      CalculateCouponAmount bondID faceValue couponRate c l
        = (Ok ((faceValue * couponRate) / 100)%float, l)) /\
  (forall (c : Ctx) (l : Ledger) (bondID : string),
      CalculateCouponAmount bondID 1000%float 5%float c l = (Ok 50%float, l)) /\
  (forall (c : Ctx) (l : Ledger) (bondID : string),
      CalculateCouponAmount bondID 5000%float 3.5%float c l = (Ok 175%float, l)).
Proof.
  split; [reflexivity | ]. split; reflexivity.
Qed.

End CorporateActionFacts.

(** ** Creation *)

Module CreationFacts.
Import CorporateAction CorporateActionSpec.

(** C7 (the code departs from the claim).  The claim: every Create
    operation fails with AlreadyExists on a populated key and changes
    nothing, CreateCouponPayment and CreateRedemption included.  On the
    code a second [CreateKYC] of alice, and a second [IssueBond] of
    BOND_001, do fail so and leave the ledger as it is; but
    [CreateCouponPayment] and [CreateRedemption] never look at the key.  A
    coupon of BOND_001 is created and paid on 2024-06-01; a second
    [CreateCouponPayment] for that bond on the same day succeeds, and the
    PAID record is replaced by a PENDING one, which [ProcessCouponPayment]
    then pays a second time.  The same with [CreateRedemption].  No call of
    either returns an AlreadyExists error. *)
Theorem create_overwrites_processed_record :
  (Compliance.CreateKYC "alice" "Alice J." "1990-01-01" "US" "PASSPORT" "US999999"
       ComplianceSpec.ctx0 ComplianceSpec.pendingAlice
     = (Err (KYCAlreadyExists "alice"), ComplianceSpec.pendingAlice) /\
   BondToken.IssueBond "BOND_001" "issuer" "Issuer Ltd" "USD" "ISIN001" "AAA" "NONE"
       1000%float 5%float 5000 "2031-01-01" BondTokenSpec.ctx0 BondTokenSpec.issued
     = (Err (BondAlreadyExists "BOND_001"), BondTokenSpec.issued)) /\
  (let id := "COUPON_BOND_001_20240601" in
   let l' := snd (CreateCouponPayment "BOND_001" "2024-12-01" 60%float ctx2 couponPaid) in
   Coupon_Status <$> (unmarshalCoupon <$> world couponPaid !! id) = Some "PAID" /\
   fst (CreateCouponPayment "BOND_001" "2024-12-01" 60%float ctx2 couponPaid) = Ok tt /\
   world l' !! id
     = Some (VCoupon (mkCouponPayment id "BOND_001" (mkTime 2024 12 1 0) 60%float
                        "PENDING" zeroTime "" (Some ∅))) /\
   fst (ProcessCouponPayment id ctx2 l') = Ok tt) /\
  (let id := "REDEMPTION_BOND_001_20240601" in
   let l' := snd (CreateRedemption "BOND_001" "2029-06-01" 2000%float ctx2
                    redemptionCompleted) in
   Redemption_Status <$> (unmarshalRedemption <$> world redemptionCompleted !! id)
     = Some "COMPLETED" /\
   fst (CreateRedemption "BOND_001" "2029-06-01" 2000%float ctx2 redemptionCompleted)
     = Ok tt /\
   world l' !! id
     = Some (VRedemption (mkRedemption id "BOND_001" (mkTime 2029 6 1 0) 2000%float
                            "PENDING" zeroTime "" (Some ∅))) /\
   fst (ProcessRedemption id ctx2 l') = Ok tt) /\
  (forall (c : Ctx) (l : Ledger) (bondID dateStr : string) (amount : float) (e : error),
      (fst (CreateCouponPayment bondID dateStr amount c l) = Err e \/
       fst (CreateRedemption bondID dateStr amount c l) = Err e) ->
      kindOf e <> AlreadyExists).
Proof.
  split.
  { split.
    - apply ComplianceFacts.CreateKYC_existing. eexists; vm_compute; reflexivity.
    - apply BondTokenFacts.IssueBond_existing. eexists; vm_compute; reflexivity. }
  split; [cbv zeta; repeat split; vm_compute; reflexivity | ].
  split; [cbv zeta; repeat split; vm_compute; reflexivity | ].
  intros c l bondID dateStr amount e [H | H]; revert H.
  - unfold CreateCouponPayment, marshalCoupon, marshalEvent. tx_unfold.
    destruct (parseDate dateStr); cbn [Coupon_Amount Event_Amount fst].
    + destruct (json_float_ok amount); cbn [fst]; intros H; inversion H; discriminate.
    + intros H; inversion H; discriminate.
  - unfold CreateRedemption, marshalRedemption, marshalEvent. tx_unfold.
    destruct (parseDate dateStr); cbn [Redemption_Amount Event_Amount fst].
    + destruct (json_float_ok amount); cbn [fst]; intros H; inversion H; discriminate.
    + intros H; inversion H; discriminate.
Qed.

End CreationFacts.

(** ** Strings, keys and scans *)

Module StringFacts.

#[local] Arguments String.append : simpl nomatch.

Lemma append_empty_r (s : string) : s +:+ "" = s.
Proof. induction s as [|ch s IH]; simpl; [reflexivity | rewrite IH; reflexivity]. Qed.

Lemma length_sliceTo (n : nat) (s : string) :
  (n <= String.length s)%nat -> String.length (sliceTo n s) = n.
Proof.
  unfold sliceTo. revert s. induction n as [|n IH]; intros s H.
  - destruct s; reflexivity.
  - destruct s as [|ch s]; simpl in *; [lia | ]. rewrite IH by lia. reflexivity.
Qed.

Lemma sliceTo_append (a b : string) : sliceTo (String.length a) (a +:+ b) = a.
Proof.
  unfold sliceTo. induction a as [|ch a IH]; simpl.
  - destruct b; reflexivity.
  - rewrite IH. reflexivity.
Qed.

Lemma split_at (n : nat) (s : string) :
  (n <= String.length s)%nat -> s = sliceTo n s +:+ sliceFrom n s.
Proof.
  unfold sliceTo, sliceFrom. revert s. induction n as [|n IH]; intros s H.
  - destruct s as [|ch s]; simpl; [reflexivity | ].
    f_equal. clear. induction s as [|ch' s IH]; simpl; [reflexivity | ].
    f_equal. exact IH.
  - destruct s as [|ch s]; simpl in *; [lia | ].
    f_equal. apply IH. lia.
Qed.

Lemma length_key (a b : string) :
  String.length (a +:+ b) = (String.length a + String.length b)%nat.
Proof. induction a as [|ch a IH]; simpl; [reflexivity | rewrite IH; reflexivity]. Qed.

Lemma contains_prefix (s substr : string) :
  contains s substr = true -> exists rest, s = substr +:+ rest.
Proof.
  unfold contains. intros H. apply andb_prop in H. destruct H as [Hlen H].
  apply Nat.leb_le in Hlen. apply orb_prop in H. destruct H as [H | H].
  - apply String.eqb_eq in H. exists "". rewrite append_empty_r. exact H.
  - apply andb_prop in H. destruct H as [_ H]. apply String.eqb_eq in H.
    exists (sliceFrom (String.length substr) s).
    pose proof (split_at _ s Hlen) as E. rewrite H in E. exact E.
Qed.

Lemma prefix_contains (substr rest : string) :
  contains (substr +:+ rest) substr = true.
Proof.
  unfold contains. rewrite length_key.
  apply andb_true_intro. split; [apply Nat.leb_le; lia | ].
  destruct rest as [|ch rest].
  - rewrite append_empty_r, String.eqb_refl. reflexivity.
  - apply orb_true_intro. right. apply andb_true_intro. split.
    + apply Nat.ltb_lt. simpl. lia.
    + rewrite sliceTo_append. apply String.eqb_refl.
Qed.

(** X26.  [contains], the helper both contracts declare to search a string
    for a substring, is a test of prefix: it holds exactly of the strings
    that begin with [substr], and so never of a string in which [substr]
    first occurs after a character that [substr] does not begin with. *)
Theorem contains_is_prefix (s substr : string) :
  (contains s substr = true <-> exists rest, s = substr +:+ rest) /\
  (forall ch ch' tail,
      ch <> ch' ->
      contains (String ch (String ch' tail +:+ s)) (String ch' tail) = false).
Proof.
  split.
  - split; [apply contains_prefix | intros [rest ->]; apply prefix_contains].
  - intros ch ch' tail Hne.
    destruct (contains (String ch (String ch' tail +:+ s)) (String ch' tail)) eqn:C;
      [ | reflexivity].
    exfalso. apply contains_prefix in C. destruct C as [rest C].
    change (String ch (String ch' tail +:+ s) = String ch' (tail +:+ rest)) in C.
    congruence.
Qed.

End StringFacts.

Module ScanFacts.

Lemma In_insertByKey {V : Type} (x e : string * V) (es : list (string * V)) :
  In x (insertByKey e es) <-> x = e \/ In x es.
Proof.
  induction es as [|e' es IH]; simpl.
  - intuition.
  - destruct (String.leb (fst e) (fst e')); simpl; [intuition | ].
    rewrite IH. intuition.
Qed.

Lemma In_sortByKey {V : Type} (x : string * V) (es : list (string * V)) :
  In x (sortByKey es) <-> In x es.
Proof.
  unfold sortByKey. induction es as [|e es IH]; simpl; [reflexivity | ].
  rewrite In_insertByKey, IH. intuition.
Qed.

(** A scan yields exactly the stored documents whose key is in the range. *)
Lemma In_scanned {V : Type} (w : gmap string V) (startKey endKey k : string) (v : V) :
  In (k, v) (scanned w startKey endKey)
  <-> w !! k = Some v /\ inRange startKey endKey k = true.
Proof.
  unfold scanned. rewrite filter_In, In_sortByKey.
  rewrite <- list_elem_of_In, elem_of_map_to_list. reflexivity.
Qed.

Lemma In_scanned_all {V : Type} (w : gmap string V) (k : string) (v : V) :
  In (k, v) (scanned w "" "") <-> w !! k = Some v.
Proof. rewrite In_scanned. unfold inRange. simpl. intuition. Qed.

Lemma nothing_in (A : Type) (l : list A) : (forall x, ~ In x l) -> l = [].
Proof. destruct l as [|x l]; [reflexivity | ]. intros H. destruct (H x). left. reflexivity. Qed.

End ScanFacts.

(** ** The listings of the CorporateAction contract *)

Module CorporateActionListings.
Import CorporateAction CorporateActionSpec CorporateActionQueries.
Import StringFacts ScanFacts.

(** [key[:8]] has eight characters and "COUPON_" has seven. *)
Lemma coupon_prefix_never_matches (key : string) :
  (8 <? String.length key)%nat && String.eqb (sliceTo 8 key) "COUPON_" = false.
Proof.
  destruct (8 <? String.length key)%nat eqn:E; [ | reflexivity].
  apply Nat.ltb_lt in E. cbn [andb]. apply String.eqb_neq. intros H.
  apply (f_equal String.length) in H. rewrite length_sliceTo in H by lia.
  discriminate H.
Qed.

Lemma collectPendingCoupons_nil (results : list (string * Value)) :
  collectPendingCoupons results = [].
Proof.
  induction results as [|[key value] rest IH]; [reflexivity | ].
  cbn [collectPendingCoupons]. rewrite coupon_prefix_never_matches. exact IH.
Qed.

Lemma collectCouponsByBond_nil (bondID : string) (results : list (string * Value)) :
  collectCouponsByBond bondID results = [].
Proof.
  induction results as [|[key value] rest IH]; [reflexivity | ].
  cbn [collectCouponsByBond]. rewrite coupon_prefix_never_matches. exact IH.
Qed.

(** X1.  [GetPendingCouponPayments] and [GetCouponPaymentsByBond] return
    the empty list on every ledger and for every bond: the test
    [key[:8] == "COUPON_"] compares eight characters of the key with a
    string of seven, so no document ever passes it.  Neither call fails or
    writes. *)
Theorem coupon_listings_are_empty (c : Ctx) (l : Ledger) :
  GetPendingCouponPayments c l = (Ok [], l) /\
  (forall bondID, GetCouponPaymentsByBond bondID c l = (Ok [], l)).
Proof.
  split.
  - unfold GetPendingCouponPayments, GetStateByRange. tx_unfold.
    rewrite collectPendingCoupons_nil. reflexivity.
  - intros bondID. unfold GetCouponPaymentsByBond, GetStateByRange. tx_unfold.
    rewrite collectCouponsByBond_nil. reflexivity.
Qed.

Lemma first_character (ch ch' : ascii) (a b rest : string) :
  String ch a +:+ rest = String ch' b -> ch = ch'.
Proof. intros H. change (String ch (a +:+ rest) = String ch' b) in H. congruence. Qed.

(** A key that begins with "REDEMPTION_" does not begin with a string whose
    first character is not R. *)
Lemma redemption_key_first_character (key bondID : string) (ch : ascii) (tail : string) :
  bondID = String ch tail ->
  ch <> "R"%char ->
  (11 <? String.length key)%nat && String.eqb (sliceTo 11 key) "REDEMPTION_"
    && contains key bondID = false.
Proof.
  intros -> Hch.
  destruct ((11 <? String.length key)%nat && String.eqb (sliceTo 11 key) "REDEMPTION_")
    eqn:E; [ | reflexivity].
  cbn [andb]. apply andb_prop in E. destruct E as [_ E]. apply String.eqb_eq in E.
  destruct (contains key (String ch tail)) eqn:C; [ | reflexivity].
  exfalso. apply contains_prefix in C. destruct C as [rest ->].
  unfold sliceTo in E. change (String ch (String.substring 0 10 (tail +:+ rest))
                                = "REDEMPTION_") in E.
  apply Hch. congruence.
Qed.

(** X2.  [GetRedemptionsByBond] answers with the empty list for every bond
    identifier whose first character is not R: it asks that the key begin
    with "REDEMPTION_" and also, through [contains], that it begin with the
    bond identifier. *)
Theorem GetRedemptionsByBond_empty (c : Ctx) (l : Ledger) (bondID : string)
    (ch : ascii) (tail : string) :
  bondID = String ch tail ->
  ch <> "R"%char ->
  GetRedemptionsByBond bondID c l = (Ok [], l).
Proof.
  intros Hb Hch. unfold GetRedemptionsByBond, GetStateByRange. tx_unfold.
  assert (H : forall results, collectRedemptionsByBond bondID results = []).
  { induction results as [|[key value] rest IH]; [reflexivity | ].
    cbn [collectRedemptionsByBond].
    rewrite (redemption_key_first_character key bondID ch tail Hb Hch). exact IH. }
  rewrite H. reflexivity.
Qed.

Lemma GetRedemptionsByBond_empty_witness :
  "BOND_001" = String "B"%char "OND_001" /\
  "B"%char <> "R"%char /\
  GetRedemptionsByBond "BOND_001" ctx1 redemptionCreated = (Ok [], redemptionCreated).
Proof.
  assert (H1 : "BOND_001" = String "B"%char "OND_001") by reflexivity.
  assert (H2 : "B"%char <> "R"%char) by discriminate.
  split; [exact H1 | ]. split; [exact H2 | ].
  exact (GetRedemptionsByBond_empty ctx1 redemptionCreated "BOND_001" "B"%char "OND_001" H1 H2).
Defined.

(** What [GetPendingRedemptions] lists. *)
Lemma In_collectPendingRedemptions (results : list (string * Value)) (r : Redemption) :
  In r (collectPendingRedemptions results)
  <-> exists k v,
        In (k, v) results /\
        (11 < String.length k)%nat /\
        sliceTo 11 k = "REDEMPTION_" /\
        r = unmarshalRedemption v /\
        Redemption_Status r = "PENDING".
Proof.
  induction results as [|[key value] rest IH]; cbn [collectPendingRedemptions].
  - split; [intros [] | intros (k & v & [] & _)].
  - destruct ((11 <? String.length key)%nat && String.eqb (sliceTo 11 key) "REDEMPTION_")
      eqn:E.
    + apply andb_prop in E. destruct E as [E1 E2].
      apply Nat.ltb_lt in E1. apply String.eqb_eq in E2.
      destruct (String.eqb (Redemption_Status (unmarshalRedemption value)) "PENDING") eqn:S.
      * apply String.eqb_eq in S. cbn [In]. rewrite IH. split.
        -- intros [<- | (k & v & Hin & H)].
           ++ exists key, value. cbn [In]. auto.
           ++ exists k, v. cbn [In]. tauto.
        -- intros (k & v & [Hin | Hin] & H).
           ++ injection Hin as <- <-. left. symmetry. tauto.
           ++ right. exists k, v. tauto.
      * apply String.eqb_neq in S. rewrite IH. split.
        -- intros (k & v & Hin & H). exists k, v. cbn [In]. tauto.
        -- intros (k & v & [Hin | Hin] & H2 & H3 & -> & H5).
           ++ injection Hin as <- <-. contradiction.
           ++ exists k, v. tauto.
    + rewrite IH. split.
      * intros (k & v & Hin & H). exists k, v. cbn [In]. tauto.
      * intros (k & v & [Hin | Hin] & H2 & H3 & H4).
        -- injection Hin as <- <-. exfalso.
           apply andb_false_iff in E. destruct E as [E | E].
           ++ apply Nat.ltb_ge in E. lia.
           ++ apply String.eqb_neq in E. contradiction.
        -- exists k, v. tauto.
Qed.

Lemma redemptionID_shape (c : Ctx) (bondID : string) :
  (11 < String.length (redemptionIDOf c bondID))%nat /\
  sliceTo 11 (redemptionIDOf c bondID) = "REDEMPTION_".
Proof.
  unfold redemptionIDOf. split.
  - rewrite !length_key. cbn [String.length]. lia.
  - apply (sliceTo_append "REDEMPTION_").
Qed.

Lemma CreateRedemption_success (c : Ctx) (l : Ledger) (bondID dateStr : string)
    (amount : float) (date : Time) :
  parseDate dateStr = Some date ->
  json_float_ok amount = true ->
  CreateRedemption bondID dateStr amount c l
    = (Ok tt,
       mkLedger
         (<[redemptionIDOf c bondID :=
              VRedemption (mkRedemption (redemptionIDOf c bondID) bondID date amount
                             "PENDING" zeroTime "" (Some ∅))]> (world l))
         (events l ++ [("CorporateActionEvent",
                        mkCorporateActionEvent "REDEMPTION_CREATED" bondID
                          ("Redemption created for bond " +:+ bondID) amount
                          (now c) (txID c))])).
Proof.
  intros Hd Hf. unfold CreateRedemption, marshalRedemption, marshalEvent, redemptionIDOf.
  tx_unfold. rewrite Hd. cbn [Redemption_Amount Event_Amount]. rewrite Hf. reflexivity.
Qed.

(** X3.  A redemption that [CreateRedemption] has just created for a bond
    identifier that is valid UTF-8 is listed by [GetPendingRedemptions],
    whatever else the ledger holds. *)
Theorem created_redemption_is_pending (c c' : Ctx) (l : Ledger)
    (bondID dateStr : string) (amount : float) (date : Time) :
  validUTF8 bondID = true ->
  parseDate dateStr = Some date ->
  json_float_ok amount = true ->
  exists l' pending,
    CreateRedemption bondID dateStr amount c l = (Ok tt, l') /\
    GetPendingRedemptions c' l' = (Ok pending, l') /\
    In (mkRedemption (redemptionIDOf c bondID) bondID date amount
          "PENDING" zeroTime "" (Some ∅)) pending.
Proof.
  intros _ Hd Hf. eexists. eexists.
  split; [apply CreateRedemption_success; eassumption | ].
  split; [reflexivity | ].
  apply In_collectPendingRedemptions.
  exists (redemptionIDOf c bondID). eexists.
  split; [apply In_scanned_all; cbn [world]; apply lookup_insert_eq | ].
  destruct (redemptionID_shape c bondID) as [H1 H2].
  split; [exact H1 | ]. split; [exact H2 | ]. split; reflexivity.
Qed.

Lemma created_redemption_is_pending_witness :
  validUTF8 "BOND_001" = true /\
  parseDate "2029-01-01" = Some (mkTime 2029 1 1 0) /\
  json_float_ok 1000%float = true /\
  exists l' pending,
    CreateRedemption "BOND_001" "2029-01-01" 1000%float ctx0 couponPaid = (Ok tt, l') /\
    GetPendingRedemptions ctx1 l' = (Ok pending, l') /\
    In (mkRedemption (redemptionIDOf ctx0 "BOND_001") "BOND_001" (mkTime 2029 1 1 0)
          1000%float "PENDING" zeroTime "" (Some ∅)) pending.
Proof.
  assert (H0 : validUTF8 "BOND_001" = true) by reflexivity.
  assert (H1 : parseDate "2029-01-01" = Some (mkTime 2029 1 1 0)) by reflexivity.
  assert (H2 : json_float_ok 1000%float = true) by reflexivity.
  split; [exact H0 | ]. split; [exact H1 | ]. split; [exact H2 | ].
  exact (created_redemption_is_pending ctx0 ctx1 couponPaid "BOND_001" "2029-01-01"
           1000%float (mkTime 2029 1 1 0) H0 H1 H2).
Defined.

(** X4.  Once [ProcessRedemption] has completed the redemption stored under
    an identifier, [GetPendingRedemptions] lists exactly what it listed
    before from the other keys: the processed document is gone from the
    list and nothing else has moved. *)
Theorem processed_redemption_is_delisted (c c' : Ctx) (l : Ledger) (id : string)
    (v : Value) :
  world l !! id = Some v ->
  Redemption_Status (unmarshalRedemption v) = "PENDING" ->
  json_float_ok (Redemption_Amount (unmarshalRedemption v)) = true ->
  exists l' pending,
    ProcessRedemption id c l = (Ok tt, l') /\
    GetPendingRedemptions c' l' = (Ok pending, l') /\
    forall r,
      In r pending
      <-> exists k w,
            k <> id /\
            world l !! k = Some w /\
            (11 < String.length k)%nat /\
            sliceTo 11 k = "REDEMPTION_" /\
            r = unmarshalRedemption w /\
            Redemption_Status r = "PENDING".
Proof.
  intros Hv Hs Hf. eexists. eexists.
  split; [apply CorporateActionFacts.ProcessRedemption_success; eassumption | ].
  split; [reflexivity | ].
  intros r. rewrite In_collectPendingRedemptions. cbn [world]. split.
  - intros (k & w & Hin & H1 & H2 & H3 & H4).
    apply In_scanned_all in Hin. apply lookup_insert_Some in Hin.
    destruct Hin as [[<- <-] | [Hne Hin]].
    + subst r. cbn in H4. discriminate H4.
    + exists k, w. repeat split; try assumption. congruence.
  - intros (k & w & Hne & Hin & H).
    exists k, w. split; [ | exact H].
    apply In_scanned_all. rewrite lookup_insert_ne by congruence. exact Hin.
Qed.

Lemma processed_redemption_is_delisted_witness :
  world redemptionCreated !! "REDEMPTION_BOND_001_20240601"
    = Some (VRedemption (mkRedemption "REDEMPTION_BOND_001_20240601" "BOND_001"
                           (mkTime 2029 1 1 0) 1000%float "PENDING" zeroTime "" (Some ∅))) /\
  exists l' pending,
    ProcessRedemption "REDEMPTION_BOND_001_20240601" ctx1 redemptionCreated = (Ok tt, l') /\
    GetPendingRedemptions ctx2 l' = (Ok pending, l') /\
    forall r,
      In r pending
      <-> exists k w,
            k <> "REDEMPTION_BOND_001_20240601" /\
            world redemptionCreated !! k = Some w /\
            (11 < String.length k)%nat /\
            sliceTo 11 k = "REDEMPTION_" /\
            r = unmarshalRedemption w /\
            Redemption_Status r = "PENDING".
Proof.
  assert (H1 : world redemptionCreated !! "REDEMPTION_BOND_001_20240601"
    = Some (VRedemption (mkRedemption "REDEMPTION_BOND_001_20240601" "BOND_001"
                           (mkTime 2029 1 1 0) 1000%float "PENDING" zeroTime "" (Some ∅))))
    by (vm_compute; reflexivity).
  split; [exact H1 | ].
  exact (processed_redemption_is_delisted ctx1 ctx2 redemptionCreated
           "REDEMPTION_BOND_001_20240601" _ H1 eq_refl eq_refl).
Defined.

End CorporateActionListings.

(** ** The listings of the Compliance contract *)

Module ComplianceListings.
Import Compliance ComplianceSpec ComplianceQueries.
Import StringFacts ScanFacts.

(** [CreateAMLCheck] never fails: whatever is stored, it writes a PENDING
    check under address_checkType and emits an event. *)
Lemma CreateAMLCheck_run (c : Ctx) (l : Ledger) (address checkType : string)
    (riskScore : Z) (details : string) :
  CreateAMLCheck address checkType riskScore details c l
    = (Ok tt,
       mkLedger
         (<[underscoreKey address checkType :=
              VAML (mkAMLCheck address checkType "PENDING" riskScore (now c)
                      (addSixMonths (now c)) details "SYSTEM")]> (world l))
         (events l ++ [("AMLEvent",
                        mkComplianceEvent "AML_CHECK_CREATED" address
                          ("AML check created for " +:+ address +:+ ": " +:+ checkType)
                          (now c) (txID c))])).
Proof. reflexivity. Qed.

Lemma ascii_not_below_zero (ch : ascii) : Ascii.compare ch Ascii.zero <> Lt.
Proof.
  unfold Ascii.compare. change (N_of_ascii Ascii.zero) with 0%N.
  destruct (N_of_ascii ch); discriminate.
Qed.

(** The only key from [s] (included) to [s] followed by the character of
    code 0 (excluded) is [s] itself. *)
Lemma key_between (s k : string) :
  String.leb s k = true ->
  String.ltb k (s +:+ String Ascii.zero "") = true ->
  k = s.
Proof.
  unfold String.leb, String.ltb. revert k.
  induction s as [|ch s IH]; intros k Hle Hlt.
  - destruct k as [|d k]; [reflexivity | ].
    change (match String.compare (String d k) (String Ascii.zero "") with
            | Lt => true | _ => false end = true) in Hlt.
    cbn [String.compare] in Hlt.
    pose proof (ascii_not_below_zero d) as Hz.
    destruct (Ascii.compare d Ascii.zero); [ | contradiction | discriminate].
    destruct k; discriminate.
  - destruct k as [|d k]; [discriminate | ].
    change (match String.compare (String d k) (String ch (s +:+ String Ascii.zero ""))
            with Lt => true | _ => false end = true) in Hlt.
    cbn [String.compare] in Hle, Hlt.
    rewrite (Ascii.compare_antisym d ch) in Hlt.
    destruct (Ascii.compare ch d) eqn:E; cbn [CompOpp] in Hlt; try discriminate.
    apply Ascii.compare_eq_iff in E. subst d. f_equal. apply IH; assumption.
Qed.

Lemma GetAllAMLChecks_source (c : Ctx) (l : Ledger) (address : string) (r : AMLCheck) :
  In r (collectAML address
          (scanned (world l) (address +:+ "_") (address +:+ "_" +:+ String Ascii.zero ""))) ->
  exists v, world l !! (address +:+ "_") = Some v /\ r = unmarshalAML v.
Proof.
  generalize (scanned (world l) (address +:+ "_") (address +:+ "_" +:+ String Ascii.zero ""))
    (fun k v => proj1 (In_scanned (world l) (address +:+ "_")
                         (address +:+ "_" +:+ String Ascii.zero "") k v)).
  intros results Hres. induction results as [|[key value] rest IH]; [intros [] | ].
  cbn [collectAML].
  assert (Hkey : world l !! (address +:+ "_") = Some value).
  { destruct (Hres key value (or_introl eq_refl)) as [Hl Hr].
    unfold inRange in Hr. apply andb_prop in Hr. destruct Hr as [H1 H2].
    assert (E1 : String.eqb (address +:+ "_") "" = false).
    { apply String.eqb_neq. intros E. apply (f_equal String.length) in E.
      rewrite length_key in E. cbn in E. lia. }
    assert (E2 : String.eqb (address +:+ "_" +:+ String Ascii.zero "") "" = false).
    { apply String.eqb_neq. intros E. apply (f_equal String.length) in E.
      rewrite !length_key in E. cbn in E. lia. }
    rewrite E1 in H1. rewrite E2 in H2. cbn [orb] in H1, H2.
    assert (Ek : key = address +:+ "_").
    { apply key_between; [exact H1 | ].
      replace ((address +:+ "_") +:+ String Ascii.zero "")
        with (address +:+ "_" +:+ String Ascii.zero ""); [exact H2 | ].
      clear. induction address as [|ch a IHa]; [reflexivity | ].
      change (String ch (a +:+ "_" +:+ String Ascii.zero "")
              = String ch ((a +:+ "_") +:+ String Ascii.zero "")).
      rewrite IHa. reflexivity. }
    rewrite <- Ek. exact Hl. }
  assert (Hrest : forall k v, In (k, v) rest ->
            world l !! k = Some v /\
            inRange (address +:+ "_") (address +:+ "_" +:+ String Ascii.zero "") k = true)
    by (intros k v Hin; apply Hres; right; exact Hin).
  destruct (String.eqb (AML_Address (unmarshalAML value)) address).
  - intros [<- | Hin]; [exists value; auto | exact (IH Hrest Hin)].
  - exact (IH Hrest).
Qed.

(** X5.  [GetAllAMLChecks] scans from address_ to address_ followed by the
    character of code 0, a range that holds the one key address_ and none
    of the keys address_<checkType> of a check with a type.  So it returns
    the empty list unless a check has been stored with the empty type, and
    still does after [CreateAMLCheck] has stored a check of any other
    type. *)
Theorem GetAllAMLChecks_misses_typed_checks (c c' : Ctx) (l : Ledger) (address : string) :
  world l !! (address +:+ "_") = None ->
  GetAllAMLChecks address c l = (Ok [], l) /\
  (forall (checkType : string) (riskScore : Z) (details : string),
      checkType <> "" ->
      exists l',
        CreateAMLCheck address checkType riskScore details c l = (Ok tt, l') /\
        GetAllAMLChecks address c' l' = (Ok [], l')).
Proof.
  intros Hnone.
  assert (Hempty : forall (cx : Ctx) (lx : Ledger),
             world lx !! (address +:+ "_") = None ->
             GetAllAMLChecks address cx lx = (Ok [], lx)).
  { intros cx lx Hx. unfold GetAllAMLChecks, GetStateByRange. tx_unfold.
    f_equal. f_equal. apply nothing_in. intros r Hin.
    destruct (GetAllAMLChecks_source cx lx address r Hin) as (v & Hv & _).
    rewrite Hx in Hv. discriminate Hv. }
  split; [apply Hempty; exact Hnone | ].
  intros checkType riskScore details Hty. eexists.
  split; [apply CreateAMLCheck_run | ].
  apply Hempty. cbn [world snd].
  rewrite lookup_insert_ne; [exact Hnone | ].
  unfold underscoreKey. intros E.
  destruct checkType as [|ch t]; [contradiction | ].
  apply (f_equal String.length) in E. rewrite !length_key in E. cbn in E. lia.
Qed.

Lemma GetAllAMLChecks_misses_typed_checks_witness :
  world approvedAlice !! ("alice" +:+ "_") = None /\
  GetAllAMLChecks "alice" ctx0 approvedAlice = (Ok [], approvedAlice) /\
  "SANCTIONS" <> "" /\
  exists l',
    CreateAMLCheck "alice" "SANCTIONS" 10 "screening" ctx0 approvedAlice = (Ok tt, l') /\
    GetAllAMLChecks "alice" ctx0 l' = (Ok [], l').
Proof.
  assert (H1 : world approvedAlice !! ("alice" +:+ "_") = None) by (vm_compute; reflexivity).
  assert (H2 : "SANCTIONS" <> "") by discriminate.
  pose proof (GetAllAMLChecks_misses_typed_checks ctx0 ctx0 approvedAlice "alice" H1) as [Ha Hb].
  split; [exact H1 | ]. split; [exact Ha | ]. split; [exact H2 | ].
  exact (Hb "SANCTIONS" 10 "screening" H2).
Defined.

Lemma In_collectKYC (results : list (string * Value)) (k : string) (v : Value) :
  In (k, v) results ->
  contains k "_" = false ->
  KYC_Address (unmarshalKYC v) <> "" ->
  In (unmarshalKYC v) (collectKYC results).
Proof.
  intros Hin Hc Ha. induction results as [|[key value] rest IH]; [destruct Hin | ].
  cbn [collectKYC]. destruct Hin as [Hin | Hin].
  - injection Hin as -> ->. rewrite Hc. cbn [negb].
    destruct (String.eqb (KYC_Address (unmarshalKYC v)) "") eqn:E;
      [apply String.eqb_eq in E; contradiction | ].
    left. reflexivity.
  - destruct (negb (contains key "_")); [ | exact (IH Hin)].
    destruct (negb (String.eqb (KYC_Address (unmarshalKYC value)) ""));
      [right | ]; exact (IH Hin).
Qed.

(** X6.  [GetAllKYC] takes for a KYC record every document whose key does
    not begin with an underscore.  The key address_checkType of an AML
    check begins with the address, so after [CreateAMLCheck] for an address
    (valid UTF-8) that is not empty and does not begin with an underscore,
    [GetAllKYC] lists the check as one more KYC record: the address and
    the status PENDING of the check, every other field empty. *)
Theorem GetAllKYC_lists_AML_checks (c c' : Ctx) (l : Ledger)
    (address checkType : string) (riskScore : Z) (details : string)
    (ch : ascii) (tail : string) :
  validUTF8 address = true ->
  address = String ch tail ->
  ch <> "_"%char ->
  exists l' records,
    CreateAMLCheck address checkType riskScore details c l = (Ok tt, l') /\
    GetAllKYC c' l' = (Ok records, l') /\
    In (mkKYCRecord address "" "" "" "" "" "PENDING" "" "" zeroTime zeroTime zeroTime None)
       records.
Proof.
  intros _ Ha Hch. eexists. eexists.
  split; [apply CreateAMLCheck_run | ]. split; [reflexivity | ].
  apply (In_collectKYC _ (underscoreKey address checkType)
           (VAML (mkAMLCheck address checkType "PENDING" riskScore (now c)
                    (addSixMonths (now c)) details "SYSTEM"))).
  - apply In_scanned_all. cbn [world snd]. apply lookup_insert_eq.
  - destruct (contains (underscoreKey address checkType) "_") eqn:C; [ | reflexivity].
    exfalso. apply contains_prefix in C. destruct C as [rest C].
    subst address. unfold underscoreKey in C.
    change (String ch (tail +:+ "_" +:+ checkType) = String "_"%char rest) in C.
    apply Hch. congruence.
  - cbn. subst address. discriminate.
Qed.

Lemma GetAllKYC_lists_AML_checks_witness :
  validUTF8 "alice" = true /\
  "alice" = String "a"%char "lice" /\
  "a"%char <> "_"%char /\
  exists l' records,
    CreateAMLCheck "alice" "SANCTIONS" 10 "screening" ctx0 approvedAlice = (Ok tt, l') /\
    GetAllKYC ctx0 l' = (Ok records, l') /\
    In (mkKYCRecord "alice" "" "" "" "" "" "PENDING" "" "" zeroTime zeroTime zeroTime None)
       records.
Proof.
  assert (H0 : validUTF8 "alice" = true) by reflexivity.
  assert (H1 : "alice" = String "a"%char "lice") by reflexivity.
  assert (H2 : "a"%char <> "_"%char) by discriminate.
  split; [exact H0 | ]. split; [exact H1 | ]. split; [exact H2 | ].
  exact (GetAllKYC_lists_AML_checks ctx0 ctx0 approvedAlice "alice" "SANCTIONS" 10
           "screening" "a"%char "lice" H0 H1 H2).
Defined.

End ComplianceListings.

(** ** The listings of the BondToken contract *)

Module BondTokenListings.
Import BondToken BondTokenSpec BondTokenQueries.
Import StringFacts ScanFacts.

Lemma bondsUnderTheirID_insert (w : gmap string Value) (k : string) (b : Bond) :
  bondsUnderTheirID w -> Bond_ID b = k -> bondsUnderTheirID (<[k := VBond b]> w).
Proof.
  intros Hw Hb k' v H. apply lookup_insert_Some in H.
  destruct H as [[<- <-] | [_ H]]; [exists b; auto | exact (Hw _ _ H)].
Qed.

Lemma invoke_bondsUnderTheirID (c : Ctx) (l l' : Ledger) (call : Call) :
  bondsUnderTheirID (world l) ->
  invoke call c l = (Ok tt, l') ->
  bondsUnderTheirID (world l').
Proof.
  intros Hw H. destruct call; cbn [invoke] in H.
  - revert H. unfold IssueBond, BondExists, marshalBond. tx_unfold.
    destruct (world l !! bondID); [discriminate | ].
    destruct (parseDate maturityDateStr); [ | discriminate].
    cbn [Bond_FaceValue Bond_CouponRate].
    destruct (json_float_ok faceValue && json_float_ok couponRate); [ | discriminate].
    intros H. injection H as <-. cbn [world].
    apply bondsUnderTheirID_insert; [exact Hw | reflexivity].
  - assert (Hb : onlyBonds (world l)).
    { intros k v Hk. destruct (Hw k v Hk) as (b & -> & _). exists b. reflexivity. }
    destruct (BondTokenFacts.Transfer_fails_onlyBonds c l from to bondID quantity Hb)
      as [e He].
    rewrite He in H. discriminate H.
  - revert H. unfold UpdateBondStatus, GetBond, marshalBond. tx_unfold.
    destruct (world l !! bondID) as [v|] eqn:Hv; [ | discriminate].
    cbn [Bond_FaceValue Bond_CouponRate].
    destruct (json_float_ok _ && json_float_ok _); [ | discriminate].
    intros H. injection H as <-. cbn [world].
    destruct (Hw _ _ Hv) as (b & -> & Hb).
    apply bondsUnderTheirID_insert; [exact Hw | exact Hb].
Qed.

Lemma reachable_bondsUnderTheirID (l : Ledger) : reachable l -> bondsUnderTheirID (world l).
Proof.
  induction 1 as [ | l l' c call _ IH Hrun].
  - intros k v H. cbn in H. rewrite lookup_empty in H. discriminate.
  - exact (invoke_bondsUnderTheirID c l l' call IH Hrun).
Qed.

Lemma In_collectBonds (results : list (string * Value)) (b : Bond) :
  In b (collectBonds results)
  <-> exists k v,
        In (k, v) results /\ (String.length k < 20)%nat /\
        b = unmarshalBond v /\ Bond_ID b <> "".
Proof.
  induction results as [|[key value] rest IH]; cbn [collectBonds].
  - split; [intros [] | intros (k & v & [] & _)].
  - destruct (String.length key <? 20)%nat eqn:E.
    + apply Nat.ltb_lt in E.
      destruct (String.eqb (Bond_ID (unmarshalBond value)) "") eqn:S; cbn [negb].
      * apply String.eqb_eq in S. rewrite IH. split.
        -- intros (k & v & Hin & H). exists k, v. cbn [In]. tauto.
        -- intros (k & v & [Hin | Hin] & H2 & -> & H4).
           ++ injection Hin as <- <-. contradiction.
           ++ exists k, v. tauto.
      * apply String.eqb_neq in S. cbn [In]. rewrite IH. split.
        -- intros [<- | (k & v & Hin & H)].
           ++ exists key, value. cbn [In]. auto.
           ++ exists k, v. cbn [In]. tauto.
        -- intros (k & v & [Hin | Hin] & H).
           ++ injection Hin as <- <-. left. symmetry. tauto.
           ++ right. exists k, v. tauto.
    + apply Nat.ltb_ge in E. rewrite IH. split.
      * intros (k & v & Hin & H). exists k, v. cbn [In]. tauto.
      * intros (k & v & [Hin | Hin] & H2 & H).
        -- injection Hin as <- <-. lia.
        -- exists k, v. tauto.
Qed.

Lemma reachableUTF8_reachable (l : Ledger) : reachableUTF8 l -> reachable l.
Proof.
  induction 1 as [ | l l' c call _ IH _ Hrun].
  - apply reachable_empty.
  - exact (reachable_invoke l l' c call IH Hrun).
Qed.

(** X7.  On every ledger the contract reaches from the empty one through
    invocations whose strings are valid UTF-8, [GetAllBonds] lists exactly
    the stored bonds whose identifier is not empty and has fewer than 20
    characters: it tells bonds from holders by the length of the key, so a
    bond issued under an identifier of 20 characters or more is stored,
    and found by [GetBond], but never listed. *)
Theorem GetAllBonds_lists_short_identifiers (c : Ctx) (l : Ledger) :
  reachableUTF8 l ->
  exists bonds,
    GetAllBonds c l = (Ok bonds, l) /\
    forall b,
      In b bonds
      <-> world l !! Bond_ID b = Some (VBond b) /\
          Bond_ID b <> "" /\
          (String.length (Bond_ID b) < 20)%nat.
Proof.
  intros Hr.
  pose proof (reachable_bondsUnderTheirID l (reachableUTF8_reachable l Hr)) as Hw.
  eexists. split; [reflexivity | ].
  intros b. rewrite In_collectBonds. split.
  - intros (k & v & Hin & Hlen & -> & Hid).
    apply In_scanned_all in Hin. destruct (Hw _ _ Hin) as (b & -> & <-).
    cbn [unmarshalBond] in *. auto.
  - intros (Hl & Hid & Hlen). exists (Bond_ID b), (VBond b).
    split; [apply In_scanned_all; exact Hl | ]. auto.
Qed.

Lemma GetAllBonds_lists_short_identifiers_witness :
  reachableUTF8 twoBonds /\
  (exists b, GetBond longBondID ctx0 twoBonds = (Ok b, twoBonds)) /\
  exists bonds,
    GetAllBonds ctx0 twoBonds = (Ok bonds, twoBonds) /\
    forall b,
      In b bonds
      <-> world twoBonds !! Bond_ID b = Some (VBond b) /\
          Bond_ID b <> "" /\
          (String.length (Bond_ID b) < 20)%nat.
Proof.
  assert (H1 : reachableUTF8 twoBonds).
  { apply (reachableUTF8_invoke issued twoBonds ctx0
             (CallIssueBond longBondID "issuer" "Issuer Ltd" "USD" "ISIN002" "AA" "NONE"
                500%float 4%float 2000 "2030-12-31")).
    - apply (reachableUTF8_invoke emptyLedger issued ctx0
               (CallIssueBond "BOND_001" "issuer" "Issuer Ltd" "USD" "ISIN001" "AAA" "NONE"
                  1000%float 5%float 1000 "2030-01-01")).
      + apply reachableUTF8_empty.
      + reflexivity.
      + vm_compute; reflexivity.
    - reflexivity.
    - vm_compute; reflexivity. }
  split; [exact H1 | ].
  split; [eexists; vm_compute; reflexivity | ].
  exact (GetAllBonds_lists_short_identifiers ctx0 twoBonds H1).
Defined.

Lemma collectHolders_short_keys (bondID : string) (results : list (string * Value)) :
  (forall k v, In (k, v) results -> (String.length k <= 20)%nat) ->
  collectHolders bondID results = Some [].
Proof.
  induction results as [|[key value] rest IH]; intros H; [reflexivity | ].
  cbn [collectHolders].
  assert (E : (20 <? String.length key)%nat = false)
    by (apply Nat.ltb_ge; apply (H key value); left; reflexivity).
  rewrite E. apply IH. intros k v Hin. apply (H k v). right. exact Hin.
Qed.

(** X8.  [GetBondHolders] looks only at keys of more than 20 characters.
    On a ledger whose keys all have 20 characters or fewer it returns the
    empty list for every bond, whatever balances [GetBalance] reports. *)
Theorem GetBondHolders_skips_short_keys (c : Ctx) (l : Ledger) (bondID : string) :
  (forall k v, world l !! k = Some v -> (String.length k <= 20)%nat) ->
  GetBondHolders bondID c l = (Ok (Some []), l).
Proof.
  intros H. unfold GetBondHolders, GetStateByRange. tx_unfold.
  rewrite collectHolders_short_keys; [reflexivity | ].
  intros k v Hin. apply In_scanned_all in Hin. exact (H k v Hin).
Qed.

Lemma GetBondHolders_skips_short_keys_witness :
  (forall k v, world aliceAndBob !! k = Some v -> (String.length k <= 20)%nat) /\
  GetBalance "alice" "BOND_001" ctx0 aliceAndBob = (Ok 1000, aliceAndBob) /\
  GetBondHolders "BOND_001" ctx0 aliceAndBob = (Ok (Some []), aliceAndBob).
Proof.
  assert (H1 : forall k v, world aliceAndBob !! k = Some v -> (String.length k <= 20)%nat)
    by (apply (bool_decide_unpack (map_Forall _ _)); vm_compute; exact I).
  split; [exact H1 | ]. split; [vm_compute; reflexivity | ].
  exact (GetBondHolders_skips_short_keys ctx0 aliceAndBob "BOND_001" H1).
Defined.

Lemma collectHolders_panics (bondID : string) (results : list (string * Value))
    (k : string) (v : Value) :
  In (k, v) results ->
  (20 < String.length k)%nat ->
  (String.length k < String.length bondID + 1)%nat ->
  collectHolders bondID results = None.
Proof.
  intros Hin H20 Hlen. induction results as [|[key value] rest IH]; [destruct Hin | ].
  cbn [collectHolders]. destruct Hin as [Hin | Hin].
  - injection Hin as -> ->.
    apply Nat.ltb_lt in H20. rewrite H20. apply Nat.ltb_lt in Hlen. rewrite Hlen.
    reflexivity.
  - rewrite (IH Hin).
    destruct (20 <? String.length key)%nat; [ | reflexivity].
    destruct (String.length key <? String.length bondID + 1)%nat; [reflexivity | ].
    destruct (String.eqb _ _); [ | reflexivity].
    destruct (String.eqb _ _); reflexivity.
Qed.

(** X9.  [GetBondHolders] slices every key of more than 20 characters at
    [len(key) - len(bondID) - 1] without checking that the bound is not
    negative: when the ledger holds such a key that is shorter than the
    bond identifier plus one, the call ends in a run-time panic instead of
    a list. *)
Theorem GetBondHolders_panics_on_long_identifier (c : Ctx) (l : Ledger)
    (bondID k : string) (v : Value) :
  world l !! k = Some v ->
  (20 < String.length k)%nat ->
  (String.length k < String.length bondID + 1)%nat ->
  GetBondHolders bondID c l = (Ok None, l).
Proof.
  intros Hk H20 Hlen. unfold GetBondHolders, GetStateByRange. tx_unfold.
  rewrite (collectHolders_panics bondID _ k v); [reflexivity | | exact H20 | exact Hlen].
  apply In_scanned_all. exact Hk.
Qed.

Lemma GetBondHolders_panics_on_long_identifier_witness :
  world longKeyLedger !! "alice.investor.example_B001"
    = Some (VHolder (mkTokenHolder "alice.investor.example" "B001" 10 zeroTime (Some ∅))) /\
  (20 < String.length "alice.investor.example_B001")%nat /\
  (String.length "alice.investor.example_B001"
   < String.length "BOND_2030_SERIES_A_0001_TRANCHE_B" + 1)%nat /\
  GetBondHolders "BOND_2030_SERIES_A_0001_TRANCHE_B" ctx0 longKeyLedger
    = (Ok None, longKeyLedger).
Proof.
  assert (H1 : world longKeyLedger !! "alice.investor.example_B001"
    = Some (VHolder (mkTokenHolder "alice.investor.example" "B001" 10 zeroTime (Some ∅))))
    by (vm_compute; reflexivity).
  assert (H2 : (20 < String.length "alice.investor.example_B001")%nat) by (simpl; lia).
  assert (H3 : (String.length "alice.investor.example_B001"
                < String.length "BOND_2030_SERIES_A_0001_TRANCHE_B" + 1)%nat)
    by (simpl; lia).
  split; [exact H1 | ]. split; [exact H2 | ]. split; [exact H3 | ].
  exact (GetBondHolders_panics_on_long_identifier ctx0 longKeyLedger
           "BOND_2030_SERIES_A_0001_TRANCHE_B" _ _ H1 H2 H3).
Defined.

End BondTokenListings.

(** ** More of the BondToken contract *)

Module BondTokenMore.
Import BondToken BondTokenSpec BondTokenQueries BondTokenFacts.

(** X10.  [Transfer] checks the bond first and the quantity second: on a
    missing bond it fails with "bond ... does not exist" whatever the
    quantity, on an existing bond with a quantity of 0 or less it fails
    with "quantity must be positive".  And whichever way a [Transfer]
    fails, it has written nothing and emitted nothing: the ledger it
    returns is the one it was given. *)
Theorem Transfer_fails_cleanly (c : Ctx) (l : Ledger) (from to bondID : string)
    (quantity : Z) :
  (world l !! bondID = None ->
   Transfer from to bondID quantity c l = (Err (BondDoesNotExist bondID), l)) /\
  (is_Some (world l !! bondID) ->
   quantity <= 0 ->
   Transfer from to bondID quantity c l = (Err QuantityMustBePositive, l)) /\
  (forall e l', Transfer from to bondID quantity c l = (Err e, l') -> l' = l).
Proof.
  split; [ | split].
  - intros Hb. unfold Transfer, BondExists. tx_unfold. rewrite Hb. reflexivity.
  - intros [b Hb] Hq. unfold Transfer, BondExists. tx_unfold. rewrite Hb. cbn [negb].
    destruct (quantity <=? 0) eqn:E; [reflexivity | lia].
  - intros e l' H.
    destruct (Transfer_cases c l from to bondID quantity) as [[e0 He] | (v & _ & _ & Hok)].
    + rewrite He in H. congruence.
    + rewrite Hok in H. discriminate H.
Qed.

Lemma Transfer_fails_cleanly_witness :
  is_Some (world issued !! "BOND_001") /\
  0 <= 0 /\
  Transfer "issuer" "bob" "BOND_001" 0 ctx0 issued = (Err QuantityMustBePositive, issued).
Proof.
  assert (H1 : is_Some (world issued !! "BOND_001")) by (eexists; vm_compute; reflexivity).
  assert (H2 : 0 <= 0) by lia.
  split; [exact H1 | ]. split; [exact H2 | ].
  exact (proj1 (proj2 (Transfer_fails_cleanly ctx0 issued "issuer" "bob" "BOND_001" 0)) H1 H2).
Defined.

(** X11.  A [Transfer] between two different addresses, on an existing bond,
    of a positive quantity that the sender's document covers, succeeds; it
    takes the quantity off the sender's balance and, short of an [int64]
    overflow, adds it to the recipient's (a recipient without a document
    starting from 0); it leaves the document under every other key as it
    was and emits one TokensTransferred event. *)
Theorem Transfer_moves_quantity (c : Ctx) (l : Ledger) (from to bondID : string)
    (quantity : Z) :
  from <> to ->
  is_Some (world l !! bondID) ->
  quantitiesInt64 (world l) ->
  is_Some (world l !! underscoreKey from bondID) ->
  0 < quantity <= balanceOf (world l) from bondID ->
  balanceOf (world l) to bondID + quantity <= int64_max ->
  exists l',
    Transfer from to bondID quantity c l = (Ok tt, l') /\
    balanceOf (world l') from bondID = balanceOf (world l) from bondID - quantity /\
    balanceOf (world l') to bondID = balanceOf (world l) to bondID + quantity /\
    (forall k, k <> underscoreKey from bondID -> k <> underscoreKey to bondID ->
               world l' !! k = world l !! k) /\
    events l' = events l ++ [("TokensTransferred",
                              mkTransferEvent from to bondID quantity (now c) (txID c))].
Proof.
  intros Hne Hb Hty [v Hs] Hq Hmax.
  assert (Hkeys : underscoreKey from bondID <> underscoreKey to bondID)
    by (intros H; apply Hne, (underscoreKey_inj _ _ _ H)).
  unfold balanceOf in Hq, Hmax |- *. rewrite Hs in Hq |- *.
  pose proof (Hty _ _ Hs) as Hsty.
  eexists. split; [apply (Transfer_success c l from to bondID quantity v); auto; lia | ].
  unfold transferred. cbn [world events].
  split; [ | split; [ | split; [ | reflexivity]]].
  - rewrite lookup_insert_ne by congruence. rewrite lookup_insert_eq.
    cbn [unmarshalHolder Holder_Quantity]. unfold sub64.
    apply wrap64_id. unfold in_int64, int64_min, int64_max in *. lia.
  - rewrite lookup_insert_eq. cbn [unmarshalHolder Holder_Quantity]. unfold add64.
    destruct (world l !! underscoreKey to bondID) as [r|] eqn:Hr.
    + pose proof (Hty _ _ Hr) as Hrty.
      apply wrap64_id. unfold in_int64, int64_min, int64_max in *. lia.
    + cbn [Holder_Quantity].
      apply wrap64_id. unfold in_int64, int64_min, int64_max in *. lia.
  - intros k H1 H2. rewrite !lookup_insert_ne by congruence. reflexivity.
Qed.

Lemma Transfer_moves_quantity_witness :
  "alice" <> "bob" /\
  is_Some (world aliceAndBob !! "BOND_001") /\
  quantitiesInt64 (world aliceAndBob) /\
  is_Some (world aliceAndBob !! underscoreKey "alice" "BOND_001") /\
  0 < 300 <= balanceOf (world aliceAndBob) "alice" "BOND_001" /\
  balanceOf (world aliceAndBob) "bob" "BOND_001" + 300 <= int64_max /\
  exists l',
    Transfer "alice" "bob" "BOND_001" 300 ctx0 aliceAndBob = (Ok tt, l') /\
    balanceOf (world l') "alice" "BOND_001"
      = balanceOf (world aliceAndBob) "alice" "BOND_001" - 300 /\
    balanceOf (world l') "bob" "BOND_001"
      = balanceOf (world aliceAndBob) "bob" "BOND_001" + 300 /\
    (forall k, k <> underscoreKey "alice" "BOND_001" -> k <> underscoreKey "bob" "BOND_001" ->
               world l' !! k = world aliceAndBob !! k) /\
    events l' = events aliceAndBob
                ++ [("TokensTransferred",
                     mkTransferEvent "alice" "bob" "BOND_001" 300 (now ctx0) (txID ctx0))].
Proof.
  assert (H1 : "alice" <> "bob") by discriminate.
  assert (H2 : is_Some (world aliceAndBob !! "BOND_001"))
    by (eexists; vm_compute; reflexivity).
  assert (H3 : quantitiesInt64 (world aliceAndBob))
    by (apply (bool_decide_unpack (map_Forall _ _)); vm_compute; exact I).
  assert (H4 : is_Some (world aliceAndBob !! underscoreKey "alice" "BOND_001"))
    by (eexists; vm_compute; reflexivity).
  assert (H5 : 0 < 300 <= balanceOf (world aliceAndBob) "alice" "BOND_001")
    by (vm_compute; split; [reflexivity | discriminate]).
  assert (H6 : balanceOf (world aliceAndBob) "bob" "BOND_001" + 300 <= int64_max)
    by (vm_compute; discriminate).
  split; [exact H1 | ]. split; [exact H2 | ]. split; [exact H3 | ].
  split; [exact H4 | ]. split; [exact H5 | ]. split; [exact H6 | ].
  exact (Transfer_moves_quantity ctx0 aliceAndBob "alice" "bob" "BOND_001" 300
           H1 H2 H3 H4 H5 H6).
Defined.

(** X12.  A successful [Transfer] between two different addresses keeps the
    total of the holder quantities of the bond, provided the documents
    under the two holder keys are holder documents of that bond, the
    stored quantities are non-negative [int64]s and the recipient's
    balance plus the quantity does not exceed 2^63 - 1. *)
Theorem Transfer_keeps_total (c : Ctx) (l l' : Ledger) (from to bondID : string)
    (quantity : Z) :
  from <> to ->
  quantitiesInt64 (world l) ->
  nonNegative (world l) ->
  holderOfBondAt (world l) bondID (underscoreKey from bondID) ->
  holderOfBondAt (world l) bondID (underscoreKey to bondID) ->
  balanceOf (world l) to bondID + quantity <= int64_max ->
  Transfer from to bondID quantity c l = (Ok tt, l') ->
  holdersTotal (world l') bondID = holdersTotal (world l) bondID.
Proof. apply Transfer_conserves. Qed.

Lemma holderOfBondAt_decide (w : gmap string Value) (bondID key : string) :
  match w !! key with
  | Some (VHolder h) => Holder_BondID h = bondID
  | Some (VBond _) => False
  | None => True
  end ->
  holderOfBondAt w bondID key.
Proof.
  intros H v Hv. rewrite Hv in H. destruct v as [b | h]; [destruct H | ].
  exists h. auto.
Qed.

Lemma Transfer_keeps_total_witness :
  "alice" <> "bob" /\
  quantitiesInt64 (world aliceAndBob) /\
  nonNegative (world aliceAndBob) /\
  holderOfBondAt (world aliceAndBob) "BOND_001" (underscoreKey "alice" "BOND_001") /\
  holderOfBondAt (world aliceAndBob) "BOND_001" (underscoreKey "bob" "BOND_001") /\
  balanceOf (world aliceAndBob) "bob" "BOND_001" + 300 <= int64_max /\
  Transfer "alice" "bob" "BOND_001" 300 ctx0 aliceAndBob
    = (Ok tt, snd (Transfer "alice" "bob" "BOND_001" 300 ctx0 aliceAndBob)) /\
  holdersTotal (world (snd (Transfer "alice" "bob" "BOND_001" 300 ctx0 aliceAndBob))) "BOND_001"
    = holdersTotal (world aliceAndBob) "BOND_001".
Proof.
  assert (H1 : "alice" <> "bob") by discriminate.
  assert (H2 : quantitiesInt64 (world aliceAndBob))
    by (apply (bool_decide_unpack (map_Forall _ _)); vm_compute; exact I).
  assert (H3 : nonNegative (world aliceAndBob))
    by (apply (bool_decide_unpack (map_Forall _ _)); vm_compute; exact I).
  assert (H4 : holderOfBondAt (world aliceAndBob) "BOND_001" (underscoreKey "alice" "BOND_001"))
    by (apply holderOfBondAt_decide; vm_compute; reflexivity).
  assert (H5 : holderOfBondAt (world aliceAndBob) "BOND_001" (underscoreKey "bob" "BOND_001"))
    by (apply holderOfBondAt_decide; vm_compute; reflexivity).
  assert (H6 : balanceOf (world aliceAndBob) "bob" "BOND_001" + 300 <= int64_max)
    by (vm_compute; discriminate).
  assert (H7 : Transfer "alice" "bob" "BOND_001" 300 ctx0 aliceAndBob
               = (Ok tt, snd (Transfer "alice" "bob" "BOND_001" 300 ctx0 aliceAndBob)))
    by (vm_compute; reflexivity).
  split; [exact H1 | ]. split; [exact H2 | ]. split; [exact H3 | ].
  split; [exact H4 | ]. split; [exact H5 | ]. split; [exact H6 | ]. split; [exact H7 | ].
  exact (Transfer_keeps_total ctx0 aliceAndBob _ "alice" "bob" "BOND_001" 300
           H1 H2 H3 H4 H5 H6 H7).
Defined.

(** X13.  Nothing circulates: on every ledger that invocations of
    [IssueBond], [Transfer] and [UpdateBondStatus] bring about from the
    empty one, every balance is 0, the holder quantities of every bond add
    up to 0, and every [Transfer] fails without writing.  The only writer
    of holder documents is a successful [Transfer], which needs one to
    exist. *)
Theorem nothing_circulates (l : Ledger) :
  reachable l ->
  (forall address bondID, balanceOf (world l) address bondID = 0) /\
  (forall bondID, holdersTotal (world l) bondID = 0) /\
  (forall c from to bondID quantity,
      exists e, Transfer from to bondID quantity c l = (Err e, l)).
Proof.
  intros H. pose proof (reachable_onlyBonds l H) as Hw.
  split; [ | split].
  - intros address bondID. unfold balanceOf.
    destruct (world l !! underscoreKey address bondID) as [v|] eqn:E; [ | reflexivity].
    destruct (Hw _ _ E) as [b ->]. reflexivity.
  - intros bondID. apply holdersTotal_onlyBonds. exact Hw.
  - intros c from to bondID quantity. apply Transfer_fails_onlyBonds. exact Hw.
Qed.

Lemma nothing_circulates_witness :
  reachable issued /\
  balanceOf (world issued) "issuer" "BOND_001" = 0 /\
  holdersTotal (world issued) "BOND_001" = 0 /\
  exists e, Transfer "issuer" "investor" "BOND_001" 300 ctx0 issued = (Err e, issued).
Proof.
  assert (H1 : reachable issued).
  { apply (reachable_invoke emptyLedger issued ctx0
             (CallIssueBond "BOND_001" "issuer" "Issuer Ltd" "USD" "ISIN001" "AAA" "NONE"
                1000%float 5%float 1000 "2030-01-01")).
    - apply reachable_empty.
    - vm_compute; reflexivity. }
  pose proof (nothing_circulates issued H1) as (Ha & Hb & Hc).
  split; [exact H1 | ]. split; [apply Ha | ]. split; [apply Hb | apply Hc].
Defined.

(** X14.  [IssueBond] writes nothing when it fails: whatever the error, the
    ledger it returns is the one it was given.  With no bond stored under
    the identifier, it fails with "invalid maturity date format" when the
    date is not a calendar day written YYYY-MM-DD, and with "failed to
    marshal bond" when the face value or the coupon rate is NaN or
    infinite. *)
Theorem IssueBond_fails_cleanly (c : Ctx) (l : Ledger)
    (bondID issuerID issuerName currency isin rating collateral : string)
    (faceValue couponRate : float) (totalSupply : Z) (maturityDateStr : string) :
  (forall e l',
      IssueBond bondID issuerID issuerName currency isin rating collateral
        faceValue couponRate totalSupply maturityDateStr c l = (Err e, l') ->
      l' = l) /\
  (world l !! bondID = None ->
   parseDate maturityDateStr = None ->
   IssueBond bondID issuerID issuerName currency isin rating collateral
     faceValue couponRate totalSupply maturityDateStr c l
   = (Err (InvalidMaturityDate maturityDateStr), l)) /\
  (world l !! bondID = None ->
   parseDate maturityDateStr <> None ->
   json_float_ok faceValue && json_float_ok couponRate = false ->
   IssueBond bondID issuerID issuerName currency isin rating collateral
     faceValue couponRate totalSupply maturityDateStr c l
   = (Err FailedToMarshalBond, l)).
Proof.
  unfold IssueBond, BondExists, marshalBond. tx_unfold.
  split; [ | split].
  - intros e l'. destruct (world l !! bondID); [congruence | ].
    destruct (parseDate maturityDateStr); [ | congruence].
    cbn [Bond_FaceValue Bond_CouponRate].
    destruct (json_float_ok faceValue && json_float_ok couponRate); [discriminate | congruence].
  - intros Hb Hd. rewrite Hb, Hd. reflexivity.
  - intros Hb Hd Hf. rewrite Hb.
    destruct (parseDate maturityDateStr); [ | contradiction].
    cbn [Bond_FaceValue Bond_CouponRate]. rewrite Hf. reflexivity.
Qed.

Lemma IssueBond_fails_cleanly_witness :
  world issued !! "BOND_002" = None /\
  parseDate "2030-02-30" = None /\
  IssueBond "BOND_002" "issuer" "Issuer Ltd" "USD" "ISIN002" "AA" "NONE"
    1000%float 5%float 1000 "2030-02-30" ctx0 issued
  = (Err (InvalidMaturityDate "2030-02-30"), issued).
Proof.
  assert (H1 : world issued !! "BOND_002" = None) by (vm_compute; reflexivity).
  assert (H2 : parseDate "2030-02-30" = None) by reflexivity.
  split; [exact H1 | ]. split; [exact H2 | ].
  exact (proj1 (proj2 (IssueBond_fails_cleanly ctx0 issued "BOND_002" "issuer" "Issuer Ltd"
                         "USD" "ISIN002" "AA" "NONE" 1000%float 5%float 1000 "2030-02-30"))
           H1 H2).
Defined.

(** X15.  What [IssueBond] stores is what [GetBond] reads back, the strings
    given being valid UTF-8: after a successful issuance [BondExists]
    answers true, [GetBond] returns the bond with the fields given, the
    whole supply available and status ACTIVE, and every further
    [IssueBond] under the identifier fails with "bond ... already exists"
    and writes nothing. *)
Theorem IssueBond_then_GetBond (c c' : Ctx) (l : Ledger)
    (bondID issuerID issuerName currency isin rating collateral : string)
    (faceValue couponRate : float) (totalSupply : Z) (maturityDateStr : string)
    (maturityDate : Time) :
  forallb validUTF8 [bondID; issuerID; issuerName; currency; isin; rating; collateral]
    = true ->
  world l !! bondID = None ->
  parseDate maturityDateStr = Some maturityDate ->
  json_float_ok faceValue = true ->
  json_float_ok couponRate = true ->
  exists l',
    IssueBond bondID issuerID issuerName currency isin rating collateral
      faceValue couponRate totalSupply maturityDateStr c l = (Ok tt, l') /\
    BondExists bondID c' l' = (Ok true, l') /\
    GetBond bondID c' l'
      = (Ok (mkBond bondID issuerID issuerName faceValue couponRate maturityDate (now c)
               totalSupply totalSupply "ACTIVE" currency isin rating collateral), l') /\
    (forall issuerID' issuerName' currency' isin' rating' collateral'
            faceValue' couponRate' totalSupply' maturityDateStr',
        IssueBond bondID issuerID' issuerName' currency' isin' rating' collateral'
          faceValue' couponRate' totalSupply' maturityDateStr' c' l'
        = (Err (BondAlreadyExists bondID), l')).
Proof.
  intros _ Hb Hd Hf Hr. eexists.
  split; [apply IssueBond_success; eassumption | ].
  split; [ | split].
  - unfold BondExists. tx_unfold. cbn [world]. rewrite lookup_insert_eq. reflexivity.
  - unfold GetBond. tx_unfold. cbn [world]. rewrite lookup_insert_eq. reflexivity.
  - intros. apply IssueBond_existing. cbn [world]. rewrite lookup_insert_eq. eexists. reflexivity.
Qed.

Lemma IssueBond_then_GetBond_witness :
  forallb validUTF8 [longBondID; "issuer"; "Issuer Ltd"; "USD"; "ISIN002"; "AA"; "NONE"]
    = true /\
  world issued !! longBondID = None /\
  parseDate "2030-12-31" = Some (mkTime 2030 12 31 0) /\
  json_float_ok 500%float = true /\
  json_float_ok 4%float = true /\
  exists l',
    IssueBond longBondID "issuer" "Issuer Ltd" "USD" "ISIN002" "AA" "NONE"
      500%float 4%float 2000 "2030-12-31" ctx0 issued = (Ok tt, l') /\
    BondExists longBondID ctx0 l' = (Ok true, l') /\
    GetBond longBondID ctx0 l'
      = (Ok (mkBond longBondID "issuer" "Issuer Ltd" 500%float 4%float (mkTime 2030 12 31 0)
               (now ctx0) 2000 2000 "ACTIVE" "USD" "ISIN002" "AA" "NONE"), l') /\
    (forall issuerID' issuerName' currency' isin' rating' collateral'
            faceValue' couponRate' totalSupply' maturityDateStr',
        IssueBond longBondID issuerID' issuerName' currency' isin' rating' collateral'
          faceValue' couponRate' totalSupply' maturityDateStr' ctx0 l'
        = (Err (BondAlreadyExists longBondID), l')).
Proof.
  assert (H1 : world issued !! longBondID = None) by (vm_compute; reflexivity).
  assert (H2 : parseDate "2030-12-31" = Some (mkTime 2030 12 31 0)) by reflexivity.
  assert (H3 : json_float_ok 500%float = true) by reflexivity.
  assert (H4 : json_float_ok 4%float = true) by reflexivity.
  assert (H0 : forallb validUTF8
                 [longBondID; "issuer"; "Issuer Ltd"; "USD"; "ISIN002"; "AA"; "NONE"]
               = true) by reflexivity.
  split; [exact H0 | ].
  split; [exact H1 | ]. split; [exact H2 | ]. split; [exact H3 | ]. split; [exact H4 | ].
  exact (IssueBond_then_GetBond ctx0 ctx0 issued longBondID "issuer" "Issuer Ltd" "USD"
           "ISIN002" "AA" "NONE" 500%float 4%float 2000 "2030-12-31" _ H0 H1 H2 H3 H4).
Defined.

Lemma UpdateBondStatus_success (c : Ctx) (l : Ledger) (bondID newStatus : string)
    (v : Value) :
  world l !! bondID = Some v ->
  json_float_ok (Bond_FaceValue (unmarshalBond v))
    && json_float_ok (Bond_CouponRate (unmarshalBond v)) = true ->
  UpdateBondStatus bondID newStatus c l
    = (Ok tt,
       mkLedger (<[bondID := VBond (withStatus newStatus (unmarshalBond v))]> (world l))
                (events l)).
Proof.
  intros Hv Hf. unfold UpdateBondStatus, GetBond, marshalBond, withStatus. tx_unfold.
  rewrite Hv. cbn [Bond_FaceValue Bond_CouponRate]. rewrite Hf.
  destruct l; reflexivity.
Qed.

(** X16.  [UpdateBondStatus] fails with the NotFound error of [GetBond] on
    a missing bond, writing nothing.  On a stored bond it succeeds for
    every new status, from every old one: no event is emitted, no other
    key is touched and, the new status being valid UTF-8, [GetBond]
    afterwards returns the bond with the new status and every other field
    as it was. *)
Theorem UpdateBondStatus_replaces_status_only (c c' : Ctx) (l : Ledger)
    (bondID newStatus : string) :
  (world l !! bondID = None ->
   UpdateBondStatus bondID newStatus c l
     = (Err (FailedToGetBond (BondDoesNotExist bondID)), l)) /\
  (forall b,
      world l !! bondID = Some (VBond b) ->
      json_float_ok (Bond_FaceValue b) && json_float_ok (Bond_CouponRate b) = true ->
      exists l',
        UpdateBondStatus bondID newStatus c l = (Ok tt, l') /\
        events l' = events l /\
        (forall k, k <> bondID -> world l' !! k = world l !! k) /\
        (validUTF8 newStatus = true ->
         GetBond bondID c' l' = (Ok (withStatus newStatus b), l'))).
Proof.
  split.
  - intros Hb. unfold UpdateBondStatus, GetBond. tx_unfold. rewrite Hb. reflexivity.
  - intros b Hb Hf. eexists.
    split; [apply (UpdateBondStatus_success c l bondID newStatus (VBond b)); assumption | ].
    split; [reflexivity | split].
    + intros k Hk. cbn [world]. apply lookup_insert_ne. congruence.
    + intros _. unfold GetBond. tx_unfold. cbn [world]. rewrite lookup_insert_eq.
      reflexivity.
Qed.

Lemma UpdateBondStatus_replaces_status_only_witness :
  world issued !! "BOND_001" = Some (VBond bond1) /\
  json_float_ok (Bond_FaceValue bond1) && json_float_ok (Bond_CouponRate bond1) = true /\
  validUTF8 "DEFAULTED" = true /\
  exists l',
    UpdateBondStatus "BOND_001" "DEFAULTED" ctx0 issued = (Ok tt, l') /\
    events l' = events issued /\
    (forall k, k <> "BOND_001" -> world l' !! k = world issued !! k) /\
    GetBond "BOND_001" ctx0 l' = (Ok (withStatus "DEFAULTED" bond1), l').
Proof.
  assert (H1 : world issued !! "BOND_001" = Some (VBond bond1)) by (vm_compute; reflexivity).
  assert (H2 : json_float_ok (Bond_FaceValue bond1) && json_float_ok (Bond_CouponRate bond1)
               = true) by reflexivity.
  assert (H3 : validUTF8 "DEFAULTED" = true) by reflexivity.
  split; [exact H1 | ]. split; [exact H2 | ]. split; [exact H3 | ].
  destruct (proj2 (UpdateBondStatus_replaces_status_only ctx0 ctx0 issued "BOND_001"
                     "DEFAULTED") bond1 H1 H2) as (l' & Hrun & Hev & Hk & Hget).
  exists l'. split; [exact Hrun | ]. split; [exact Hev | ]. split; [exact Hk | ].
  exact (Hget H3).
Defined.

(** X17.  [UpdateBondStatus] does not check that the document under the
    key is a bond.  Called with the key of a holder document it succeeds:
    the JSON of a holder decodes into a [Bond] with every field at its
    zero value, which is written back with the status; the holder's
    balance is then 0. *)
Theorem UpdateBondStatus_erases_a_holder (c : Ctx) (l : Ledger)
    (address bondID newStatus : string) (h : TokenHolder) :
  world l !! underscoreKey address bondID = Some (VHolder h) ->
  exists l',
    UpdateBondStatus (underscoreKey address bondID) newStatus c l = (Ok tt, l') /\
    world l' !! underscoreKey address bondID
      = Some (VBond (mkBond "" "" "" 0%float 0%float zeroTime zeroTime 0 0 newStatus
                       "" "" "" "")) /\
    balanceOf (world l') address bondID = 0.
Proof.
  intros Hh. eexists.
  split; [apply (UpdateBondStatus_success c l _ newStatus (VHolder h)); [exact Hh | reflexivity] | ].
  unfold balanceOf. cbn [world]. rewrite lookup_insert_eq. split; reflexivity.
Qed.

Lemma UpdateBondStatus_erases_a_holder_witness :
  world aliceAndBob !! underscoreKey "alice" "BOND_001" = Some (VHolder (holderOf "alice" 1000)) /\
  balanceOf (world aliceAndBob) "alice" "BOND_001" = 1000 /\
  exists l',
    UpdateBondStatus (underscoreKey "alice" "BOND_001") "MATURED" ctx0 aliceAndBob
      = (Ok tt, l') /\
    world l' !! underscoreKey "alice" "BOND_001"
      = Some (VBond (mkBond "" "" "" 0%float 0%float zeroTime zeroTime 0 0 "MATURED"
                       "" "" "" "")) /\
    balanceOf (world l') "alice" "BOND_001" = 0.
Proof.
  assert (H1 : world aliceAndBob !! underscoreKey "alice" "BOND_001"
               = Some (VHolder (holderOf "alice" 1000))) by (vm_compute; reflexivity).
  split; [exact H1 | ]. split; [vm_compute; reflexivity | ].
  exact (UpdateBondStatus_erases_a_holder ctx0 aliceAndBob "alice" "BOND_001" "MATURED" _ H1).
Defined.

End BondTokenMore.

(** ** More of the Compliance contract *)

Module ComplianceMore.
Import Compliance ComplianceSpec ComplianceFacts ComplianceListings.
Import StringFacts.

(** The key of a check is never the key of the KYC record of its address,
    and the keys of two types of different lengths differ. *)
Lemma checkKey_neq_address (address checkType : string) :
  underscoreKey address checkType <> address.
Proof.
  intros H. apply (f_equal String.length) in H.
  rewrite underscoreKey_length in H. lia.
Qed.

Lemma checkKey_neq (address t t' : string) :
  String.length t <> String.length t' ->
  underscoreKey address t <> underscoreKey address t'.
Proof.
  intros Hl H. apply (f_equal String.length) in H.
  rewrite !underscoreKey_length in H. lia.
Qed.

Lemma amlFailedb_insert_other (w : gmap string Value) (k : string) (v : Value)
    (address checkType : string) :
  k <> underscoreKey address checkType ->
  amlFailedb (<[k := v]> w) address checkType = amlFailedb w address checkType.
Proof.
  intros H. unfold amlFailedb, amlOf. rewrite lookup_insert_ne by exact H. reflexivity.
Qed.

Lemma gate_of_kyc (w : gmap string Value) (address : string) (k : KYCRecord) :
  complianceGate (<[address := VKYC k]> w) address
  = if String.eqb (KYC_Status k) "APPROVED" then
      if amlFailedb w address "SANCTIONS" then (false, "Sanctions check failed")
      else if amlFailedb w address "PEP" then (false, "PEP check failed")
      else (true, "Compliant")
    else (false, "KYC status: " +:+ KYC_Status k).
Proof.
  unfold complianceGate, kycOf. rewrite lookup_insert_eq. cbn [fmap option_fmap option_map unmarshalKYC].
  rewrite !amlFailedb_insert_other by (apply not_eq_sym, checkKey_neq_address).
  reflexivity.
Qed.

(** X18.  The life of a KYC record as the gate sees it.  For an address
    with nothing stored under it, [CreateKYC] succeeds and
    [CheckCompliance] then answers (false, "KYC status: PENDING"); after
    [RejectKYC] it answers (false, "KYC status: REJECTED"); after
    [ApproveKYC] it answers (true, "Compliant") when neither the SANCTIONS
    nor the PEP check of the address is FAILED. *)
Theorem KYC_lifecycle_through_the_gate (c1 c2 c3 : Ctx) (l : Ledger)
    (address fullName dateOfBirth nationality idType idNumber : string) :
  world l !! address = None ->
  exists l1,
    CreateKYC address fullName dateOfBirth nationality idType idNumber c1 l = (Ok tt, l1) /\
    fst (CheckCompliance address c3 l1) = Ok (false, "KYC status: PENDING") /\
    (forall rejectedBy reason,
        exists l2,
          RejectKYC address rejectedBy reason c2 l1 = (Ok tt, l2) /\
          fst (CheckCompliance address c3 l2) = Ok (false, "KYC status: REJECTED")) /\
    (forall approvedBy riskLevel,
        ~ amlFailed (world l) address "SANCTIONS" ->
        ~ amlFailed (world l) address "PEP" ->
        exists l2,
          ApproveKYC address approvedBy riskLevel c2 l1 = (Ok tt, l2) /\
          fst (CheckCompliance address c3 l2) = Ok (true, "Compliant")).
Proof.
  intros Hnone. eexists. split.
  { unfold CreateKYC, KYCExists, marshalKYC. tx_unfold. rewrite Hnone. reflexivity. }
  split; [rewrite CheckCompliance_run; cbn [fst world]; rewrite gate_of_kyc; reflexivity | ].
  split.
  - intros rejectedBy reason. eexists. split.
    + eapply RejectKYC_success; cbn [world]; [apply lookup_insert_eq | reflexivity].
    + rewrite CheckCompliance_run. cbn [fst world]. rewrite gate_of_kyc. reflexivity.
  - intros approvedBy riskLevel Hs Hp. eexists. split.
    + eapply ApproveKYC_success. cbn [world]. apply lookup_insert_eq.
    + rewrite CheckCompliance_run. cbn [fst world]. rewrite gate_of_kyc.
      cbn [KYC_Status].
      change (String.eqb "APPROVED" "APPROVED") with true. cbn iota.
      rewrite !amlFailedb_insert_other by (apply not_eq_sym, checkKey_neq_address).
      rewrite (amlFailedb_false _ _ _ Hs), (amlFailedb_false _ _ _ Hp). reflexivity.
Qed.

Lemma KYC_lifecycle_through_the_gate_witness :
  world (emptyLedger : Ledger) !! "alice" = None /\
  exists l1,
    CreateKYC "alice" "Alice Johnson" "1990-01-01" "US" "PASSPORT" "US123456"
      ctx0 emptyLedger = (Ok tt, l1) /\
    fst (CheckCompliance "alice" ctx0 l1) = Ok (false, "KYC status: PENDING") /\
    (forall rejectedBy reason,
        exists l2,
          RejectKYC "alice" rejectedBy reason ctx0 l1 = (Ok tt, l2) /\
          fst (CheckCompliance "alice" ctx0 l2) = Ok (false, "KYC status: REJECTED")) /\
    (forall approvedBy riskLevel,
        ~ amlFailed (world (emptyLedger : Ledger)) "alice" "SANCTIONS" ->
        ~ amlFailed (world (emptyLedger : Ledger)) "alice" "PEP" ->
        exists l2,
          ApproveKYC "alice" approvedBy riskLevel ctx0 l1 = (Ok tt, l2) /\
          fst (CheckCompliance "alice" ctx0 l2) = Ok (true, "Compliant")).
Proof.
  assert (H1 : world (emptyLedger : Ledger) !! "alice" = None) by reflexivity.
  split; [exact H1 | ].
  exact (KYC_lifecycle_through_the_gate ctx0 ctx0 ctx0 emptyLedger "alice" "Alice Johnson"
           "1990-01-01" "US" "PASSPORT" "US123456" H1).
Defined.



Lemma UpdateAMLCheck_success (c : Ctx) (l : Ledger) (address checkType status : string)
    (riskScore : Z) (details : string) (v : Value) :
  world l !! underscoreKey address checkType = Some v ->
  UpdateAMLCheck address checkType status riskScore details c l
    = (Ok tt,
       mkLedger
         (<[underscoreKey address checkType :=
              VAML (mkAMLCheck (AML_Address (unmarshalAML v)) (AML_CheckType (unmarshalAML v))
                      status riskScore (now c) (AML_ExpiryDate (unmarshalAML v)) details
                      (AML_CheckedBy (unmarshalAML v)))]> (world l))
         (events l ++ [("AMLEvent",
                        mkComplianceEvent "AML_CHECK_UPDATED" address
                          ("AML check updated for " +:+ address +:+ ": " +:+ checkType
                             +:+ " - " +:+ status) (now c) (txID c))])).
Proof.
  intros Hv. unfold UpdateAMLCheck, marshalAML. tx_unfold. rewrite Hv. reflexivity.
Qed.

(** X20.  [UpdateAMLCheck] fails with "AML check ... does not exist" and
    writes nothing when no check is stored for the address and type.  On a
    stored check it succeeds with any status string and touches no other
    key; the status and details being valid UTF-8, [GetAMLCheck] then
    returns the check with the status, risk score and details given and
    the time of the call, its address, type, expiry and checker being what
    they were. *)
Theorem UpdateAMLCheck_replaces_the_assessment (c c' : Ctx) (l : Ledger)
    (address checkType status : string) (riskScore : Z) (details : string) :
  (world l !! underscoreKey address checkType = None ->
   UpdateAMLCheck address checkType status riskScore details c l
     = (Err (AMLCheckDoesNotExist (underscoreKey address checkType)), l)) /\
  (forall a,
      world l !! underscoreKey address checkType = Some (VAML a) ->
      exists l',
        UpdateAMLCheck address checkType status riskScore details c l = (Ok tt, l') /\
        (forall k, k <> underscoreKey address checkType -> world l' !! k = world l !! k) /\
        (validUTF8 status = true ->
         validUTF8 details = true ->
         GetAMLCheck (underscoreKey address checkType) c' l'
           = (Ok (mkAMLCheck (AML_Address a) (AML_CheckType a) status riskScore (now c)
                    (AML_ExpiryDate a) details (AML_CheckedBy a)), l'))).
Proof.
  split.
  - intros Hn. unfold UpdateAMLCheck. tx_unfold. rewrite Hn. reflexivity.
  - intros a Ha. eexists.
    split; [apply (UpdateAMLCheck_success c l _ _ _ _ _ (VAML a)); exact Ha | ].
    split.
    + intros k Hk. cbn [world]. apply lookup_insert_ne. congruence.
    + intros _ _. unfold GetAMLCheck. tx_unfold. cbn [world]. rewrite lookup_insert_eq.
      reflexivity.
Qed.

Lemma UpdateAMLCheck_replaces_the_assessment_witness :
  world sanctionedAlice !! underscoreKey "alice" "SANCTIONS"
    = Some (VAML (mkAMLCheck "alice" "SANCTIONS" "FAILED" 90 (now ctx0)
                    (mkTime 2024 12 1 0) "listed" "SYSTEM")) /\
  validUTF8 "PASSED" = true /\
  validUTF8 "cleared" = true /\
  exists l',
    UpdateAMLCheck "alice" "SANCTIONS" "PASSED" 5 "cleared" ctx0 sanctionedAlice = (Ok tt, l') /\
    (forall k, k <> underscoreKey "alice" "SANCTIONS" ->
               world l' !! k = world sanctionedAlice !! k) /\
    GetAMLCheck (underscoreKey "alice" "SANCTIONS") ctx0 l'
      = (Ok (mkAMLCheck "alice" "SANCTIONS" "PASSED" 5 (now ctx0)
               (mkTime 2024 12 1 0) "cleared" "SYSTEM"), l').
Proof.
  assert (H1 : world sanctionedAlice !! underscoreKey "alice" "SANCTIONS"
    = Some (VAML (mkAMLCheck "alice" "SANCTIONS" "FAILED" 90 (now ctx0)
                    (mkTime 2024 12 1 0) "listed" "SYSTEM")))
    by (vm_compute; reflexivity).
  assert (H2 : validUTF8 "PASSED" = true) by reflexivity.
  assert (H3 : validUTF8 "cleared" = true) by reflexivity.
  split; [exact H1 | ]. split; [exact H2 | ]. split; [exact H3 | ].
  destruct (proj2 (UpdateAMLCheck_replaces_the_assessment ctx0 ctx0 sanctionedAlice
                     "alice" "SANCTIONS" "PASSED" 5 "cleared") _ H1)
    as (l' & Hrun & Hk & Hget).
  exists l'. split; [exact Hrun | ]. split; [exact Hk | exact (Hget H2 H3)].
Defined.

(** X21.  Only the exact status FAILED blocks.  For an address whose KYC is
    APPROVED and which has a SANCTIONS check, after [UpdateAMLCheck] of
    that check to FAILED [CheckCompliance] answers (false, "Sanctions
    check failed"); after an update to any other status string it answers
    (true, "Compliant") when the PEP check is not FAILED. *)
Theorem only_FAILED_blocks (c c' : Ctx) (l : Ledger) (address status : string)
    (riskScore : Z) (details : string) (kyc : KYCRecord) (a : AMLCheck) :
  kycOf (world l) address = Some kyc ->
  KYC_Status kyc = "APPROVED" ->
  world l !! underscoreKey address "SANCTIONS" = Some (VAML a) ->
  exists l',
    UpdateAMLCheck address "SANCTIONS" status riskScore details c l = (Ok tt, l') /\
    (status = "FAILED" ->
     fst (CheckCompliance address c' l') = Ok (false, "Sanctions check failed")) /\
    (status <> "FAILED" ->
     ~ amlFailed (world l) address "PEP" ->
     fst (CheckCompliance address c' l') = Ok (true, "Compliant")).
Proof.
  intros Hk Hs Ha. eexists.
  split; [apply (UpdateAMLCheck_success c l _ _ _ _ _ (VAML a)); exact Ha | ].
  rewrite CheckCompliance_run. cbn [fst world].
  unfold complianceGate. unfold kycOf in Hk |- *.
  rewrite lookup_insert_ne by apply checkKey_neq_address.
  rewrite Hk. apply String.eqb_eq in Hs. rewrite Hs.
  assert (E1 : amlFailedb
                 (<[underscoreKey address "SANCTIONS" :=
                      VAML (mkAMLCheck (AML_Address (unmarshalAML (VAML a)))
                              (AML_CheckType (unmarshalAML (VAML a))) status riskScore (now c)
                              (AML_ExpiryDate (unmarshalAML (VAML a))) details
                              (AML_CheckedBy (unmarshalAML (VAML a))))]> (world l))
                 address "SANCTIONS" = String.eqb status "FAILED").
  { unfold amlFailedb, amlOf. rewrite lookup_insert_eq. reflexivity. }
  rewrite E1. split.
  - intros ->. reflexivity.
  - intros Hne Hp. apply String.eqb_neq in Hne. rewrite Hne.
    rewrite amlFailedb_insert_other by (apply checkKey_neq; cbn; lia).
    rewrite (amlFailedb_false _ _ _ Hp). reflexivity.
Qed.

Lemma only_FAILED_blocks_witness :
  kycOf (world sanctionedAlice) "alice"
    = Some (mkKYCRecord "alice" "Alice Johnson" "1990-01-01" "US" "PASSPORT" "US123456"
              "APPROVED" "LOW" "admin" (now ctx0) (now ctx0) (now ctx0) (Some ∅)) /\
  world sanctionedAlice !! underscoreKey "alice" "SANCTIONS"
    = Some (VAML (mkAMLCheck "alice" "SANCTIONS" "FAILED" 90 (now ctx0)
                    (mkTime 2024 12 1 0) "listed" "SYSTEM")) /\
  "Failed" <> "FAILED" /\
  ~ amlFailed (world sanctionedAlice) "alice" "PEP" /\
  exists l',
    UpdateAMLCheck "alice" "SANCTIONS" "Failed" 95 "listed twice" ctx0 sanctionedAlice
      = (Ok tt, l') /\
    fst (CheckCompliance "alice" ctx0 l') = Ok (true, "Compliant").
Proof.
  assert (H1 : kycOf (world sanctionedAlice) "alice"
    = Some (mkKYCRecord "alice" "Alice Johnson" "1990-01-01" "US" "PASSPORT" "US123456"
              "APPROVED" "LOW" "admin" (now ctx0) (now ctx0) (now ctx0) (Some ∅)))
    by (vm_compute; reflexivity).
  assert (H2 : world sanctionedAlice !! underscoreKey "alice" "SANCTIONS"
    = Some (VAML (mkAMLCheck "alice" "SANCTIONS" "FAILED" 90 (now ctx0)
                    (mkTime 2024 12 1 0) "listed" "SYSTEM")))
    by (vm_compute; reflexivity).
  assert (H3 : "Failed" <> "FAILED") by discriminate.
  assert (H4 : ~ amlFailed (world sanctionedAlice) "alice" "PEP").
  { intros (chk & Hc & _). vm_compute in Hc. discriminate Hc. }
  split; [exact H1 | ]. split; [exact H2 | ]. split; [exact H3 | ]. split; [exact H4 | ].
  destruct (only_FAILED_blocks ctx0 ctx0 sanctionedAlice "alice" "Failed" 95 "listed twice"
              _ _ H1 eq_refl H2) as (l' & Hrun & _ & Hok).
  exists l'. split; [exact Hrun | exact (Hok H3 H4)].
Defined.

(** X22.  The key of an AML check, address_checkType, is also the key of
    the KYC record of the address spelled address_checkType, and the two
    documents share the JSON names "address" and "status".  After
    [CreateAMLCheck] for an address and a type, whatever was stored,
    [CheckCompliance] of the address address_checkType answers
    (false, "KYC status: PENDING") and, the address of the check being
    valid UTF-8, [GetKYC] of it returns a record with the address of the
    check, status PENDING and nothing else. *)
Theorem CreateAMLCheck_overwrites_the_KYC_under_its_key (c c' : Ctx) (l : Ledger)
    (address checkType : string) (riskScore : Z) (details : string) :
  exists l',
    CreateAMLCheck address checkType riskScore details c l = (Ok tt, l') /\
    CheckCompliance (underscoreKey address checkType) c' l'
      = (Ok (false, "KYC status: PENDING"), l') /\
    (validUTF8 address = true ->
     GetKYC (underscoreKey address checkType) c' l'
       = (Ok (mkKYCRecord address "" "" "" "" "" "PENDING" "" "" zeroTime zeroTime
                zeroTime None), l')).
Proof.
  eexists. split; [apply CreateAMLCheck_run | ]. split.
  - rewrite CheckCompliance_run. cbn [world].
    unfold complianceGate, kycOf. rewrite lookup_insert_eq. reflexivity.
  - intros _. unfold GetKYC. tx_unfold. cbn [world]. rewrite lookup_insert_eq. reflexivity.
Qed.

Lemma CreateAMLCheck_overwrites_the_KYC_under_its_key_witness :
  validUTF8 "bob" = true /\
  kycStatus (world (snd (CreateKYC "bob_PEP" "Bob Pep" "1985-05-05" "FR" "ID" "FR1"
                           ctx0 emptyLedger))) "bob_PEP" = Some "PENDING" /\
  exists l',
    CreateAMLCheck "bob" "PEP" 20 "screening" ctx0
      (snd (ApproveKYC "bob_PEP" "admin" "LOW" ctx0
              (snd (CreateKYC "bob_PEP" "Bob Pep" "1985-05-05" "FR" "ID" "FR1"
                      ctx0 emptyLedger)))) = (Ok tt, l') /\
    CheckCompliance "bob_PEP" ctx0 l' = (Ok (false, "KYC status: PENDING"), l') /\
    GetKYC "bob_PEP" ctx0 l'
      = (Ok (mkKYCRecord "bob" "" "" "" "" "" "PENDING" "" "" zeroTime zeroTime
               zeroTime None), l').
Proof.
  assert (H1 : validUTF8 "bob" = true) by reflexivity.
  split; [exact H1 | ]. split; [vm_compute; reflexivity | ].
  destruct (CreateAMLCheck_overwrites_the_KYC_under_its_key ctx0 ctx0
              (snd (ApproveKYC "bob_PEP" "admin" "LOW" ctx0
                      (snd (CreateKYC "bob_PEP" "Bob Pep" "1985-05-05" "FR" "ID" "FR1"
                              ctx0 emptyLedger))))
              "bob" "PEP" 20 "screening") as (l' & Hrun & Hgate & Hget).
  exists l'. split; [exact Hrun | ]. split; [exact Hgate | exact (Hget H1)].
Defined.

End ComplianceMore.

(** ** More of the CorporateAction contract *)

Module CorporateActionMore.
Import CorporateAction CorporateActionSpec CorporateActionQueries CorporateActionFacts.

Lemma CreateCouponPayment_success (c : Ctx) (l : Ledger) (bondID dateStr : string)
    (amount : float) (date : Time) :
  parseDate dateStr = Some date ->
  json_float_ok amount = true ->
  CreateCouponPayment bondID dateStr amount c l
    = (Ok tt,
       mkLedger
         (<[couponIDOf c bondID :=
              VCoupon (mkCouponPayment (couponIDOf c bondID) bondID date amount
                         "PENDING" zeroTime "" (Some ∅))]> (world l))
         (events l ++ [("CorporateActionEvent",
                        mkCorporateActionEvent "COUPON_PAYMENT_CREATED" bondID
                          ("Coupon payment created for bond " +:+ bondID) amount
                          (now c) (txID c))])).
Proof.
  intros Hd Hf. unfold CreateCouponPayment, marshalCoupon, marshalEvent, couponIDOf.
  tx_unfold. rewrite Hd. cbn [Coupon_Amount Event_Amount]. rewrite Hf. reflexivity.
Qed.

(** X23.  The life of a coupon payment.  With a bond identifier and a
    transaction identifier of the processing that are valid UTF-8, a
    payment date that parses and an amount JSON can carry,
    [CreateCouponPayment] succeeds on every ledger; under the identifier COUPON_<bondID>_<today> [GetCouponPayment]
    then returns the PENDING record with the bond, date and amount given;
    [ProcessCouponPayment] of that identifier succeeds, after which
    [GetCouponPayment] returns the same record with status PAID, the time
    and the transaction of the processing. *)
Theorem coupon_lifecycle (c c' c'' : Ctx) (l : Ledger) (bondID dateStr : string)
    (amount : float) (date : Time) :
  validUTF8 bondID = true ->
  validUTF8 (txID c') = true ->
  parseDate dateStr = Some date ->
  json_float_ok amount = true ->
  exists l1 l2,
    CreateCouponPayment bondID dateStr amount c l = (Ok tt, l1) /\
    GetCouponPayment (couponIDOf c bondID) c' l1
      = (Ok (mkCouponPayment (couponIDOf c bondID) bondID date amount
               "PENDING" zeroTime "" (Some ∅)), l1) /\
    ProcessCouponPayment (couponIDOf c bondID) c' l1 = (Ok tt, l2) /\
    GetCouponPayment (couponIDOf c bondID) c'' l2
      = (Ok (mkCouponPayment (couponIDOf c bondID) bondID date amount
               "PAID" (now c') (txID c') (Some ∅)), l2).
Proof.
  intros _ _ Hd Hf. eexists. eexists.
  split; [apply CreateCouponPayment_success; eassumption | ].
  split.
  { unfold GetCouponPayment. tx_unfold. cbn [world]. rewrite lookup_insert_eq. reflexivity. }
  split.
  { eapply ProcessCouponPayment_success.
    - cbn [world]. apply lookup_insert_eq.
    - reflexivity.
    - exact Hf. }
  unfold GetCouponPayment. tx_unfold. cbn [world]. rewrite lookup_insert_eq. reflexivity.
Qed.

Lemma coupon_lifecycle_witness :
  validUTF8 "BOND_001" = true /\
  validUTF8 (txID ctx1) = true /\
  parseDate "2024-12-01" = Some (mkTime 2024 12 1 0) /\
  json_float_ok 60%float = true /\
  exists l1 l2,
    CreateCouponPayment "BOND_001" "2024-12-01" 60%float ctx0 emptyLedger = (Ok tt, l1) /\
    GetCouponPayment (couponIDOf ctx0 "BOND_001") ctx1 l1
      = (Ok (mkCouponPayment (couponIDOf ctx0 "BOND_001") "BOND_001" (mkTime 2024 12 1 0)
               60%float "PENDING" zeroTime "" (Some ∅)), l1) /\
    ProcessCouponPayment (couponIDOf ctx0 "BOND_001") ctx1 l1 = (Ok tt, l2) /\
    GetCouponPayment (couponIDOf ctx0 "BOND_001") ctx2 l2
      = (Ok (mkCouponPayment (couponIDOf ctx0 "BOND_001") "BOND_001" (mkTime 2024 12 1 0)
               60%float "PAID" (now ctx1) (txID ctx1) (Some ∅)), l2).
Proof.
  assert (H1 : parseDate "2024-12-01" = Some (mkTime 2024 12 1 0)) by reflexivity.
  assert (H2 : json_float_ok 60%float = true) by reflexivity.
  assert (H0 : validUTF8 "BOND_001" = true) by reflexivity.
  assert (H0' : validUTF8 (txID ctx1) = true) by reflexivity.
  split; [exact H0 | ]. split; [exact H0' | ]. split; [exact H1 | ]. split; [exact H2 | ].
  exact (coupon_lifecycle ctx0 ctx1 ctx2 emptyLedger "BOND_001" "2024-12-01" 60%float
           _ H0 H0' H1 H2).
Defined.

(** X24.  [CreateCouponPayment] and [CreateRedemption] write nothing when
    they fail: whatever the error, the ledger returned is the one given.
    They fail with the invalid-date error when the date is not a calendar
    day written YYYY-MM-DD, and with the marshalling error when the date
    parses and the amount is NaN or infinite. *)
Theorem Create_fails_cleanly (c : Ctx) (l : Ledger) (bondID dateStr : string)
    (amount : float) :
  (forall e l',
      CreateCouponPayment bondID dateStr amount c l = (Err e, l') \/
      CreateRedemption bondID dateStr amount c l = (Err e, l') ->
      l' = l) /\
  (parseDate dateStr = None ->
   CreateCouponPayment bondID dateStr amount c l = (Err (InvalidPaymentDate dateStr), l) /\
   CreateRedemption bondID dateStr amount c l = (Err (InvalidRedemptionDate dateStr), l)) /\
  (parseDate dateStr <> None ->
   json_float_ok amount = false ->
   CreateCouponPayment bondID dateStr amount c l = (Err FailedToMarshalCoupon, l) /\
   CreateRedemption bondID dateStr amount c l = (Err FailedToMarshalRedemption, l)).
Proof.
  unfold CreateCouponPayment, CreateRedemption, marshalCoupon, marshalRedemption, marshalEvent.
  tx_unfold. cbn [Coupon_Amount Redemption_Amount Event_Amount].
  split; [ | split].
  - intros e l'. destruct (parseDate dateStr); [ | intros [H | H]; congruence].
    destruct (json_float_ok amount); intros [H | H]; congruence.
  - intros Hd. rewrite Hd. split; reflexivity.
  - intros Hd Hf. destruct (parseDate dateStr); [ | contradiction].
    rewrite Hf. split; reflexivity.
Qed.

Lemma Create_fails_cleanly_witness :
  parseDate "2024-06-01" <> None /\
  json_float_ok nan = false /\
  CreateCouponPayment "BOND_001" "2024-06-01" nan ctx0 couponPaid
    = (Err FailedToMarshalCoupon, couponPaid) /\
  CreateRedemption "BOND_001" "2024-06-01" nan ctx0 couponPaid
    = (Err FailedToMarshalRedemption, couponPaid).
Proof.
  assert (H1 : parseDate "2024-06-01" <> None) by discriminate.
  assert (H2 : json_float_ok nan = false) by reflexivity.
  split; [exact H1 | ]. split; [exact H2 | ].
  exact (proj2 (proj2 (Create_fails_cleanly ctx0 couponPaid "BOND_001" "2024-06-01" nan))
           H1 H2).
Defined.

(** X25.  [ProcessCouponPayment] does not check that the record under the
    identifier is a coupon payment.  The JSON of a redemption decodes into
    a [CouponPayment] (the two share "id", "bondId", "amount", "status",
    "txId" and "metadata"), so on the identifier of a PENDING redemption
    the call succeeds and writes a PAID coupon payment in its place.  On
    every ledger on which that document is still the one under the
    identifier, [ProcessRedemption] of it fails with "redemption ... is
    not pending" and [ProcessCouponPayment] with "coupon payment ... is
    not pending", neither writing: the redemption stays uncompleted until
    something else is written under the identifier. *)
Theorem ProcessCouponPayment_consumes_a_redemption (c : Ctx) (l : Ledger) (id : string)
    (r : Redemption) :
  world l !! id = Some (VRedemption r) ->
  Redemption_Status r = "PENDING" ->
  json_float_ok (Redemption_Amount r) = true ->
  exists l',
    ProcessCouponPayment id c l = (Ok tt, l') /\
    world l' !! id
      = Some (VCoupon (mkCouponPayment (Redemption_ID r) (Redemption_BondID r) zeroTime
                         (Redemption_Amount r) "PAID" (now c) (txID c)
                         (Redemption_Metadata r))) /\
    forall c' l'',
      world l'' !! id = world l' !! id ->
      ProcessRedemption id c' l'' = (Err (RedemptionNotPending id), l'') /\
      ProcessCouponPayment id c' l'' = (Err (CouponNotPending id), l'').
Proof.
  intros Hv Hs Hf. eexists.
  split; [apply (ProcessCouponPayment_success c l id (VRedemption r)); assumption | ].
  cbn [world]. split; [rewrite lookup_insert_eq; reflexivity | ].
  intros c' l'' Hsame. rewrite lookup_insert_eq in Hsame. split.
  - eapply ProcessRedemption_not_pending; [exact Hsame | cbn; discriminate].
  - eapply ProcessCouponPayment_not_pending; [exact Hsame | cbn; discriminate].
Qed.

Lemma ProcessCouponPayment_consumes_a_redemption_witness :
  world redemptionCreated !! "REDEMPTION_BOND_001_20240601"
    = Some (VRedemption (mkRedemption "REDEMPTION_BOND_001_20240601" "BOND_001"
                           (mkTime 2029 1 1 0) 1000%float "PENDING" zeroTime "" (Some ∅))) /\
  exists l',
    ProcessCouponPayment "REDEMPTION_BOND_001_20240601" ctx1 redemptionCreated = (Ok tt, l') /\
    world l' !! "REDEMPTION_BOND_001_20240601"
      = Some (VCoupon (mkCouponPayment "REDEMPTION_BOND_001_20240601" "BOND_001" zeroTime
                         1000%float "PAID" (now ctx1) (txID ctx1) (Some ∅))) /\
    forall c' l'',
      world l'' !! "REDEMPTION_BOND_001_20240601"
        = world l' !! "REDEMPTION_BOND_001_20240601" ->
      ProcessRedemption "REDEMPTION_BOND_001_20240601" c' l''
        = (Err (RedemptionNotPending "REDEMPTION_BOND_001_20240601"), l'') /\
      ProcessCouponPayment "REDEMPTION_BOND_001_20240601" c' l''
        = (Err (CouponNotPending "REDEMPTION_BOND_001_20240601"), l'').
Proof.
  assert (H1 : world redemptionCreated !! "REDEMPTION_BOND_001_20240601"
    = Some (VRedemption (mkRedemption "REDEMPTION_BOND_001_20240601" "BOND_001"
                           (mkTime 2029 1 1 0) 1000%float "PENDING" zeroTime "" (Some ∅))))
    by (vm_compute; reflexivity).
  split; [exact H1 | ].
  exact (ProcessCouponPayment_consumes_a_redemption ctx1 redemptionCreated
           "REDEMPTION_BOND_001_20240601" _ H1 eq_refl eq_refl).
Defined.

End CorporateActionMore.
